(** * litgpt: full fine-tuning loop, data modules and checkpoint downloader

    A shallow embedding of the Python sources

      - [finetune/full.py]            ([setup], [main], [fit], [validate],
                                       [get_lr_scheduler], [validate_args], ...)
      - [lit_gpt/data/deita.py]       ([Deita], [format_dataset])
      - [lit_gpt/datasets/lima.py]    ([LIMA], [setup], [format_dataset])
      - [lit_gpt/datasets/alpaca.py]  ([Alpaca], [setup], [download_if_missing],
                                       [prompt_template])
      - [litgpt/data/tinystories.py]  ([TinyStories], [tokenize])
      - [scripts/download.py]         ([download_from_hub])

    Python integers are [Z], Python floats that only carry exact arithmetic
    (losses, learning-rate factors) are [Q], dictionaries are [gmap],
    exceptions are values of [exn] threaded through the [result] monad. *)

From Stdlib Require Import QArith Ascii String.
From stdpp Require Import base option list gmap strings numbers pretty.

Local Open Scope string_scope.
Local Open Scope Z_scope.
Local Open Scope list_scope.

(** ** Python runtime: exceptions, results, containers *)

Inductive exn : Type :=
  | ValueError (msg : string)
  | KeyError (key : string)
  | NameError (name : string)
  | AttributeError (name : string)
  | ModuleNotFoundError (msg : string)
  | IndexError
  | ZeroDivisionError
  | StopIteration
  | TypeError.

Inductive result (A : Type) : Type :=
  | Ok (a : A)
  | Raise (e : exn).
Arguments Ok {A} a.
Arguments Raise {A} e.

#[global] Instance result_ret : MRet result := fun A a => Ok a.
#[global] Instance result_bind : MBind result := fun A B f m =>
  match m with
  | Ok a => f a
  | Raise e => Raise e
  end.

Definition is_ok {A} (r : result A) : bool :=
  match r with Ok _ => true | Raise _ => false end.

(** A computation that records what it did before it returned or raised. *)
Definition traced (E A : Type) : Type := list E * result A.

#[global] Instance traced_ret {E} : MRet (traced E) := fun A a => ([], Ok a).
#[global] Instance traced_bind {E} : MBind (traced E) := fun A B f m =>
  match m with
  | (t, Ok a) => let '(t', r) := f a in (t ++ t', r)
  | (t, Raise e) => (t, Raise e)
  end.

Definition tell {E} (e : E) : traced E unit := ([e], Ok tt).
Definition lift {E A} (r : result A) : traced E A := ([], r).

(** The computation [m] run after the events [t]. *)
Definition after {E A} (t : list E) (m : traced E A) : traced E A := (t ++ m.1, m.2).

(** [for x in xs: s = body(s, x)], stopping at the first exception. *)
Fixpoint for_in {A S : Type} (xs : list A) (body : S -> A -> result S) (s : S)
  : result S :=
  match xs with
  | [] => Ok s
  | x :: xs' => s' ← body s x; for_in xs' body s'
  end.

(** [range(start, stop, step)] for a positive [step]. *)
Definition py_range (start stop step : Z) : list Z :=
  (fun k => start + step * k) <$> seqZ 0 ((stop - start + step - 1) `div` step).

(** [l[i]]: negative indices count from the end, anything outside raises. *)
Definition py_index {A} (l : list A) (i : Z) : result A :=
  let j := if decide (i < 0) then Z.of_nat (length l) + i else i in
  if decide (j < 0) then Raise IndexError
  else match l !! Z.to_nat j with
       | Some a => Ok a
       | None => Raise IndexError
       end.

(** [d[k]] on a dictionary with string keys. *)
Definition py_getitem {V} (d : gmap string V) (k : string) : result V :=
  match d !! k with
  | Some v => Ok v
  | None => Raise (KeyError k)
  end.

(** [a % b] and [a // b]: floored, as [Z.modulo] and [Z.div] are, but the
    zero divisor raises. *)
Definition py_mod (a b : Z) : result Z :=
  if decide (b = 0) then Raise ZeroDivisionError else Ok (a `mod` b).
Definition py_floordiv (a b : Z) : result Z :=
  if decide (b = 0) then Raise ZeroDivisionError else Ok (a `div` b).

(** [str.strip], [int()], [str.split], [str.endswith] and [max()], on ASCII
    strings. *)

(** [c.isspace()] *)
Definition py_isspace (c : ascii) : bool :=
  bool_decide (9 <= nat_of_ascii c <= 13 \/ 28 <= nat_of_ascii c <= 32)%nat.

(** [s.lstrip()], [s.rstrip()], [s.strip()] *)
Fixpoint py_lstrip (s : string) : string :=
  match s with
  | String c s' => if py_isspace c then py_lstrip s' else s
  | EmptyString => EmptyString
  end.

Fixpoint py_rstrip (s : string) : string :=
  match s with
  | String c s' =>
    match py_rstrip s' with
    | EmptyString => if py_isspace c then EmptyString else String c EmptyString
    | r => String c r
    end
  | EmptyString => EmptyString
  end.

Definition py_strip (s : string) : string := py_lstrip (py_rstrip s).

(** The digits of an integer literal: at least one, and single underscores
    only between two digits.  [acc] is the value of the digits read,
    [after_digit] whether the last character read was one. *)
Fixpoint parse_digits (acc : Z) (after_digit : bool) (s : string) : option Z :=
  match s with
  | String c s' =>
    match Ascii.is_nat c with
    | Some d => parse_digits (10 * acc + Z.of_nat d) true s'
    | None =>
      if decide (c = "_"%char) then
        if after_digit then parse_digits acc false s' else None
      else None
    end
  | EmptyString => if after_digit then Some acc else None
  end.

(** [int(s)] for a string [s] *)
Definition py_int (s : string) : result Z :=
  let invalid := Raise (ValueError ("invalid literal for int() with base 10: " +:+ s)) in
  let literal := py_strip s in
  match literal with
  | String sign digits =>
    if decide (sign = "-"%char) then
      match parse_digits 0 false digits with Some n => Ok (- n) | None => invalid end
    else if decide (sign = "+"%char) then
      match parse_digits 0 false digits with Some n => Ok n | None => invalid end
    else
      match parse_digits 0 false literal with Some n => Ok n | None => invalid end
  | EmptyString => invalid
  end.

(** [s.split(sep)] for a separator of one character *)
Fixpoint py_split (sep : ascii) (s : string) : list string :=
  match s with
  | String c s' =>
    if decide (c = sep) then EmptyString :: py_split sep s'
    else match py_split sep s' with
         | piece :: pieces => String c piece :: pieces
         | [] => [String c EmptyString]
         end
  | EmptyString => [EmptyString]
  end.

(** [s.endswith(suffix)] *)
Fixpoint py_endswith (suffix s : string) : bool :=
  if decide (s = suffix) then true
  else match s with
       | String _ s' => py_endswith suffix s'
       | EmptyString => false
       end.

(** [max(xs, key=key)]: the first of the items whose key is the largest. *)
Definition py_max {A} (key : A -> result Z) (xs : list A) : result A :=
  match xs with
  | [] => Raise (ValueError "max() arg is an empty sequence")
  | x :: xs' =>
    k ← key x;
    '(best, _) ← for_in xs' (fun '(best, kbest) y =>
        ky ← key y;
        Ok (if decide (kbest < ky) then (y, ky) else (best, kbest))) (x, k);
    Ok best
  end.

Definition nl : string := String "010"%char EmptyString.

(** A record handed to the supervised fine-tuning dataset: a [dict] with
    string keys and string values. *)
Definition sft_record (instruction input output : string) : gmap string string :=
  <["instruction" := instruction]> (<["input" := input]> (<["output" := output]> ∅)).

(** ** Framework objects the data modules build

    [torch.Generator], [torch.utils.data.DataLoader], the tokenizer and the
    supervised fine-tuning dataset are not code of this repository's
    [finetune] and data modules; they are described by what the sources pass
    to them and by the part of their behaviour the training loop relies on. *)

(** A random generator state with the three draws the loaders make. *)
Class TorchRNG (G : Type) := {
  (** [torch.Generator().manual_seed(seed)] *)
  manual_seed : Z -> G;
  (** [torch.empty((), dtype=torch.int64).random_(generator=g).item()] *)
  random_ : G -> Z * G;
  (** [torch.randperm(n, generator=g)] *)
  randperm : nat -> G -> list nat * G;
  randperm_perm : forall n g, (randperm n g).1 ≡ₚ seq 0 n
}.

(** Modelled from the spec: [Tokenizer] of lit_gpt/tokenizer.py, which the
    spec counts among the third-party tokenizers.  [Tokenizer(checkpoint_dir)]:
    a tokenizer is identified by the directory it was loaded from. *)
Record Tokenizer := { tokenizer_dir : string }.

(** Modelled from the spec: [SFTDataset] of lit_gpt/data (lit_gpt/datasets),
    the "generic supervised-fine-tuning dataset class" the formatted records
    are handed to; the keyword arguments of [SFTDataset(...)]. *)
Record SFTDataset := {
  sft_data : list (gmap string string);
  sft_tokenizer : option Tokenizer;
  sft_prompt_template : gmap string string -> result string;
  sft_max_seq_length : Z;
  sft_mask_prompt : bool;
  sft_ignore_index : Z
}.

(** Modelled from the spec: the collate function of the same class,
    [partial(sft_collate_fn, max_seq_length=.., ignore_index=..)] and
    [get_sft_collate_fn(max_seq_length=.., ignore_index=..)]. *)
Record collate_fn := {
  collate_max_seq_length : Z;
  collate_ignore_index : Z
}.

(** [DataLoader(dataset, batch_size=.., shuffle=.., generator=..,
    num_workers=.., collate_fn=.., pin_memory=.., drop_last=..)].  The
    generator is the loader's own mutable [torch.Generator], here its current
    state; [None] when the call passes none. *)
Record DataLoader (D G : Type) := {
  dl_dataset : D;
  dl_batch_size : Z;
  dl_shuffle : bool;
  dl_generator : option G;
  dl_num_workers : Z;
  dl_collate_fn : option collate_fn;
  dl_pin_memory : bool;
  dl_drop_last : bool
}.
Arguments dl_dataset {D G} _.
Arguments dl_batch_size {D G} _.
Arguments dl_shuffle {D G} _.
Arguments dl_generator {D G} _.
Arguments dl_num_workers {D G} _.
Arguments dl_collate_fn {D G} _.
Arguments dl_pin_memory {D G} _.
Arguments dl_drop_last {D G} _.

(** The same loader over another view of its dataset. *)
Definition dl_with_dataset {D D' G} (dl : DataLoader D G) (d : D') : DataLoader D' G :=
  {| dl_dataset := d; dl_batch_size := dl_batch_size dl; dl_shuffle := dl_shuffle dl;
     dl_generator := dl_generator dl; dl_num_workers := dl_num_workers dl;
     dl_collate_fn := dl_collate_fn dl; dl_pin_memory := dl_pin_memory dl;
     dl_drop_last := dl_drop_last dl |}.

(** A tokenized example as the dataset yields it, and a collated batch. *)
Record sample := { input_ids : list Z; labels : list Z }.
Abbreviation batch := (list sample).

(** Consecutive slices of [n] elements; the last one may be shorter. *)
Fixpoint chunks {A} (fuel : nat) (n : nat) (l : list A) : list (list A) :=
  match fuel with
  | O => []
  | S fuel' =>
    match l with
    | [] => []
    | _ :: _ => take n l :: chunks fuel' n (drop n l)
    end
  end.

(** One draw from the loader's own generator when it has one, from the
    default generator otherwise. *)
Definition draw {G A} (own_draw default_draw : G -> A * G) (own : option G) (default : G)
  : A * option G * G :=
  match own with
  | Some g => let '(a, g') := own_draw g in (a, Some g', default)
  | None => let '(a, d') := default_draw default in (a, None, d')
  end.

(** [torch.utils.data.random_split(dataset, [1.0 - fraction, fraction],
    generator=g)], as the lists of the two subsets.  [split_lengths n
    fraction] stands for the two lengths that torch computes from the
    fractions in floating point ([floor(n * frac)] each, the remainder
    handed out one by one) or the [ValueError] it raises for fractions it
    does not accept; the lengths have to add up to the length of the dataset;
    the indices are a random permutation, cut at the first length. *)
Definition random_split {G A} `{!TorchRNG G} (split_lengths : nat -> Q -> result (nat * nat))
    (dataset : list A) (fraction : Q) (g : G) : result (list A * list A) :=
  '(n1, n2) ← split_lengths (length dataset) fraction;
  if decide ((n1 + n2)%nat <> length dataset) then
    Raise (ValueError "Sum of input lengths does not equal the length of the input dataset!")
  else
    let indices := (randperm (n1 + n2) g).1 in
    Ok (omap (fun i => dataset !! i) (take n1 indices),
        omap (fun i => dataset !! i) (take n2 (drop n1 indices))).

Section DataLoaderIteration.
(** [items] lists what the dataset yields at the indices 0, 1, ... *)
Context {G : Type} `{!TorchRNG G} {D : Type} (items : D -> list sample).

(** The order in which a [RandomSampler] over [n] items yields them: with
    no generator of its own it seeds a fresh one from the default
    generator. *)
Definition random_sampler (n : nat) (own : option G) (default : G)
  : list nat * option G * G :=
  draw (randperm n)
       (fun d => let '(seed, d') := random_ d in ((randperm n (manual_seed seed)).1, d'))
       own default.

(** [iter(dataloader)] run to the end of the epoch: the base seed for the
    workers is drawn, then the sampler's order, and the items are collated
    [batch_size] at a time.  Returns the batches of the epoch, the loader
    (its generator has advanced) and the default generator. *)
Definition iter_dataloader (dl : DataLoader D G) (default : G)
  : result (list batch * DataLoader D G * G) :=
  if decide (dl_batch_size dl <= 0) then
    Raise (ValueError "batch_size should be a positive integer value")
  else
    let data := items (dl_dataset dl) in
    let n := length data in
    let '(_, own, default) := draw random_ random_ (dl_generator dl) default in
    let '(order, own, default) :=
      if dl_shuffle dl then random_sampler n own default else (seq 0 n, own, default) in
    let bs := Z.to_nat (dl_batch_size dl) in
    let batches := chunks n bs (omap (fun i => data !! i) order) in
    let batches :=
      if dl_drop_last dl then filter (fun b => length b = bs) batches else batches in
    Ok (batches,
        {| dl_dataset := dl_dataset dl; dl_batch_size := dl_batch_size dl;
           dl_shuffle := dl_shuffle dl; dl_generator := own;
           dl_num_workers := dl_num_workers dl; dl_collate_fn := dl_collate_fn dl;
           dl_pin_memory := dl_pin_memory dl; dl_drop_last := dl_drop_last dl |},
        default).

(** [len(dataloader)] *)
Definition len_dataloader (dl : DataLoader D G) : result Z :=
  let n := Z.of_nat (length (items (dl_dataset dl))) in
  if dl_drop_last dl then py_floordiv n (dl_batch_size dl)
  else py_floordiv (n + dl_batch_size dl - 1) (dl_batch_size dl).

(** Modelled from the spec: [CycleIterator] of lit_gpt/utils.py, the
    "cycling data iterator" the training loop draws its batches from.  It
    iterates over the loader, starts over when the loader is exhausted and
    counts the epochs it has completed. *)
Record CycleIterator := {
  iterable : DataLoader D G;
  epoch : Z;
  _iterator : option (list batch)
}.

Definition CycleIterator_new (dl : DataLoader D G) : CycleIterator :=
  {| iterable := dl; epoch := 0; _iterator := None |}.

(** [next(cycle_iterator)] *)
Definition cycle_next (it : CycleIterator) (default : G)
  : result (batch * CycleIterator * G) :=
  '(current, dl, default) ←
    match _iterator it with
    | None => iter_dataloader (iterable it) default
    | Some current => Ok (current, iterable it, default)
    end;
  match current with
  | b :: rest => Ok (b, {| iterable := dl; epoch := epoch it; _iterator := Some rest |}, default)
  | [] =>
    '(current, dl, default) ← iter_dataloader dl default;
    match current with
    | b :: rest =>
      Ok (b, {| iterable := dl; epoch := epoch it + 1; _iterator := Some rest |}, default)
    | [] => Raise StopIteration
    end
  end.

End DataLoaderIteration.
Arguments CycleIterator G D : clear implicits.
Arguments iterable {G D} _.
Arguments epoch {G D} _.
Arguments _iterator {G D} _.
Arguments CycleIterator_new {G D} dl.

(** Names bound in a scope, for the lookup of a bare name. *)
Inductive pyobj : Type :=
  | PyNone
  | PyStr (s : string)
  | PyDict (d : gmap string string)
  | PyBuiltinFunction (name : string)
  | PyModuleLevel (name : string).

(** [bool(o)] *)
Definition truth (o : pyobj) : bool :=
  match o with
  | PyNone => false
  | PyStr s => bool_decide (s <> "")
  | PyDict d => bool_decide (d <> ∅)
  | PyBuiltinFunction _ => true
  | PyModuleLevel _ => true
  end.

(** The part of the [builtins] module that matters to the sources. *)
Definition builtins : gmap string pyobj :=
  list_to_map ((fun n => (n, PyBuiltinFunction n)) <$>
    ["input"; "open"; "print"; "len"; "isinstance"; "str"; "int"; "max"; "min"; "list"]).

(** Name lookup in a function body: locals, then module globals, then
    builtins. *)
Definition load_name (locals globals : gmap string pyobj) (name : string) : result pyobj :=
  match locals !! name with
  | Some o => Ok o
  | None =>
    match globals !! name with
    | Some o => Ok o
    | None =>
      match builtins !! name with
      | Some o => Ok o
      | None => Raise (NameError name)
      end
    end
  end.

(** Modelled from the spec: [LitDataModule] of lit_gpt/data, the "uniform
    data-module contract", with the methods [get_dataloaders] calls.  A
    loader built before [setup] has no dataset. *)
Class LitDataModule (T G : Type) := {
  dm_connect : T -> option Tokenizer -> Z -> option Z -> T;
  dm_prepare_data : T -> result unit;
  dm_setup : T -> result T;
  dm_train_dataloader : T -> DataLoader (option SFTDataset) G;
  dm_val_dataloader : T -> DataLoader (option SFTDataset) G
}.

(** The data-module contract the training script calls
    ([get_dataloaders], full.py lines 283-291). *)
Definition data_module_contract : list string :=
  ["connect"; "prepare_data"; "setup"; "train_dataloader"; "val_dataloader"].

(** ** lit_gpt/datasets/alpaca.py *)

Module alpaca.

(** Names bound at module level by the imports, the assignment of [wd] and
    the [class] and [def] statements of alpaca.py. *)
Definition module_globals : gmap string pyobj :=
  list_to_map ((fun n => (n, PyModuleLevel n)) <$>
    ["tempfile"; "partial"; "json"; "sys"; "Path"; "Optional"; "Union"; "Dict";
     "torch"; "random_split"; "DataLoader"; "RequirementCache";
     "LightningDataModule"; "SFTDataset"; "sft_collate_fn"; "wd"; "Tokenizer";
     "Alpaca"; "download_if_missing"; "prompt_template"]).

(** The two strings [prompt_template] can return. *)
Definition prompt_with_input (instruction input : string) : string :=
  "Below is an instruction that describes a task, paired with an input that provides further context. "
  +:+ "Write a response that appropriately completes the request." +:+ nl +:+ nl
  +:+ "### Instruction:" +:+ nl +:+ instruction +:+ nl +:+ nl
  +:+ "### Input:" +:+ nl +:+ input +:+ nl +:+ nl +:+ "### Response:" +:+ nl.

Definition prompt_without_input (instruction : string) : string :=
  "Below is an instruction that describes a task. "
  +:+ "Write a response that appropriately completes the request." +:+ nl +:+ nl
  +:+ "### Instruction:" +:+ nl +:+ instruction +:+ nl +:+ nl +:+ "### Response:" +:+ nl.

(** alpaca.py, lines 134-145.  The condition is the bare name [input]: the
    function has the one local [example], the module binds no [input]. *)
Definition prompt_template (example : gmap string string) : result string :=
  cond ← load_name {[ "example" := PyDict example ]} module_globals "input";
  if truth cond then
    instruction ← py_getitem example "instruction";
    input ← py_getitem example "input";
    Ok (prompt_with_input instruction input)
  else
    instruction ← py_getitem example "instruction";
    Ok (prompt_without_input instruction).

(** [tokenizer_or_path: Union[str, Path, Tokenizer]] *)
Inductive tokenizer_or_path : Type :=
  | OfPath (p : string)
  | OfTokenizer (t : Tokenizer).

Record Alpaca := {
  tokenizer : Tokenizer;
  max_seq_length : Z;
  mask_prompt : bool;
  test_split_fraction : Q;
  ignore_index : Z;
  seed : Z;
  batch_size : Z;
  num_workers : Z;
  data_file_path : string;
  data_file_url : string;
  train_dataset : option SFTDataset;
  test_dataset : option SFTDataset
}.

(** Methods defined in the body of [class Alpaca]. *)
Definition methods : list string :=
  ["__init__"; "prepare_data"; "setup"; "train_dataloader"; "val_dataloader";
   "test_dataloader"].

(** alpaca.py, lines 31-65; [tmpdir] is what [tempfile.mkdtemp()] returns. *)
Definition __init__ (tmpdir : string) (tokenizer_or_path0 : tokenizer_or_path)
    (max_seq_length0 : Z) (mask_prompt0 : bool) (test_split_fraction0 : Q)
    (ignore_index0 seed0 : Z) (data_file_name data_file_url0 : string)
    (batch_size0 num_workers0 : Z) : Alpaca :=
  {| tokenizer := match tokenizer_or_path0 with
                  | OfPath p => {| tokenizer_dir := p |}
                  | OfTokenizer t => t
                  end;
     max_seq_length := max_seq_length0;
     mask_prompt := mask_prompt0;
     test_split_fraction := test_split_fraction0;
     ignore_index := ignore_index0;
     seed := seed0;
     batch_size := batch_size0;
     num_workers := num_workers0;
     data_file_path := tmpdir +:+ "/" +:+ data_file_name;
     data_file_url := data_file_url0;
     train_dataset := None;
     test_dataset := None |}.

(** alpaca.py, lines 99-106: shuffled, and no [generator] is passed. *)
Definition train_dataloader {G} (self : Alpaca) : DataLoader (option SFTDataset) G :=
  {| dl_dataset := train_dataset self;
     dl_batch_size := batch_size self;
     dl_shuffle := true;
     dl_generator := None;
     dl_num_workers := num_workers self;
     dl_collate_fn := Some {| collate_max_seq_length := max_seq_length self;
                              collate_ignore_index := ignore_index self |};
     dl_pin_memory := false;
     dl_drop_last := false |}.

(** alpaca.py, lines 108-115. *)
Definition val_dataloader {G} (self : Alpaca) : DataLoader (option SFTDataset) G :=
  {| dl_dataset := test_dataset self;
     dl_batch_size := batch_size self;
     dl_shuffle := false;
     dl_generator := None;
     dl_num_workers := num_workers self;
     dl_collate_fn := Some {| collate_max_seq_length := max_seq_length self;
                              collate_ignore_index := ignore_index self |};
     dl_pin_memory := false;
     dl_drop_last := false |}.

(** *** [download_if_missing] and [prepare_data] (lines 67-68, 121-131)

    The file system as the function sees it: the text of the regular files,
    by path; the directory of [file_path] is there.  [requests_get url] is
    [requests.get(url).text], or the exception the request raises. *)

(** What a call has done: the files it leaves, the URLs it has requested
    and how it ended. *)
Record download := {
  files : gmap string string;
  requested : list string;
  ended : result unit
}.

Section Download.
Context (requests_available : bool) (requests_get : string -> result string).

(** Lines 121-131.  [open(file_path, "w")] creates or empties the file
    before the request is made. *)
Definition download_if_missing (file_path file_url : string) (fs : gmap string string)
  : download :=
  let exists_and_not_empty :=
    match fs !! file_path with
    | Some text => bool_decide (text <> "")
    | None => false
    end in
  if exists_and_not_empty then {| files := fs; requested := []; ended := Ok tt |}
  else if negb requests_available then
    {| files := fs; requested := []; ended := Raise (ModuleNotFoundError "requests") |}
  else
    let fs := <[file_path := ""]> fs in
    match requests_get file_url with
    | Ok text =>
      {| files := <[file_path := text]> fs; requested := [file_url]; ended := Ok tt |}
    | Raise e => {| files := fs; requested := [file_url]; ended := Raise e |}
    end.

(** Lines 67-68. *)
Definition prepare_data (self : Alpaca) (fs : gmap string string) : download :=
  download_if_missing (data_file_path self) (data_file_url self) fs.

End Download.

Section Setup.
(** [json.load] of the file at a path, and the lengths [random_split]
    computes. *)
Context {G : Type} `{!TorchRNG G}.
Context (json_load : string -> result (list (gmap string string)))
        (split_lengths : nat -> Q -> result (nat * nat)).

(** Lines 70-97. *)
Definition setup (self : Alpaca) : result Alpaca :=
  data ← json_load (data_file_path self);
  '(train_data, test_data) ←
    random_split split_lengths data (test_split_fraction self) (manual_seed (seed self));
  let sft data :=
    {| sft_data := data; sft_tokenizer := Some (tokenizer self);
       sft_prompt_template := prompt_template;
       sft_max_seq_length := max_seq_length self;
       sft_mask_prompt := mask_prompt self;
       sft_ignore_index := ignore_index self |} in
  Ok {| tokenizer := tokenizer self; max_seq_length := max_seq_length self;
        mask_prompt := mask_prompt self; test_split_fraction := test_split_fraction self;
        ignore_index := ignore_index self; seed := seed self;
        batch_size := batch_size self; num_workers := num_workers self;
        data_file_path := data_file_path self; data_file_url := data_file_url self;
        train_dataset := Some (sft train_data);
        test_dataset := Some (sft test_data) |}.

End Setup.

(** Lines 117-118. *)
Definition test_dataloader {G} (self : Alpaca) : DataLoader (option SFTDataset) G :=
  val_dataloader self.

End alpaca.

(** ** lit_gpt/data/deita.py and lit_gpt/datasets/lima.py: [format_dataset] *)

Module deita.

(** One turn of a conversation in the [HuggingFaceH4/deita-10k-v0-sft]
    schema. *)
Record message := { role : string; content : string }.
#[global] Instance message_inhabited : Inhabited message :=
  populate {| role := ""; content := "" |}.
Record entry := { messages : list message }.

(** deita.py, lines 101-112. *)
Definition format_dataset (dataset_partition : list entry)
    (include_multi_turn_conversations : bool) : result (list (gmap string string)) :=
  for_in dataset_partition (fun formatted_ds entry =>
    let convo := messages entry in
    if include_multi_turn_conversations then
      for_in (py_range 0 (Z.of_nat (length convo) - 1) 2) (fun formatted_ds i =>
        a ← py_index convo i;
        b ← py_index convo (i + 1);
        Ok (formatted_ds ++ [sft_record (content a) "" (content b)])) formatted_ds
    else
      a ← py_index convo 0;
      b ← py_index convo 1;
      Ok (formatted_ds ++ [sft_record (content a) "" (content b)])) [].


(** The fields of the dataclass [Deita] (lines 20-39). *)
Record Deita := {
  mask_prompt : bool;
  ignore_index : Z;
  seed : Z;
  num_workers : Z;
  include_multiturn_conversations : bool;
  download_dir : string;
  repo_id : string;
  tokenizer : option Tokenizer;
  batch_size : Z;
  max_seq_length : Z;
  train_dataset : option SFTDataset;
  test_dataset : option SFTDataset
}.

(** [Deita()] *)
Definition Deita_default : Deita :=
  {| mask_prompt := false; ignore_index := -1; seed := 42; num_workers := 4;
     include_multiturn_conversations := false; download_dir := "data/deita";
     repo_id := "HuggingFaceH4/deita-10k-v0-sft"; tokenizer := None; batch_size := 1;
     max_seq_length := -1; train_dataset := None; test_dataset := None |}.

(** Methods defined in the body of [class Deita]. *)
Definition methods : list string :=
  ["connect"; "prepare_data"; "setup"; "train_dataloader"; "val_dataloader"].

(** deita.py, lines 41-49. *)
Definition connect (self : Deita) (tokenizer0 : option Tokenizer) (batch_size0 : Z)
    (max_seq_length0 : option Z) : Deita :=
  {| mask_prompt := mask_prompt self; ignore_index := ignore_index self;
     seed := seed self; num_workers := num_workers self;
     include_multiturn_conversations := include_multiturn_conversations self;
     download_dir := download_dir self; repo_id := repo_id self;
     tokenizer := tokenizer0;
     batch_size := batch_size0;
     max_seq_length := match max_seq_length0 with None => -1 | Some n => n end;
     train_dataset := train_dataset self; test_dataset := test_dataset self |}.

Section DeitaModule.
(** [datasets.load_dataset(repo_id, split=[..])] and the [prompt_template]
    imported from lit_gpt.data.alpaca. *)
Context (load_dataset : string -> list string -> result (list (list entry)))
        (prompt_template : gmap string string -> result string).
Context {G : Type} `{!TorchRNG G}.

(** deita.py, lines 51-54: fills the download cache. *)
Definition prepare_data (self : Deita) : result unit :=
  load_dataset (repo_id self) ["train_sft"; "test_sft"] ;; Ok tt.

(** deita.py, lines 56-79. *)
Definition setup (self : Deita) : result Deita :=
  dataset ← load_dataset (repo_id self) ["train_sft"; "test_sft"];
  part0 ← py_index dataset 0;
  train_data ← format_dataset part0 (include_multiturn_conversations self);
  part1 ← py_index dataset 1;
  test_data ← format_dataset part1 (include_multiturn_conversations self);
  let sft data :=
    {| sft_data := data; sft_tokenizer := tokenizer self;
       sft_prompt_template := prompt_template;
       sft_max_seq_length := max_seq_length self;
       sft_mask_prompt := mask_prompt self;
       sft_ignore_index := ignore_index self |} in
  Ok {| mask_prompt := mask_prompt self; ignore_index := ignore_index self;
        seed := seed self; num_workers := num_workers self;
        include_multiturn_conversations := include_multiturn_conversations self;
        download_dir := download_dir self; repo_id := repo_id self;
        tokenizer := tokenizer self; batch_size := batch_size self;
        max_seq_length := max_seq_length self;
        train_dataset := Some (sft train_data);
        test_dataset := Some (sft test_data) |}.

(** deita.py, lines 81-89: shuffled by a generator of the loader's own,
    seeded with [self.seed]. *)
Definition train_dataloader (self : Deita) : DataLoader (option SFTDataset) G :=
  {| dl_dataset := train_dataset self;
     dl_batch_size := batch_size self;
     dl_shuffle := true;
     dl_generator := Some (manual_seed (seed self));
     dl_num_workers := num_workers self;
     dl_collate_fn := Some {| collate_max_seq_length := max_seq_length self;
                              collate_ignore_index := ignore_index self |};
     dl_pin_memory := false;
     dl_drop_last := false |}.

(** deita.py, lines 91-98. *)
Definition val_dataloader (self : Deita) : DataLoader (option SFTDataset) G :=
  {| dl_dataset := test_dataset self;
     dl_batch_size := batch_size self;
     dl_shuffle := false;
     dl_generator := None;
     dl_num_workers := num_workers self;
     dl_collate_fn := Some {| collate_max_seq_length := max_seq_length self;
                              collate_ignore_index := ignore_index self |};
     dl_pin_memory := false;
     dl_drop_last := false |}.

#[export] Instance Deita_data_module : LitDataModule Deita G :=
  {| dm_connect := connect;
     dm_prepare_data := prepare_data;
     dm_setup := setup;
     dm_train_dataloader := train_dataloader;
     dm_val_dataloader := val_dataloader |}.

End DeitaModule.

End deita.

Module lima.

(** One row of the [GAIR/lima] training split. *)
Record entry := { conversations : list string; source : string }.

(** lima.py, lines 128-139. *)
Definition format_dataset (dataset_partition : list entry)
    (include_multi_turn_conversations : bool) : result (list (gmap string string)) :=
  for_in dataset_partition (fun formatted_ds entry =>
    let convo := conversations entry in
    if include_multi_turn_conversations then
      for_in (py_range 0 (Z.of_nat (length convo) - 1) 2) (fun formatted_ds i =>
        a ← py_index convo i;
        b ← py_index convo (i + 1);
        Ok (formatted_ds ++ [sft_record a "" b])) formatted_ds
    else
      a ← py_index convo 0;
      b ← py_index convo 1;
      Ok (formatted_ds ++ [sft_record a "" b])) [].


Record LIMA := {
  tokenizer : Tokenizer;
  max_seq_length : Z;
  mask_prompt : bool;
  test_split_fraction : Q;
  ignore_index : Z;
  seed : Z;
  batch_size : Z;
  num_workers : Z;
  access_token : string;
  data_repo_id : string;
  include_multiturn_conversations : bool;
  train_dataset : option SFTDataset;
  test_dataset : option SFTDataset
}.

(** Methods defined in the body of [class LIMA]. *)
Definition methods : list string :=
  ["__init__"; "prepare_data"; "setup"; "train_dataloader"; "val_dataloader";
   "test_dataloader"].

(** lima.py, lines 29-68. *)
Definition __init__ (tokenizer_or_path0 : alpaca.tokenizer_or_path)
    (max_seq_length0 : Z) (mask_prompt0 : bool) (test_split_fraction0 : Q)
    (ignore_index0 seed0 : Z) (include_multiturn_conversations0 : bool)
    (data_repo_id0 : string) (access_token0 : option string)
    (batch_size0 num_workers0 : Z) : result LIMA :=
  match access_token0 with
  | None =>
    Raise (ValueError ("LIMA requires authentication, please set the `HF_TOKEN=your_token` environment"
      +:+ " variable or pass --access_token=your_token. You can find your token by visiting"
      +:+ " https://huggingface.co/settings/tokens"))
  | Some token =>
    Ok {| tokenizer := match tokenizer_or_path0 with
                       | alpaca.OfPath p => {| tokenizer_dir := p |}
                       | alpaca.OfTokenizer t => t
                       end;
          max_seq_length := max_seq_length0;
          mask_prompt := mask_prompt0;
          test_split_fraction := test_split_fraction0;
          ignore_index := ignore_index0;
          seed := seed0;
          batch_size := batch_size0;
          num_workers := num_workers0;
          access_token := token;
          data_repo_id := data_repo_id0;
          include_multiturn_conversations := include_multiturn_conversations0;
          train_dataset := None;
          test_dataset := None |}
  end.

(** lima.py, lines 106-113: shuffled, and no [generator] is passed. *)
Definition train_dataloader {G} (self : LIMA) : DataLoader (option SFTDataset) G :=
  {| dl_dataset := train_dataset self;
     dl_batch_size := batch_size self;
     dl_shuffle := true;
     dl_generator := None;
     dl_num_workers := num_workers self;
     dl_collate_fn := Some {| collate_max_seq_length := max_seq_length self;
                              collate_ignore_index := ignore_index self |};
     dl_pin_memory := false;
     dl_drop_last := false |}.

(** lima.py, lines 115-122. *)
Definition val_dataloader {G} (self : LIMA) : DataLoader (option SFTDataset) G :=
  {| dl_dataset := test_dataset self;
     dl_batch_size := batch_size self;
     dl_shuffle := false;
     dl_generator := None;
     dl_num_workers := num_workers self;
     dl_collate_fn := Some {| collate_max_seq_length := max_seq_length self;
                              collate_ignore_index := ignore_index self |};
     dl_pin_memory := false;
     dl_drop_last := false |}.

(** *** [prepare_data], [setup] and [test_dataloader] *)

Section Setup.
(** [datasets.load_dataset(repo_id, token=..)], a dictionary of splits, the
    [prompt_template] imported from lit_gpt.datasets.alpaca, and the lengths
    [random_split] computes. *)
Context {G : Type} `{!TorchRNG G}.
Context (load_dataset : string -> string -> result (gmap string (list entry)))
        (split_lengths : nat -> Q -> result (nat * nat)).

(** lima.py, lines 70-73: fills the download cache. *)
Definition prepare_data (self : LIMA) : result unit :=
  load_dataset (data_repo_id self) (access_token self) ;; Ok tt.

(** lima.py, lines 75-104. *)
Definition setup (self : LIMA) : result LIMA :=
  dataset ← load_dataset (data_repo_id self) (access_token self);
  train ← py_getitem dataset "train";
  data ← format_dataset train (include_multiturn_conversations self);
  '(train_data, test_data) ←
    random_split split_lengths data (test_split_fraction self) (manual_seed (seed self));
  let sft data :=
    {| sft_data := data; sft_tokenizer := Some (tokenizer self);
       sft_prompt_template := alpaca.prompt_template;
       sft_max_seq_length := max_seq_length self;
       sft_mask_prompt := mask_prompt self;
       sft_ignore_index := ignore_index self |} in
  Ok {| tokenizer := tokenizer self; max_seq_length := max_seq_length self;
        mask_prompt := mask_prompt self; test_split_fraction := test_split_fraction self;
        ignore_index := ignore_index self; seed := seed self;
        batch_size := batch_size self; num_workers := num_workers self;
        access_token := access_token self; data_repo_id := data_repo_id self;
        include_multiturn_conversations := include_multiturn_conversations self;
        train_dataset := Some (sft train_data);
        test_dataset := Some (sft test_data) |}.

End Setup.

(** lima.py, lines 124-125. *)
Definition test_dataloader {G} (self : LIMA) : DataLoader (option SFTDataset) G :=
  val_dataloader self.

End lima.

(** ** litgpt/data/tinystories.py *)

Module tinystories.

(** [s.rstrip("/")] *)
Fixpoint lstrip_slash (s : string) : string :=
  match s with
  | String c s' => if decide (c = "/"%char) then lstrip_slash s' else s
  | EmptyString => EmptyString
  end.
Definition rstrip_slash (s : string) : string := String.rev (lstrip_slash (String.rev s)).

Record TinyStories := {
  data_path : string;
  seed : Z;
  num_workers : Z;
  tokenizer : option Tokenizer;
  batch_size : Z;
  max_seq_length : Z;
  data_path_train : string;
  data_path_val : string
}.

(** Methods defined in the body of [class TinyStories]. *)
Definition methods : list string :=
  ["__post_init__"; "connect"; "prepare_data"; "train_dataloader"; "val_dataloader"].

(** [TinyStories(data_path, seed, num_workers)]: the dataclass fields with
    their defaults, then [__post_init__] (lines 39-42). *)
Definition TinyStories_new (data_path0 : string) (seed0 num_workers0 : Z) : TinyStories :=
  {| data_path := data_path0; seed := seed0; num_workers := num_workers0;
     tokenizer := None; batch_size := 1; max_seq_length := -1;
     data_path_train := rstrip_slash data_path0 +:+ "/train";
     data_path_val := rstrip_slash data_path0 +:+ "/val" |}.

(** tinystories.py, lines 44-49. *)
Definition connect (self : TinyStories) (tokenizer0 : option Tokenizer)
    (batch_size0 max_seq_length0 : Z) : TinyStories :=
  {| data_path := data_path self; seed := seed self; num_workers := num_workers self;
     tokenizer := tokenizer0;
     batch_size := batch_size0;
     max_seq_length := max_seq_length0 + 1;
     data_path_train := data_path_train self; data_path_val := data_path_val self |}.

(** [StreamingDataset(input_dir=.., item_loader=TokensLoader(block_size=..),
    shuffle=.., drop_last=..)] *)
Record StreamingDataset := {
  input_dir : string;
  block_size : Z;
  shuffle : bool;
  drop_last : bool
}.

(** tinystories.py, lines 80-92; [StreamingDataLoader] takes the keywords of
    [DataLoader]. *)
Definition train_dataloader {G} (self : TinyStories) : DataLoader StreamingDataset G :=
  {| dl_dataset := {| input_dir := data_path_train self;
                      block_size := max_seq_length self;
                      shuffle := true; drop_last := true |};
     dl_batch_size := batch_size self;
     dl_shuffle := false;
     dl_generator := None;
     dl_num_workers := num_workers self;
     dl_collate_fn := None;
     dl_pin_memory := true;
     dl_drop_last := true |}.

(** tinystories.py, lines 94-107. *)
Definition val_dataloader {G} (self : TinyStories) : DataLoader StreamingDataset G :=
  {| dl_dataset := {| input_dir := data_path_val self;
                      block_size := max_seq_length self;
                      shuffle := true; drop_last := true |};
     dl_batch_size := batch_size self;
     dl_shuffle := false;
     dl_generator := None;
     dl_num_workers := num_workers self;
     dl_collate_fn := None;
     dl_pin_memory := true;
     dl_drop_last := true |}.

(** *** [tokenize] (lines 110-120) *)

Section Tokenize.
(** [json.load] of the file at a path, and [tokenizer.encode(text, bos=..,
    eos=..)]. *)
Context (json_load : string -> result (list (gmap string string)))
        (encode : Tokenizer -> string -> bool -> bool -> list Z).

(** The loop of lines 116-120: what the generator yields, and how it
    ends. *)
Fixpoint yield_tokens (tokenizer : option Tokenizer) (data : list (gmap string string))
  : traced (list Z) unit :=
  match data with
  | [] => mret tt
  | example :: data' =>
    text ← lift (py_getitem example "story");
    let text := py_strip text in
    tokens ← lift (match tokenizer with
                   | Some t => Ok (encode t text true false)
                   | None => Raise (AttributeError "encode")
                   end);
    tell tokens ;;
    yield_tokens tokenizer data'
  end.

(** Lines 110-120; [environ] is [os.environ]. *)
Definition tokenize (environ : gmap string string) (filename : string)
    (tokenizer : option Tokenizer) : traced (list Z) unit :=
  data ← lift (json_load filename);
  global_rank ← lift (v ← py_getitem environ "DATA_OPTIMIZER_GLOBAL_RANK"; py_int v);
  num_workers ← lift (v ← py_getitem environ "DATA_OPTIMIZER_NUM_WORKERS"; py_int v);
  local_rank ← lift (py_mod global_rank num_workers);
  yield_tokens tokenizer data.

End Tokenize.

End tinystories.


(** ** finetune/full.py *)

Module full.

(** Modelled from the spec: the argument dataclasses [IOArgs], [TrainArgs]
    and [EvalArgs] of lit_gpt/args.py, with the fields the script reads and
    sets in [setup].  [Optional[int]] is [option Z]. *)
Record IOArgs := {
  checkpoint_dir : option string;
  out_dir : string
}.

Record TrainArgs := {
  save_interval : Z;
  log_interval : Z;
  global_batch_size : Z;
  micro_batch_size : Z;
  lr_warmup_steps : Z;
  epochs : option Z;
  max_tokens : option Z;
  max_steps : option Z;
  max_seq_length : option Z;
  max_norm : option Q;
  learning_rate : Q
}.

Record EvalArgs := {
  interval : Z;
  max_new_tokens : option Z;
  max_iters : Z
}.

(** [x or float("inf")] and the two uses the script makes of it. *)
Inductive bound : Type :=
  | Finite (z : Z)
  | Infinity.

Definition or_inf (x : option Z) : bound :=
  match x with
  | Some z => if decide (z = 0) then Infinity else Finite z
  | None => Infinity
  end.

(** [min(a, b)]: the second argument only when it is smaller. *)
Definition min_bound (a : Z) (b : bound) : Z :=
  match b with
  | Finite z => if decide (z < a) then z else a
  | Infinity => a
  end.

(** [a < b] *)
Definition lt_bound (a : Z) (b : bound) : bool :=
  match b with
  | Finite z => bool_decide (a < z)
  | Infinity => true
  end.

(** [a / b] on integers: true division. *)
Definition py_truediv (a b : Z) : result Q :=
  if decide (b = 0) then Raise ZeroDivisionError else Ok (inject_Z a / inject_Z b)%Q.

(** *** [validate_args] (lines 302-319) *)

Inductive args : Type :=
  | OfIO (a : IOArgs)
  | OfTrain (a : TrainArgs)
  | OfEval (a : EvalArgs).

(** [getattr(args, name) is None]; the names are those of the fields above. *)
Definition getattr_is_none (a : args) (name : string) : result bool :=
  match a with
  | OfIO a =>
    if decide (name = "checkpoint_dir") then Ok (bool_decide (checkpoint_dir a = None))
    else if decide (name = "out_dir") then Ok false
    else Raise (AttributeError name)
  | OfTrain a =>
    if decide (name = "epochs") then Ok (bool_decide (epochs a = None))
    else if decide (name = "max_tokens") then Ok (bool_decide (max_tokens a = None))
    else if decide (name = "max_steps") then Ok (bool_decide (max_steps a = None))
    else if decide (name = "max_seq_length") then Ok (bool_decide (max_seq_length a = None))
    else if decide (name = "max_norm") then
      Ok (match max_norm a with None => true | Some _ => false end)
    else if decide (name ∈ ["save_interval"; "log_interval"; "global_batch_size";
                            "micro_batch_size"; "lr_warmup_steps"; "learning_rate"])
    then Ok false
    else Raise (AttributeError name)
  | OfEval a =>
    if decide (name = "max_new_tokens") then Ok (bool_decide (max_new_tokens a = None))
    else if decide (name ∈ ["interval"; "max_iters"]) then Ok false
    else Raise (AttributeError name)
  end.

(** ["\n".join(lines)] *)
Fixpoint join_lines (lines : list string) : string :=
  match lines with
  | [] => ""
  | [l] => l
  | l :: ls => l +:+ nl +:+ join_lines ls
  end.

Section ValidateArgs.
(** [__file__] and the [repr] of the dataclasses. *)
Context (file : string) (repr : args -> string).

Definition unsupported_issue (a : args) (name : string) : string :=
  file +:+ " doesn't support the '" +:+ name +:+ "' argument. This is set in " +:+ repr a.

Definition required_issue (a : args) (name : string) : string :=
  file +:+ " requires the '" +:+ name +:+ "' argument. This is set in " +:+ repr a.

(** The two nested loops, returning the list [issues]. *)
Definition collect_issues (io : IOArgs) (train : TrainArgs) (eval : EvalArgs)
  : result (list string) :=
  let unsupported := [(OfTrain train, ["max_tokens"; "max_norm"])] in
  issues ← for_in unsupported (fun issues '(a, names) =>
    for_in names (fun issues name =>
      is_none ← getattr_is_none a name;
      if negb is_none then Ok (issues ++ [unsupported_issue a name]) else Ok issues)
    issues) [];
  let required := [(OfIO io, ["checkpoint_dir"]); (OfTrain train, ["epochs"]);
                   (OfEval eval, ["max_new_tokens"])] in
  for_in required (fun issues '(a, names) =>
    for_in names (fun issues name =>
      is_none ← getattr_is_none a name;
      if (is_none : bool) then Ok (issues ++ [required_issue a name]) else Ok issues)
    issues) issues.

Definition validate_args (io : IOArgs) (train : TrainArgs) (eval : EvalArgs)
  : result unit :=
  issues ← collect_issues io train eval;
  match issues with
  | [] => Ok tt
  | _ :: _ => Raise (ValueError (join_lines issues))
  end.

End ValidateArgs.

(** *** [get_lr_scheduler] (lines 276-280) *)

Inductive scheduler : Type :=
  | LambdaLR (lr_lambda : Z -> result Q)
  | CosineAnnealingLR (T_max : Z).

Record SequentialLR := {
  schedulers : list scheduler;
  milestones : list Z
}.

(** [LambdaLR(optimizer, f)]: the constructor takes the initial step, which
    evaluates [f(0)]. *)
Definition LambdaLR_new (lr_lambda : Z -> result Q) : result scheduler :=
  lr_lambda 0 ;; Ok (LambdaLR lr_lambda).

Definition SequentialLR_new (schedulers0 : list scheduler) (milestones0 : list Z)
  : result SequentialLR :=
  if decide (length milestones0 = pred (length schedulers0)) then
    Ok {| schedulers := schedulers0; milestones := milestones0 |}
  else Raise (ValueError "Sequential Schedulers expects number of schedulers provided to be one more than the number of milestone points")%string.

Definition get_lr_scheduler (warmup_steps max_steps : Z) : result SequentialLR :=
  scheduler1 ← LambdaLR_new (fun step => py_truediv step warmup_steps);
  let scheduler2 := CosineAnnealingLR (max_steps - warmup_steps) in
  SequentialLR_new [scheduler1; scheduler2] [warmup_steps].

(** What a scheduler makes of the base learning rate at a step: a factor,
    or the cosine-annealed value [eta_min + (base - eta_min) * (1 + cos(pi *
    t / T_max)) / 2] at [t] steps into a period [T_max]. *)
Inductive lr_factor : Type :=
  | Scale (q : Q)
  | CosineAnnealed (t T_max : Z).

Definition scheduler_at (s : scheduler) (step : Z) : result lr_factor :=
  match s with
  | LambdaLR lr_lambda => q ← lr_lambda step; Ok (Scale q)
  | CosineAnnealingLR T_max => Ok (CosineAnnealed step T_max)
  end.

(** [SequentialLR] after [step] calls of [scheduler.step()]: the scheduler
    in charge is found by [bisect_right(milestones, step)] and is restarted
    at its milestone. *)
Definition sequential_at (s : SequentialLR) (step : Z) : result lr_factor :=
  let idx := length (filter (fun m => m <= step) (milestones s)) in
  match schedulers s !! idx with
  | Some sch =>
    let start := match idx with O => 0 | S i => default 0 (milestones s !! i) end in
    scheduler_at sch (step - start)
  | None => Raise IndexError
  end.

(** Lines 100-101 of [main]. *)
Definition lr_max_steps (gradient_accumulation_iters : TrainArgs -> Z -> Z)
    (train : TrainArgs) (len_train_dataloader devices : Z) : result Z :=
  steps_per_epoch ← py_floordiv len_train_dataloader (gradient_accumulation_iters train devices);
  match epochs train with
  | Some e => Ok (min_bound (e * steps_per_epoch) (or_inf (max_steps train)))
  | None => Raise TypeError
  end.

(** *** The training loop: [fit] and [validate] (lines 141-273) *)

(** The [state] dictionary; the model, the optimizer and the scheduler are
    framework objects, together a value of [M]. *)
Record State (M : Type) := {
  model : M;
  iter_num : Z;
  step_count : Z
}.
Arguments model {M} _.
Arguments iter_num {M} _.
Arguments step_count {M} _.

(** The dictionary passed to [fabric.log_dict] at line 224 ([iter_time], a
    wall-clock difference, is left out). *)
Record metrics := {
  loss : Q;
  iter : Z;
  step : Z;
  tokens : Z;
  total_tokens : Z
}.

(** What one call of [validate] did. *)
Record validation := {
  val_losses : list Q;
  val_prompt : string;
  val_max_returned_tokens : Z;
  val_output : list Z
}.

(** The calls into the framework that [fit] makes, in order. *)
Inductive event (M : Type) : Type :=
  | Backward (no_backward_sync : bool) (micro_batch_loss : Q) (divisor : Z)
  | OptimizerStep
  | ZeroGrad
  | SchedulerStep
  | LogDict (m : metrics) (at_step : Z)
  | Validate (v : validation)
  | LogValidation (losses : list Q) (at_step : Z)
  | Save (path : string) (st : State M).
Arguments Backward {M} _ _ _.
Arguments OptimizerStep {M}.
Arguments ZeroGrad {M}.
Arguments SchedulerStep {M}.
Arguments LogDict {M} _ _.
Arguments Validate {M} _.
Arguments LogValidation {M} _ _.
Arguments Save {M} _ _.

(** What the script takes from lit_gpt, generate and the framework, as far
    as the loop depends on it. *)
Class Framework (G M : Type) := {
  framework_rng :: TorchRNG G;
  (** [train.gradient_accumulation_iters(devices)] *)
  gradient_accumulation_iters : TrainArgs -> Z -> Z;
  (** [SFTDataset.__getitem__] at every index *)
  getitems : SFTDataset -> list sample;
  (** [chunked_cross_entropy(model(input_ids)[..., :-1, :], targets[..., 1:])] *)
  chunked_cross_entropy : M -> batch -> Q;
  (** [fabric.backward(loss / divisor)] under [no_backward_sync] *)
  fabric_backward : bool -> Q -> Z -> batch -> M -> M;
  optimizer_step : M -> M;
  optimizer_zero_grad : M -> M;
  scheduler_step : M -> M;
  set_max_seq_length : Z -> M -> M;
  apply_prompt_template :
    (gmap string string -> result string) -> gmap string string -> result string;
  tokenizer_encode : Tokenizer -> string -> list Z;
  (** [generate(model, encoded, max_returned_tokens, temperature=0.8,
      eos_id=..)]: sampling draws from the default generator *)
  generate : M -> list Z -> Z -> G -> list Z * G;
  (** [model.config.block_size], [fabric.world_size] *)
  block_size : Z;
  world_size : Z;
  (** [GPT(config)] under [fabric.init_module], [load_checkpoint] *)
  init_module : G -> M * G;
  load_checkpoint : string -> M -> M
}.

(** [Tokenizer(checkpoint_dir)] *)
Definition Tokenizer_new (dir : option string) : result Tokenizer :=
  match dir with
  | Some d => Ok {| tokenizer_dir := d |}
  | None => Raise TypeError
  end.

(** [torchmetrics.RunningMean(window=..)]: the mean of the values of the
    last [window] updates. *)
Record RunningMean := {
  window : Z;
  recent : list Q
}.

Definition RunningMean_new (window0 : Z) : result RunningMean :=
  if decide (window0 <= 0) then
    Raise (ValueError "Expected argument `window` to be a positive integer")%string
  else Ok {| window := window0; recent := [] |}.

Definition last_n {A} (n : nat) (l : list A) : list A := drop (length l - n) l.

Definition RunningMean_update (r : RunningMean) (x : Q) : RunningMean :=
  {| window := window r; recent := last_n (Z.to_nat (window r)) (recent r ++ [x]) |}.

Definition mean (l : list Q) : Q :=
  (foldr Qplus 0 l / inject_Z (Z.of_nat (length l)))%Q.

Definition RunningMean_compute (r : RunningMean) : Q := mean (recent r).

(** [f"{n:06d}"] *)
Definition zfill (width : nat) (digits : string) : string :=
  String.concat "" (replicate (width - String.length digits) "0") +:+ digits.

Definition format_06d (n : Z) : string :=
  if decide (n < 0) then "-" +:+ zfill 5 (pretty (- n)) else zfill 6 (pretty n).

(** [get_longest_seq_length] (lines 294-299) *)
Definition get_longest_seq_length (data : list sample) : result (Z * Z) :=
  let lengths := (fun d => Z.of_nat (length (input_ids d))) <$> data in
  match lengths with
  | [] => Raise (ValueError "max() arg is an empty sequence")
  | l :: ls =>
    let longest_seq_length := foldl Z.max l ls in
    match list_find (fun x => x = longest_seq_length) lengths with
    | Some (longest_seq_ix, _) => Ok (longest_seq_length, Z.of_nat longest_seq_ix)
    | None => Raise (ValueError "max() is not in list")
    end
  end.

Definition instruction : string :=
  "Recommend a movie for me to watch during the weekend and explain the reason.".

Section Fit.
Context {G M : Type} `{!Framework G M}.

(** Lines 241-273. *)
Definition validate (model0 : M) (val_dataloader : DataLoader SFTDataset G)
    (tokenizer : Tokenizer) (eval : EvalArgs) (default : G)
  : result (validation * DataLoader SFTDataset G * G) :=
  '(val_iterator, val_dataloader, default) ← iter_dataloader getitems val_dataloader default;
  '(losses, _) ← for_in (py_range 0 (max_iters eval) 1) (fun '(losses, val_iterator) k =>
      match val_iterator with
      | b :: rest => Ok (losses ++ [chunked_cross_entropy model0 b], rest)
      | [] => Raise StopIteration
      end) ([], val_iterator);
  prompt ← apply_prompt_template (sft_prompt_template (dl_dataset val_dataloader))
               {[ "instruction" := instruction ]};
  let encoded := tokenizer_encode tokenizer prompt in
  new_tokens ← match max_new_tokens eval with Some k => Ok k | None => Raise TypeError end;
  let max_returned_tokens := Z.of_nat (length encoded) + new_tokens in
  let '(output, default) := generate model0 encoded max_returned_tokens default in
  Ok ({| val_losses := losses; val_prompt := prompt;
         val_max_returned_tokens := max_returned_tokens; val_output := output |},
      val_dataloader, default).

(** What the loop carries from one iteration to the next. *)
Record loop := {
  state : State M;
  train_iterator : CycleIterator G SFTDataset;
  val_loader : DataLoader SFTDataset G;
  running_loss : RunningMean;
  default_generator : G
}.

(** One pass through the body of the [while] loop: the iteration number,
    the batch it trained on, the loss on that batch, the calls it made and
    the [state] dictionary it left. *)
Record iteration := {
  it_num : Z;
  it_batch : batch;
  it_loss : Q;
  it_events : list (event M);
  it_state : State M
}.

(** The condition of the [while] loop (line 185). *)
Definition loop_condition (train : TrainArgs) (l : loop) : result bool :=
  if lt_bound (step_count (state l)) (or_inf (max_steps train)) then
    match epochs train with
    | Some e => Ok (bool_decide (epoch (train_iterator l) < e))
    | None => Raise TypeError
    end
  else Ok false.

(** The body of the [while] loop (lines 186-237). *)
Definition fit_iteration (devices : Z) (io : IOArgs) (train : TrainArgs) (eval : EvalArgs)
    (tokenizer : Tokenizer) (l : loop) : result (loop * iteration) :=
  let gai := gradient_accumulation_iters train devices in
  let iter_num1 := iter_num (state l) + 1 in
  '(batch0, train_iterator1, default) ← cycle_next getitems (train_iterator l) (default_generator l);
  r ← py_mod iter_num1 gai;
  let is_accumulating := bool_decide (r <> 0) in
  let loss0 := chunked_cross_entropy (model (state l)) batch0 in
  let model1 := fabric_backward is_accumulating loss0 gai batch0 (model (state l)) in
  let events := [Backward is_accumulating loss0 gai] in
  let running_loss1 := RunningMean_update (running_loss l) loss0 in
  let '(model1, step_count1, events) :=
    if negb is_accumulating then
      (scheduler_step (optimizer_zero_grad (optimizer_step model1)),
       step_count (state l) + 1,
       events ++ [OptimizerStep; ZeroGrad; SchedulerStep])
    else (model1, step_count (state l), events) in
  let state1 := {| model := model1; iter_num := iter_num1; step_count := step_count1 |} in
  r ← py_mod iter_num1 (log_interval train);
  let events :=
    if bool_decide (r = 0) then
      events ++ [LogDict {| loss := RunningMean_compute running_loss1;
                            iter := iter_num1;
                            step := step_count1;
                            tokens := iter_num1 * micro_batch_size train * block_size;
                            total_tokens :=
                              iter_num1 * micro_batch_size train * block_size * world_size |}
                         iter_num1]
    else events in
  '(events, val_loader1, default) ←
    (if negb is_accumulating then
       r ← py_mod step_count1 (interval eval);
       if bool_decide (r = 0) then
         '(v, val_loader1, default) ← validate model1 (val_loader l) tokenizer eval default;
         Ok (events ++ [Validate v; LogValidation (val_losses v) iter_num1],
             val_loader1, default)
       else Ok (events, val_loader l, default)
     else Ok (events, val_loader l, default));
  events ←
    (if negb is_accumulating then
       r ← py_mod step_count1 (save_interval train);
       if bool_decide (r = 0) then
         Ok (events ++ [Save (out_dir io +:+ "/step-" +:+ format_06d step_count1 +:+ ".pth")
                             state1])
       else Ok events
     else Ok events);
  Ok ({| state := state1; train_iterator := train_iterator1; val_loader := val_loader1;
         running_loss := running_loss1; default_generator := default |},
      {| it_num := iter_num1; it_batch := batch0; it_loss := loss0;
         it_events := events; it_state := state1 |}).

(** The [while] loop, for at most [fuel] iterations: the state reached, the
    iterations made and whether the loop condition has become false. *)
Fixpoint fit_loop (fuel : nat) (devices : Z) (io : IOArgs) (train : TrainArgs)
    (eval : EvalArgs) (tokenizer : Tokenizer) (l : loop)
  : result (loop * list iteration * bool) :=
  continue ← loop_condition train l;
  if (continue : bool) then
    match fuel with
    | O => Ok (l, [], false)
    | S fuel' =>
      '(l1, it) ← fit_iteration devices io train eval tokenizer l;
      '(l2, its, finished) ← fit_loop fuel' devices io train eval tokenizer l1;
      Ok (l2, it :: its, finished)
    end
  else Ok (l, [], true).

(** Lines 167-178: [next(train_iterator)] for each of the [initial_iter]
    batches already seen. *)
Definition fast_forward (initial_iter : Z) (train_iterator0 : CycleIterator G SFTDataset)
    (default : G) : result (CycleIterator G SFTDataset * G) :=
  for_in (py_range 0 initial_iter 1) (fun '(it, default) resume_iter =>
      '(_, it, default) ← cycle_next getitems it default;
      Ok (it, default)) (train_iterator0, default).

Record fit_result := {
  sanity_check : validation;
  iterations : list iteration;
  final : loop;
  finished : bool
}.

(** [fit] (lines 141-237); [resume] is the truth value of the argument. *)
Definition fit (fuel : nat) (state0 : State M)
    (train_dataloader val_dataloader : DataLoader SFTDataset G) (devices : Z)
    (resume : bool) (io : IOArgs) (train : TrainArgs) (eval : EvalArgs) (default : G)
  : result fit_result :=
  tokenizer ← Tokenizer_new (checkpoint_dir io);
  '(longest_seq_length, longest_seq_ix) ←
    get_longest_seq_length (getitems (dl_dataset train_dataloader));
  let model0 :=
    set_max_seq_length (min_bound longest_seq_length (or_inf (max_seq_length train)))
                       (model state0) in
  '(v, val_dataloader, default) ←
    validate model0 val_dataloader tokenizer
             {| interval := interval eval; max_new_tokens := max_new_tokens eval;
                max_iters := 2 |} default;
  let initial_iter := iter_num state0 in
  let train_iterator0 := CycleIterator_new train_dataloader in
  '(train_iterator0, default) ←
    (if resume then fast_forward initial_iter train_iterator0 default
     else Ok (train_iterator0, default));
  running_loss0 ← RunningMean_new (gradient_accumulation_iters train devices);
  '(l, its, fin) ←
    fit_loop fuel devices io train eval tokenizer
      {| state := {| model := model0; iter_num := iter_num state0;
                     step_count := step_count state0 |};
         train_iterator := train_iterator0; val_loader := val_dataloader;
         running_loss := running_loss0; default_generator := default |};
  Ok {| sanity_check := v; iterations := its; final := l; finished := fin |}.

End Fit.

(** *** [get_dataloaders] and [main] (lines 84-138, 283-291) *)

(** A loader taken into use: its dataset has to be there. *)
Definition loader_with_dataset {G} (dl : DataLoader (option SFTDataset) G)
  : result (DataLoader SFTDataset G) :=
  match dl_dataset dl with
  | Some d => Ok (dl_with_dataset dl d)
  | None => Raise TypeError
  end.

(** Lines 283-291; on one process [fabric.setup_dataloaders] hands the
    loaders back as they are. *)
Definition get_dataloaders {T G} `{!LitDataModule T G} (data : T) (tokenizer : Tokenizer)
    (train : TrainArgs) : result (DataLoader SFTDataset G * DataLoader SFTDataset G) :=
  let data := dm_connect data (Some tokenizer) (micro_batch_size train) (max_seq_length train) in
  dm_prepare_data data ;;
  data ← dm_setup data;
  train_dataloader ← loader_with_dataset (dm_train_dataloader data);
  val_dataloader ← loader_with_dataset (dm_val_dataloader data);
  Ok (train_dataloader, val_dataloader).

(** What [main] constructs and calls, in order. *)
Inductive main_event (G M : Type) : Type :=
  | CheckValidCheckpointDir (dir : option string)
  | NewTokenizer (t : Tokenizer)
  | NewDataLoaders (train_dataloader val_dataloader : DataLoader SFTDataset G)
  | SeedEverything (seed : Z)
  | NewModel (m : M)
  | NewOptimizer (lr : Q)
  | NewScheduler (s : SequentialLR)
  | NewState (st : State M)
  | FabricLoad (saved : State M)
  | LoadCheckpoint (path : string)
  | Fit (r : @fit_result G M)
  | SaveFinal (path : string).
Arguments CheckValidCheckpointDir {G M} _.
Arguments NewTokenizer {G M} _.
Arguments NewDataLoaders {G M} _ _.
Arguments SeedEverything {G M} _.
Arguments NewModel {G M} _.
Arguments NewOptimizer {G M} _.
Arguments NewScheduler {G M} _.
Arguments NewState {G M} _.
Arguments FabricLoad {G M} _.
Arguments LoadCheckpoint {G M} _.
Arguments Fit {G M} _.
Arguments SaveFinal {G M} _.

Section Main.
Context {G M T : Type} `{!Framework G M} `{!LitDataModule T G}.
Context (file : string) (repr : args -> string).

(** [main] (lines 84-138).  [resume] is the content of the checkpoint the
    argument names, if it names one; [fuel] bounds the iterations of [fit]. *)
Definition main (fuel : nat) (devices : Z) (resume : option (State M)) (seed : Z)
    (data : T) (io : IOArgs) (train : TrainArgs) (eval : EvalArgs)
  : traced (main_event G M) unit :=
  lift (validate_args file repr io train eval) ;;
  tell (CheckValidCheckpointDir (checkpoint_dir io)) ;;
  tokenizer ← lift (Tokenizer_new (checkpoint_dir io));
  tell (NewTokenizer tokenizer) ;;
  '(train_dataloader, val_dataloader) ← lift (get_dataloaders data tokenizer train);
  tell (NewDataLoaders train_dataloader val_dataloader) ;;
  len_train ← lift (len_dataloader getitems train_dataloader);
  lr_max ← lift (lr_max_steps gradient_accumulation_iters train len_train devices);
  tell (SeedEverything seed) ;;
  let '(model0, default) := init_module (manual_seed seed) in
  tell (NewModel model0) ;;
  tell (NewOptimizer (learning_rate train)) ;;
  scheduler0 ← lift (get_lr_scheduler (lr_warmup_steps train) lr_max);
  tell (NewScheduler scheduler0) ;;
  let state0 := {| model := model0; iter_num := 0; step_count := 0 |} in
  tell (NewState state0) ;;
  state0 ← match resume with
           | Some saved => tell (FabricLoad saved) ;; mret saved
           | None =>
             let checkpoint_path := tokenizer_dir tokenizer +:+ "/lit_model.pth" in
             tell (LoadCheckpoint checkpoint_path) ;;
             mret {| model := load_checkpoint checkpoint_path model0;
                     iter_num := 0; step_count := 0 |}
           end;
  r ← lift (fit fuel state0 train_dataloader val_dataloader devices
                (bool_decide (is_Some resume)) io train eval default);
  tell (Fit r) ;;
  tell (SaveFinal (out_dir io +:+ "/lit_model_finetuned.pth")).

End Main.

(** *** Resuming from the latest checkpoint (lines 123-127) *)

(** Line 124; [listing] has the names of the entries of [io.out_dir], in
    the order in which the directory yields them. *)
Definition latest_checkpoint (out_dir : string) (listing : list string) : result string :=
  name ← py_max (fun name => piece ← py_index (py_split "-" name) 1; py_int piece)
                (filter (fun name => py_endswith ".pth" name) listing);
  Ok (out_dir +:+ "/" +:+ name).

(** [resume: Union[bool, Path]] *)
Inductive resume_arg : Type :=
  | ResumeBool (b : bool)
  | ResumePath (p : string).

(** Lines 123-127: the checkpoint that [fabric.load] reads the state from,
    if any. *)
Definition resume_from (resume : resume_arg) (out_dir : string) (listing : list string)
  : result (option string) :=
  match resume with
  | ResumeBool true => p ← latest_checkpoint out_dir listing; Ok (Some p)
  | ResumeBool false => Ok None
  | ResumePath p => Ok (Some p)
  end.

(** *** [setup] (lines 38-81) *)

Inductive strategy : Type :=
  | FSDPStrategy
  | Auto.

(** [CSVLogger(root_dir, name, flush_logs_every_n_steps=..)] and
    [L.Fabric(devices=.., strategy=.., precision=.., loggers=..)] *)
Record CSVLogger := {
  logger_root_dir : string;
  logger_name : string;
  flush_logs_every_n_steps : Z
}.

Record Fabric := {
  fabric_devices : Z;
  fabric_strategy : strategy;
  fabric_precision : string;
  fabric_loggers : CSVLogger
}.

Section Setup.
Context {G M T : Type} `{!Framework G M} `{!LitDataModule T G}.
Context (file : string) (repr : args -> string).
(** [Alpaca()] of lit_gpt.data, [get_default_supported_precision(training=
    True)], [Path.parent] and [Path.name], and [Config.from_name(name=..)],
    which raises on a name it does not know. *)
Context (Alpaca_new : T) (get_default_supported_precision : string)
        (parent name : string -> string) (Config_from_name : string -> result unit).

(** Lines 38-81.  The arguments of [fabric.launch] are evaluated before
    [main] is launched; the result is the [Fabric] built and what [main] did
    on it. *)
Definition setup (fuel : nat) (precision : option string) (devices : Z)
    (resume : option (State M)) (seed : Z) (data : option T)
    (io : IOArgs) (train : TrainArgs) (eval : EvalArgs)
  : result (Fabric * traced (main_event G M) unit) :=
  let data := match data with Some d => d | None => Alpaca_new end in
  let precision :=
    match precision with
    | Some p => if decide (p = "") then get_default_supported_precision else p
    | None => get_default_supported_precision
    end in
  let strategy := if decide (devices > 1) then FSDPStrategy else Auto in
  let logger := {| logger_root_dir := parent (out_dir io); logger_name := name (out_dir io);
                   flush_logs_every_n_steps := log_interval train |} in
  let fabric := {| fabric_devices := devices; fabric_strategy := strategy;
                   fabric_precision := precision; fabric_loggers := logger |} in
  checkpoint_dir ← match checkpoint_dir io with
                   | Some dir => Ok dir
                   | None => Raise (AttributeError "name")
                   end;
  Config_from_name (name checkpoint_dir) ;;
  Ok (fabric, main file repr fuel devices resume seed data io train eval).

End Setup.

End full.

#[global] Existing Instance full.framework_rng.

(** ** scripts/download.py *)

Module download.

(** [needle in haystack] on strings. *)
Fixpoint contains (needle haystack : string) : bool :=
  if String.prefix needle haystack then true
  else match haystack with
       | EmptyString => false
       | String _ rest => contains needle rest
       end.

(** The keyword arguments of the call of [snapshot_download] (lines 62-70). *)
Record snapshot_download := {
  sd_repo_id : string;
  local_dir : string;
  local_dir_use_symlinks : bool;
  resume_download : bool;
  allow_patterns : list string;
  token : option string;
  revision : option string
}.

(** How a call ends short of an exception: with the options printed, or
    with the snapshot download made (the conversion of safetensors files
    follows it when [from_safetensors] is set). *)
Inductive outcome : Type :=
  | Printed (lines : list string)
  | Downloaded (call : snapshot_download) (convert_safetensors : bool).

Definition hf_model_revision_map : gmap string string :=
  {[ "microsoft/phi-1_5" := "24f9ea14df973a49a0d87c16d04df88d90067468";
     "microsoft/phi-2" := "834565c23f9b28b96ccbeabe614dd906b6db551a" ]}.

(** [not access_token] *)
Definition no_token (access_token : option string) : bool :=
  match access_token with
  | None => true
  | Some t => bool_decide (t = "")
  end.

Definition requires_authentication (repo_id : string) : bool :=
  contains "meta-llama" repo_id || contains "falcon-180" repo_id.

Section Download.
(** The [(org, name)] pairs of [lit_gpt.config.configs] and whether the
    safetensors package is installed ([_SAFETENSORS_AVAILABLE]). *)
Context (configs : list (string * string)) (safetensors_available : bool).

(** download.py, lines 18-70. *)
Definition download_from_hub (repo_id : option string) (access_token : option string)
    (from_safetensors tokenizer_only : bool) (checkpoint_dir : string) : result outcome :=
  match repo_id with
  | None =>
    let options := (fun '(org, name) => org +:+ "/" +:+ name) <$> configs in
    Ok (Printed ["Please specify --repo_id <repo_id>. Available values:";
                 String.concat nl options])
  | Some repo_id =>
    if requires_authentication repo_id && no_token access_token then
      Raise (ValueError (repo_id
        +:+ " requires authentication, please set the `HF_TOKEN=your_token` environment"
        +:+ " variable or pass --access_token=your_token. You can find your token by visiting"
        +:+ " https://huggingface.co/settings/tokens"))
    else
      let download_files := ["tokenizer*"; "generation_config.json"] in
      let download_files :=
        if contains "Qwen" repo_id then download_files ++ ["qwen.tiktoken"]
        else download_files in
      download_files ←
        (if negb tokenizer_only then
           if from_safetensors then
             if negb safetensors_available then Raise (ModuleNotFoundError "safetensors")
             else Ok (download_files ++ ["*.safetensors"])
           else Ok (download_files ++ ["*.bin*"])
         else if from_safetensors then
           Raise (ValueError "`--from_safetensors=True` won't have an effect with `--tokenizer_only=True`")
         else Ok download_files);
      let directory := checkpoint_dir +:+ "/" +:+ repo_id in
      Ok (Downloaded {| sd_repo_id := repo_id;
                        local_dir := directory;
                        local_dir_use_symlinks := false;
                        resume_download := true;
                        allow_patterns := download_files;
                        token := access_token;
                        revision := hf_model_revision_map !! repo_id |}
                     from_safetensors)
  end.

End Download.

End download.

(** *** The issues [validate_args] is meant to report

    One message for each unsupported argument that is set and for each
    required argument that is missing, in the order of the script's tables. *)
Definition expected_issues (file : string) (repr : full.args -> string)
    (io : full.IOArgs) (train : full.TrainArgs) (eval : full.EvalArgs) : list string :=
  (if full.max_tokens train is Some _
   then [full.unsupported_issue file repr (full.OfTrain train) "max_tokens"] else [])
  ++ (if full.max_norm train is Some _
      then [full.unsupported_issue file repr (full.OfTrain train) "max_norm"] else [])
  ++ (if full.checkpoint_dir io is None
      then [full.required_issue file repr (full.OfIO io) "checkpoint_dir"] else [])
  ++ (if full.epochs train is None
      then [full.required_issue file repr (full.OfTrain train) "epochs"] else [])
  ++ (if full.max_new_tokens eval is None
      then [full.required_issue file repr (full.OfEval eval) "max_new_tokens"] else []).

(** The arguments are acceptable: nothing unsupported is set, nothing
    required is missing. *)
Definition args_accepted (io : full.IOArgs) (train : full.TrainArgs)
    (eval : full.EvalArgs) : Prop :=
  full.max_tokens train = None /\ full.max_norm train = None
  /\ full.checkpoint_dir io <> None /\ full.epochs train <> None
  /\ full.max_new_tokens eval <> None.

(** *** [download_from_hub] proceeding in every remaining case *)

(** The last clause of the description of [download_from_hub]: whenever a [repo_id] is given,
    authentication is no obstacle and [tokenizer_only] and [from_safetensors]
    are not both set, the snapshot download is made. *)
Definition download_proceeds_otherwise : Prop :=
  forall (configs : list (string * string)) (safetensors_available : bool)
         (repo_id : string) (access_token : option string)
         (from_safetensors tokenizer_only : bool) (checkpoint_dir : string),
    download.requires_authentication repo_id && download.no_token access_token = false ->
    tokenizer_only && from_safetensors = false ->
    exists call convert,
      download.download_from_hub configs safetensors_available (Some repo_id) access_token
                                 from_safetensors tokenizer_only checkpoint_dir
      = Ok (download.Downloaded call convert).

(** *** What the records are meant to be

    The two readings of a conversation [convo] that [format_dataset] is
    described by, written by index: the record of its first two turns, and
    the records of its turn pairs [(convo[2k], convo[2k+1])]. *)

Section TurnRecords.
Context {T : Type} `{!Inhabited T} (text : T -> string).

Definition first_turns_record (convo : list T) : gmap string string :=
  sft_record (text (convo !!! 0%nat)) "" (text (convo !!! 1%nat)).

Definition turn_pair_records (convo : list T) : list (gmap string string) :=
  (fun k => sft_record (text (convo !!! (2 * k)%nat)) "" (text (convo !!! (2 * k + 1)%nat)))
    <$> seq 0 (length convo `div` 2)%nat.

(** The loop of [format_dataset] over bare conversations, with the list
    built so far as an argument. *)
Definition format_conversations (convos : list (list T)) (multi : bool)
    (formatted_ds : list (gmap string string)) : result (list (gmap string string)) :=
  for_in convos (fun formatted_ds convo =>
    if multi then
      for_in (py_range 0 (Z.of_nat (length convo) - 1) 2) (fun formatted_ds i =>
        a ← py_index convo i;
        b ← py_index convo (i + 1);
        Ok (formatted_ds ++ [sft_record (text a) "" (text b)])) formatted_ds
    else
      a ← py_index convo 0;
      b ← py_index convo 1;
      Ok (formatted_ds ++ [sft_record (text a) "" (text b)])) formatted_ds.

End TurnRecords.

Definition record_keys : gset string := {[ "instruction"; "input"; "output" ]}.

Definition well_formed_record (r : gmap string string) : Prop :=
  dom r = record_keys /\ r !! "input" = Some "".


(** *** Describing a run of [fit] *)

Section LoaderFacts.
Context {G D : Type} (items : D -> list sample).

(** The number of batches an epoch of the loader has. *)
Definition batches_per_epoch (dl : DataLoader D G) : Z :=
  let n := Z.of_nat (length (items (dl_dataset dl))) in
  if dl_drop_last dl then n `div` dl_batch_size dl
  else (n + dl_batch_size dl - 1) `div` dl_batch_size dl.

(** The loader can be iterated and every epoch has at least [k] batches. *)
Definition loader_ready (k : Z) (dl : DataLoader D G) : Prop :=
  0 < dl_batch_size dl /\ k <= batches_per_epoch dl.

(** A bound on the calls of [next] after which an iterator over a loader of
    [per_epoch] batches has completed [epochs] epochs. *)
Definition iterations_left (epochs : Z) (per_epoch : nat) (it : CycleIterator G D) : nat :=
  if decide (epochs <= epoch it) then 0%nat
  else (Z.to_nat (epochs - epoch it - 1) * per_epoch
        + match _iterator it with None => per_epoch | Some current => length current end
        + 1)%nat.

(** Two states of the same loader: all but the generator agree. *)
Definition same_loader (dl dl' : DataLoader D G) : Prop :=
  dl_dataset dl = dl_dataset dl' /\ dl_batch_size dl = dl_batch_size dl'
  /\ dl_shuffle dl = dl_shuffle dl' /\ dl_num_workers dl = dl_num_workers dl'
  /\ dl_collate_fn dl = dl_collate_fn dl' /\ dl_pin_memory dl = dl_pin_memory dl'
  /\ dl_drop_last dl = dl_drop_last dl'.

End LoaderFacts.

Section FitRuns.
Context {G M : Type} `{!full.Framework G M}.

(** The arguments under which [fit] runs without raising: the directories
    and counts are there, the intervals are not zero, an epoch of the
    training loader has a batch and one of the validation loader has enough
    for [validate], whose prompt can be built. *)
Definition fit_ready (train_dataloader val_dataloader : DataLoader SFTDataset G)
    (devices : Z) (io : full.IOArgs) (train : full.TrainArgs) (eval : full.EvalArgs)
  : Prop :=
  is_Some (full.checkpoint_dir io)
  /\ is_Some (full.epochs train)
  /\ is_Some (full.max_new_tokens eval)
  /\ 0 < full.gradient_accumulation_iters train devices
  /\ full.log_interval train <> 0
  /\ full.interval eval <> 0
  /\ full.save_interval train <> 0
  /\ loader_ready full.getitems 1 train_dataloader
  /\ loader_ready full.getitems (Z.max 2 (full.max_iters eval)) val_dataloader
  /\ is_ok (full.apply_prompt_template
              (sft_prompt_template (dl_dataset val_dataloader))
              {[ "instruction" := full.instruction ]}) = true.

(** The loaders a loop state holds are states of the two loaders of the
    run. *)
Definition loop_loaders (train_dataloader val_dataloader : DataLoader SFTDataset G)
    (l : @full.loop G M) : Prop :=
  same_loader train_dataloader (iterable (full.train_iterator l))
  /\ same_loader val_dataloader (full.val_loader l).

(** [its] are the iterations the loop makes from [l], one
    [fit_iteration] after the other, and [l'] is where they leave it. *)
Inductive run_from (devices : Z) (io : full.IOArgs) (train : full.TrainArgs)
    (eval : full.EvalArgs) (tokenizer : Tokenizer)
  : full.loop -> list full.iteration -> full.loop -> Prop :=
  | run_done l : run_from devices io train eval tokenizer l [] l
  | run_step l l1 l2 it its :
      full.fit_iteration devices io train eval tokenizer l = Ok (l1, it) ->
      run_from devices io train eval tokenizer l1 its l2 ->
      run_from devices io train eval tokenizer l (it :: its) l2.

(** The calls of an iteration that touch the model, the gradients or the
    optimizer. *)
Definition is_training_call (e : full.event M) : bool :=
  match e with
  | full.Backward _ _ _ | full.OptimizerStep | full.ZeroGrad | full.SchedulerStep => true
  | _ => false
  end.

Definition training_calls (events : list (full.event M)) : list (full.event M) :=
  filter is_training_call events.

(** The checkpoint file of a step count. *)
Definition checkpoint_path (io : full.IOArgs) (step_count : Z) : string :=
  full.out_dir io +:+ "/step-" +:+ full.format_06d step_count +:+ ".pth".

(** The prompt [validate] samples from. *)
Definition sample_prompt (val_dataloader : DataLoader SFTDataset G) : result string :=
  full.apply_prompt_template (sft_prompt_template (dl_dataset val_dataloader))
    {[ "instruction" :=
         "Recommend a movie for me to watch during the weekend and explain the reason." ]}.

(** What the iteration [it] that takes the loop from [l] to [l'] did, read
    off lines 186-237. *)
Record iteration_facts (devices : Z) (io : full.IOArgs) (train : full.TrainArgs)
    (eval : full.EvalArgs) (tokenizer : Tokenizer)
    (l l' : full.loop) (it : full.iteration) : Prop := {
  (** the counters *)
  fact_num : full.it_num it = full.iter_num (full.state l) + 1;
  fact_state : full.it_state it = full.state l';
  fact_iter_num : full.iter_num (full.it_state it) = full.it_num it;
  fact_gai : full.gradient_accumulation_iters train devices <> 0;
  fact_log_interval : full.log_interval train <> 0;
  fact_step_count :
    full.step_count (full.it_state it)
    = full.step_count (full.state l)
      + (if decide (full.it_num it `mod` full.gradient_accumulation_iters train devices = 0)
         then 1 else 0);
  (** the batch and its loss *)
  fact_batch : exists default,
    cycle_next full.getitems (full.train_iterator l) (full.default_generator l)
    = Ok (full.it_batch it, full.train_iterator l', default);
  fact_loss :
    full.it_loss it
    = full.chunked_cross_entropy (full.model (full.state l)) (full.it_batch it);
  fact_running_loss :
    full.running_loss l' = full.RunningMean_update (full.running_loss l) (full.it_loss it);
  (** backward, and the optimizer step when the accumulation is complete *)
  fact_training_calls :
    let gai := full.gradient_accumulation_iters train devices in
    training_calls (full.it_events it)
    = full.Backward (bool_decide (full.it_num it `mod` gai <> 0)) (full.it_loss it) gai
      :: (if decide (full.it_num it `mod` gai = 0)
          then [full.OptimizerStep; full.ZeroGrad; full.SchedulerStep] else []);
  (** logging *)
  fact_log : forall m at_step,
    full.LogDict m at_step ∈ full.it_events it
    <-> full.it_num it `mod` full.log_interval train = 0
        /\ at_step = full.it_num it
        /\ m = {| full.loss := full.RunningMean_compute (full.running_loss l');
                  full.iter := full.it_num it;
                  full.step := full.step_count (full.it_state it);
                  full.tokens :=
                    full.it_num it * full.micro_batch_size train * full.block_size;
                  full.total_tokens :=
                    full.it_num it * full.micro_batch_size train * full.block_size
                    * full.world_size |};
  (** validation *)
  fact_validate_when :
    (exists v, full.Validate v ∈ full.it_events it)
    <-> full.it_num it `mod` full.gradient_accumulation_iters train devices = 0
        /\ full.step_count (full.it_state it) `mod` full.interval eval = 0;
  fact_validate_what : forall v,
    full.Validate v ∈ full.it_events it ->
    exists default val' default',
      full.validate (full.model (full.it_state it)) (full.val_loader l) tokenizer eval default
      = Ok (v, val', default');
  fact_val_loader : same_loader (full.val_loader l) (full.val_loader l');
  (** checkpoints *)
  fact_save : forall path st,
    full.Save path st ∈ full.it_events it
    <-> full.it_num it `mod` full.gradient_accumulation_iters train devices = 0
        /\ full.step_count (full.it_state it) `mod` full.save_interval train = 0
        /\ path = checkpoint_path io (full.step_count (full.it_state it))
        /\ st = full.it_state it
}.

End FitRuns.

(** *** Describing a call of [main], and the files it leaves *)

(** The events of a call of [main] that returns. *)
Definition main_trace {G M : Type} (resume : option (full.State M)) (seed : Z)
    (io : full.IOArgs) (train : full.TrainArgs) (dir : string)
    (train_dataloader val_dataloader : DataLoader SFTDataset G) (model0 : M)
    (sched : full.SequentialLR) (r : @full.fit_result G M) : list (full.main_event G M) :=
  [ full.CheckValidCheckpointDir (Some dir);
    full.NewTokenizer {| tokenizer_dir := dir |};
    full.NewDataLoaders train_dataloader val_dataloader;
    full.SeedEverything seed;
    full.NewModel model0;
    full.NewOptimizer (full.learning_rate train);
    full.NewScheduler sched;
    full.NewState {| full.model := model0; full.iter_num := 0; full.step_count := 0 |};
    match resume with
    | Some saved => full.FabricLoad saved
    | None => full.LoadCheckpoint (dir +:+ "/lit_model.pth")
    end;
    full.Fit r;
    full.SaveFinal (full.out_dir io +:+ "/lit_model_finetuned.pth") ].

(** Every character of [s] satisfies [P]. *)
Fixpoint string_forall (P : ascii -> Prop) (s : string) : Prop :=
  match s with
  | String c s' => P c /\ string_forall P s'
  | EmptyString => True
  end.

Definition is_digit (c : ascii) : Prop := is_Some (Ascii.is_nat c).

(** The names of the files that full.py writes into [io.out_dir]: the
    checkpoints of [fit] (line 235) and the final one of [main] (line 138). *)
Definition written_by_full (name : string) : Prop :=
  name = "lit_model_finetuned.pth"
  \/ exists step_count : Z, name = "step-" +:+ full.format_06d step_count +:+ ".pth".

(** ** A small instance to run the definitions on

    A counter for the random generator (a draw returns the count and
    advances it; a permutation is a rotation by the count), a model that
    counts its optimizer steps, one token per character. *)

Module demo.

#[export] Instance counter_rng : TorchRNG Z :=
  {| manual_seed := fun seed => seed;
     random_ := fun g => (g, g + 1);
     randperm := fun n g => (rotate (Z.to_nat (Z.abs g)) (seq 0 n), g + 1);
     randperm_perm := fun n g =>
       eq_ind _ (fun l => drop (Z.to_nat (Z.abs g) `mod` length (seq 0 n)) (seq 0 n)
                          ++ take (Z.to_nat (Z.abs g) `mod` length (seq 0 n)) (seq 0 n)
                          ≡ₚ l)
              (Permutation_app_comm _ _) _ (take_drop _ _) |}.

Definition tokens (s : string) : list Z :=
  (fun c => Z.of_nat (nat_of_ascii c)) <$> list_ascii_of_string s.

(** The example as one sequence: the instruction, then the output. *)
Definition tokenize (r : gmap string string) : sample :=
  let ids := tokens (default "" (r !! "instruction")) ++ tokens (default "" (r !! "output")) in
  {| input_ids := ids; labels := ids |}.

(** A prompt template that asks for the instruction only. *)
Definition instruction_template (example : gmap string string) : result string :=
  instruction ← py_getitem example "instruction";
  Ok (alpaca.prompt_without_input instruction).

#[export] Instance counting_framework : full.Framework Z Z :=
  {| full.framework_rng := counter_rng;
     full.gradient_accumulation_iters := fun train devices =>
       (full.global_batch_size train `div` devices) `div` full.micro_batch_size train;
     full.getitems := fun d => tokenize <$> sft_data d;
     full.chunked_cross_entropy := fun m b =>
       inject_Z (default 0 (head (b ≫= input_ids)) + m);
     full.fabric_backward := fun _ _ _ _ m => m;
     full.optimizer_step := fun m => m + 1;
     full.optimizer_zero_grad := fun m => m;
     full.scheduler_step := fun m => m;
     full.set_max_seq_length := fun _ m => m;
     full.apply_prompt_template := fun template example => template example;
     full.tokenizer_encode := fun _ s => tokens s;
     full.generate := fun m encoded max_returned_tokens g =>
       (take (Z.to_nat max_returned_tokens) (encoded ++ [m]), g + 1);
     full.block_size := 8;
     full.world_size := 1;
     full.init_module := fun g => (0, g + 1);
     full.load_checkpoint := fun _ m => m |}.

Definition sft (data : list (gmap string string)) : SFTDataset :=
  {| sft_data := data; sft_tokenizer := Some {| tokenizer_dir := "checkpoints/demo" |};
     sft_prompt_template := instruction_template; sft_max_seq_length := -1;
     sft_mask_prompt := true; sft_ignore_index := -1 |}.

Definition train_records : list (gmap string string) :=
  [sft_record "a" "" "w"; sft_record "b" "" "x"; sft_record "c" "" "y";
   sft_record "d" "" "z"].
Definition test_records : list (gmap string string) :=
  [sft_record "e" "" "u"; sft_record "f" "" "v"].

(** An [Alpaca] module as [setup] leaves it, over the records above. *)
Definition alpaca_module : alpaca.Alpaca :=
  {| alpaca.tokenizer := {| tokenizer_dir := "checkpoints/demo" |};
     alpaca.max_seq_length := -1; alpaca.mask_prompt := true;
     alpaca.test_split_fraction := (2 # 5)%Q; alpaca.ignore_index := -1;
     alpaca.seed := 42; alpaca.batch_size := 1; alpaca.num_workers := 4;
     alpaca.data_file_path := "/tmp/demo/alpaca_data_cleaned_archive.json";
     alpaca.data_file_url := "https://raw.githubusercontent.com/tloen/alpaca-lora/main/alpaca_data_cleaned_archive.json";
     alpaca.train_dataset := Some (sft train_records);
     alpaca.test_dataset := Some (sft test_records) |}.

(** The [Deita] hub dataset with the same turns. *)
Definition deita_hub (repo_id : string) (split : list string)
  : result (list (list deita.entry)) :=
  let turn s := {| deita.role := "user"; deita.content := s |} in
  Ok [ [ {| deita.messages := [turn "a"; turn "w"] |};
         {| deita.messages := [turn "b"; turn "x"] |};
         {| deita.messages := [turn "c"; turn "y"] |};
         {| deita.messages := [turn "d"; turn "z"] |} ];
       [ {| deita.messages := [turn "e"; turn "u"] |};
         {| deita.messages := [turn "f"; turn "v"] |} ] ].

#[export] Instance deita_data_module : LitDataModule deita.Deita Z :=
  deita.Deita_data_module deita_hub instruction_template.

Definition io : full.IOArgs :=
  {| full.checkpoint_dir := Some "checkpoints/demo"; full.out_dir := "out/full" |}.

(** One micro-batch per optimizer step, logging at every iteration, a
    checkpoint every third step, at most three epochs. *)
Definition train : full.TrainArgs :=
  {| full.save_interval := 3; full.log_interval := 1; full.global_batch_size := 1;
     full.micro_batch_size := 1; full.lr_warmup_steps := 2; full.epochs := Some 3;
     full.max_tokens := None; full.max_steps := None; full.max_seq_length := None;
     full.max_norm := None; full.learning_rate := (3 # 1000)%Q |}.

(** The same with two micro-batches per optimizer step. *)
Definition train_accumulating : full.TrainArgs :=
  {| full.save_interval := 3; full.log_interval := 1; full.global_batch_size := 2;
     full.micro_batch_size := 1; full.lr_warmup_steps := 2; full.epochs := Some 3;
     full.max_tokens := None; full.max_steps := None; full.max_seq_length := None;
     full.max_norm := None; full.learning_rate := (3 # 1000)%Q |}.

(** Validation after every optimizer step. *)
Definition eval : full.EvalArgs :=
  {| full.interval := 1; full.max_new_tokens := Some 4; full.max_iters := 2 |}.

Definition fresh : full.State Z :=
  {| full.model := 0; full.iter_num := 0; full.step_count := 0 |}.

Definition repr (a : full.args) : string :=
  match a with
  | full.OfIO _ => "IOArgs(...)"
  | full.OfTrain _ => "TrainArgs(...)"
  | full.OfEval _ => "EvalArgs(...)"
  end.

(** The loaders of the [Alpaca] module, taken into use. *)
Definition alpaca_train : DataLoader SFTDataset Z :=
  dl_with_dataset (alpaca.train_dataloader alpaca_module) (sft train_records).
Definition alpaca_val : DataLoader SFTDataset Z :=
  dl_with_dataset (alpaca.val_dataloader alpaca_module) (sft test_records).

(** The same loaders but for the generator that [Deita.train_dataloader]
    passes. *)
Definition deita_module : deita.Deita :=
  deita.connect deita.Deita_default (Some {| tokenizer_dir := "checkpoints/demo" |}) 1 None.
Definition deita_train : DataLoader SFTDataset Z :=
  dl_with_dataset (deita.train_dataloader deita_module) (sft train_records).
Definition deita_val : DataLoader SFTDataset Z :=
  dl_with_dataset (deita.val_dataloader (G:=Z) deita_module) (sft test_records).

(** The batches a run trained on, in order. *)
Definition batches_of (r : result (@full.fit_result Z Z)) : list (list sample) :=
  match r with
  | Ok r => full.it_batch <$> full.iterations r
  | Raise _ => []
  end.

(** The [state] dictionary the run held after its iteration [n], which is
    what a checkpoint saved there contains. *)
Definition checkpoint_after (n : nat) (r : result (@full.fit_result Z Z))
  : option (full.State Z) :=
  match r with
  | Ok r => full.it_state <$> full.iterations r !! pred n
  | Raise _ => None
  end.

(** The same as [train] with at most two optimizer steps. *)
Definition train_capped : full.TrainArgs :=
  {| full.save_interval := 3; full.log_interval := 1; full.global_batch_size := 1;
     full.micro_batch_size := 1; full.lr_warmup_steps := 2; full.epochs := Some 3;
     full.max_tokens := None; full.max_steps := Some 2; full.max_seq_length := None;
     full.max_norm := None; full.learning_rate := (3 # 1000)%Q |}.

(** A validation loader over a single example. *)
Definition single_val : DataLoader SFTDataset Z :=
  dl_with_dataset (alpaca.val_dataloader alpaca_module) (sft [sft_record "e" "" "u"]).

(** A file of two stories for [tinystories.tokenize], with the environment
    of the first of two workers. *)
Definition story_file (filename : string) : result (list (gmap string string)) :=
  Ok [ {[ "story" := " Once upon a time. " ]}; {[ "story" := "The end." ]} ].
Definition story_encode (t : Tokenizer) (text : string) (bos eos : bool) : list Z :=
  (if bos then [1] else []) ++ tokens text ++ (if eos then [2] else []).
Definition environ : gmap string string :=
  {[ "DATA_OPTIMIZER_GLOBAL_RANK" := "0"; "DATA_OPTIMIZER_NUM_WORKERS" := "2" ]}.

End demo.

#[global] Existing Instance demo.counting_framework.

(** * Properties *)

(** ** Loops and indexing *)

Lemma for_in_fmap {A B S} (f : A -> B) (xs : list A) (body : S -> B -> result S) s :
  for_in (f <$> xs) body s = for_in xs (fun s x => body s (f x)) s.
Proof.
  revert s. induction xs as [|x xs IH]; intros s; simpl; [done|].
  destruct (body s (f x)); simpl; auto.
Qed.

Lemma for_in_app {A S} (xs ys : list A) (body : S -> A -> result S) s :
  for_in (xs ++ ys) body s = s' ← for_in xs body s; for_in ys body s'.
Proof.
  revert s. induction xs as [|x xs IH]; intros s; simpl; [done|].
  destruct (body s x); simpl; auto.
Qed.

Lemma py_index_nat {A} (l : list A) (i : nat) a :
  l !! i = Some a -> py_index l (Z.of_nat i) = Ok a.
Proof.
  intros H. unfold py_index.
  destruct (decide (Z.of_nat i < 0)) as [|_]; [lia|]. cbv zeta.
  destruct (decide (Z.of_nat i < 0)) as [|_]; [lia|].
  by rewrite Nat2Z.id, H.
Qed.

Lemma py_range_even (n : nat) :
  py_range 0 (Z.of_nat n - 1) 2 = (fun k : nat => 2 * Z.of_nat k) <$> seq 0 (n `div` 2)%nat.
Proof.
  unfold py_range, seqZ.
  replace (Z.of_nat n - 1 - 0 + 2 - 1) with (Z.of_nat n) by lia.
  replace (Z.to_nat (Z.of_nat n `div` 2)) with (n `div` 2)%nat
    by (change 2 with (Z.of_nat 2); rewrite <- Nat2Z.inj_div; by rewrite Nat2Z.id).
  rewrite <- list_fmap_compose. apply list_fmap_ext; intros _ k _; simpl. lia.
Qed.

Lemma traced_lift_ok_bind {E A B} (a : A) (f : A -> traced E B) :
  (lift (Ok a) ≫= f) = f a.
Proof. unfold mbind, traced_bind, lift. by destruct (f a). Qed.

Lemma traced_lift_raise_bind {E A B} (e : exn) (f : A -> traced E B) :
  (lift (Raise e) ≫= f) = ([], Raise e).
Proof. done. Qed.

Lemma traced_tell_bind_head {E B} (e : E) (f : unit -> traced E B) :
  exists t r, (tell e ≫= f) = (e :: t, r).
Proof. unfold mbind, traced_bind, tell. destruct (f ()) as [t r]. by exists t, r. Qed.

(** ** [format_dataset] (deita.py, lima.py) *)

Lemma sft_record_well_formed a c : well_formed_record (sft_record a "" c).
Proof.
  split.
  - unfold sft_record, record_keys. rewrite !dom_insert_L, dom_empty_L. set_solver.
  - unfold sft_record. by simplify_map_eq.
Qed.

Section FormatConversations.
Context {T : Type} `{!Inhabited T} (text : T -> string).

Lemma turn_pairs_loop (convo : list T) (ks : list nat) acc :
  Forall (fun k => (2 * k + 1 < length convo)%nat) ks ->
  for_in ks (fun formatted_ds (k : nat) =>
      a ← py_index convo (2 * Z.of_nat k);
      b ← py_index convo (2 * Z.of_nat k + 1);
      Ok (formatted_ds ++ [sft_record (text a) "" (text b)])) acc
  = Ok (acc ++ ((fun k => sft_record (text (convo !!! (2 * k)%nat)) ""
                                    (text (convo !!! (2 * k + 1)%nat))) <$> ks)).
Proof.
  intros Hks. revert acc.
  induction Hks as [|k ks Hk _ IH]; intros acc; simpl.
  - by rewrite app_nil_r.
  - replace (2 * Z.of_nat k) with (Z.of_nat (2 * k)) by lia.
    replace (Z.of_nat (2 * k) + 1) with (Z.of_nat (2 * k + 1)) by lia.
    rewrite (py_index_nat convo (2 * k) (convo !!! (2 * k)%nat))
      by (apply list_lookup_lookup_total_lt; lia).
    rewrite (py_index_nat convo (2 * k + 1) (convo !!! (2 * k + 1)%nat))
      by (apply list_lookup_lookup_total_lt; lia).
    simpl. rewrite IH. by rewrite <- app_assoc.
Qed.

Lemma format_conversations_multi (convos : list (list T)) acc :
  format_conversations text convos true acc
  = Ok (acc ++ (convos ≫= turn_pair_records text)).
Proof.
  unfold format_conversations. revert acc.
  induction convos as [|convo convos IH]; intros acc; simpl.
  - by rewrite app_nil_r.
  - rewrite py_range_even, for_in_fmap, turn_pairs_loop.
    + simpl. rewrite IH. by rewrite <- app_assoc.
    + apply list.Forall_forall. intros k Hk%elem_of_seq.
      pose proof (Nat.Div0.mul_div_le (length convo) 2). lia.
Qed.

Lemma format_conversations_single (convos : list (list T)) acc :
  Forall (fun convo => (2 <= length convo)%nat) convos ->
  format_conversations text convos false acc
  = Ok (acc ++ (first_turns_record text <$> convos)).
Proof.
  unfold format_conversations. intros Hlen. revert acc.
  induction Hlen as [|convo convos Hc _ IH]; intros acc; simpl.
  - by rewrite app_nil_r.
  - change 0 with (Z.of_nat 0). change 1 with (Z.of_nat 1).
    rewrite (py_index_nat convo 0 (convo !!! 0%nat))
      by (apply list_lookup_lookup_total_lt; lia).
    rewrite (py_index_nat convo 1 (convo !!! 1%nat))
      by (apply list_lookup_lookup_total_lt; lia).
    simpl. rewrite IH. by rewrite <- app_assoc.
Qed.

Lemma format_conversations_well_formed (convos : list (list T)) multi recs :
  Forall (fun convo => (2 <= length convo)%nat) convos ->
  format_conversations text convos multi [] = Ok recs ->
  Forall well_formed_record recs.
Proof.
  intros Hlen. destruct multi.
  - rewrite format_conversations_multi. intros [= <-]. simpl.
    apply Forall_bind, Forall_true. intros convo.
    apply Forall_fmap, Forall_true. intros k. unfold compose. apply sft_record_well_formed.
  - rewrite format_conversations_single by done. intros [= <-]. simpl.
    apply Forall_fmap, Forall_true. intros convo. unfold compose, first_turns_record. apply sft_record_well_formed.
Qed.

End FormatConversations.

Lemma deita_format_dataset_conversations ds multi :
  deita.format_dataset ds multi
  = format_conversations deita.content (deita.messages <$> ds) multi [].
Proof. unfold deita.format_dataset, format_conversations. by rewrite for_in_fmap. Qed.

Lemma lima_format_dataset_conversations ds multi :
  lima.format_dataset ds multi
  = format_conversations id (lima.conversations <$> ds) multi [].
Proof. unfold lima.format_dataset, format_conversations. by rewrite for_in_fmap. Qed.

(** C7. On a partition whose conversations all have at least two turns,
    [format_dataset] of deita.py and of lima.py returns (it does not raise):
    without multi-turn conversations, one record per conversation, made of
    its turns 0 and 1; with them, for each conversation in order the records
    of its turn pairs (2k, 2k+1), for every k with 2k+1 inside the
    conversation.  Every record returned has exactly the keys instruction,
    input and output, and its input is the empty string. *)
Theorem format_dataset_records :
  (forall ds : list deita.entry,
     Forall (fun e => (2 <= length (deita.messages e))%nat) ds ->
     deita.format_dataset ds false
       = Ok ((fun e => first_turns_record deita.content (deita.messages e)) <$> ds)
     /\ deita.format_dataset ds true
       = Ok (ds ≫= fun e => turn_pair_records deita.content (deita.messages e))
     /\ forall multi, exists recs,
         deita.format_dataset ds multi = Ok recs /\ Forall well_formed_record recs)
  /\
  (forall ds : list lima.entry,
     Forall (fun e => (2 <= length (lima.conversations e))%nat) ds ->
     lima.format_dataset ds false
       = Ok ((fun e => first_turns_record id (lima.conversations e)) <$> ds)
     /\ lima.format_dataset ds true
       = Ok (ds ≫= fun e => turn_pair_records id (lima.conversations e))
     /\ forall multi, exists recs,
         lima.format_dataset ds multi = Ok recs /\ Forall well_formed_record recs).
Proof.
  split; intros ds Hlen.
  - assert (Hc : Forall (fun convo => (2 <= length convo)%nat) (deita.messages <$> ds))
      by (by apply Forall_fmap).
    assert (H1 := format_conversations_single deita.content _ [] Hc).
    assert (H2 := format_conversations_multi deita.content (deita.messages <$> ds) []).
    rewrite <- deita_format_dataset_conversations in H1, H2.
    rewrite <- list_fmap_compose in H1. rewrite list_fmap_bind in H2.
    split; [exact H1|]. split; [exact H2|].
    intros multi. destruct (deita.format_dataset ds multi) as [recs|e] eqn:E.
    + exists recs. split; [done|].
      rewrite deita_format_dataset_conversations in E.
      exact (format_conversations_well_formed deita.content _ multi recs Hc E).
    + destruct multi; congruence.
  - assert (Hc : Forall (fun convo => (2 <= length convo)%nat) (lima.conversations <$> ds))
      by (by apply Forall_fmap).
    assert (H1 := format_conversations_single id _ [] Hc).
    assert (H2 := format_conversations_multi id (lima.conversations <$> ds) []).
    rewrite <- lima_format_dataset_conversations in H1, H2.
    rewrite <- list_fmap_compose in H1. rewrite list_fmap_bind in H2.
    split; [exact H1|]. split; [exact H2|].
    intros multi. destruct (lima.format_dataset ds multi) as [recs|e] eqn:E.
    + exists recs. split; [done|].
      rewrite lima_format_dataset_conversations in E.
      exact (format_conversations_well_formed id _ multi recs Hc E).
    + destruct multi; congruence.
Qed.

(** ** [prompt_template] (alpaca.py) *)

Lemma alpaca_input_is_builtin (example : gmap string string) :
  load_name {[ "example" := PyDict example ]} alpaca.module_globals "input"
  = Ok (PyBuiltinFunction "input").
Proof.
  unfold load_name.
  rewrite lookup_singleton_ne by done.
  by vm_compute.
Qed.

Lemma prompt_variants_differ instruction input instruction' :
  alpaca.prompt_with_input instruction input <> alpaca.prompt_without_input instruction'.
Proof. unfold alpaca.prompt_with_input, alpaca.prompt_without_input. simpl. discriminate. Qed.

(** C8. On every example that has the keys instruction and input,
    [prompt_template] returns the variant with the [### Input:] section, the
    empty input included: the condition looks up the bare name [input], which
    is the builtin function and is true.  Whatever the example, the variant
    without the input section is never what it returns. *)
Theorem prompt_template_always_with_input :
  (forall (example : gmap string string) instruction input,
     example !! "instruction" = Some instruction ->
     example !! "input" = Some input ->
     alpaca.prompt_template example = Ok (alpaca.prompt_with_input instruction input))
  /\ (forall instruction output,
        alpaca.prompt_template (sft_record instruction "" output)
        = Ok (alpaca.prompt_with_input instruction ""))
  /\ (forall (example : gmap string string) instruction,
        alpaca.prompt_template example <> Ok (alpaca.prompt_without_input instruction)).
Proof.
  assert (H : forall (example : gmap string string) instruction input,
     example !! "instruction" = Some instruction ->
     example !! "input" = Some input ->
     alpaca.prompt_template example = Ok (alpaca.prompt_with_input instruction input)).
  { intros example instruction input Hi Hin. unfold alpaca.prompt_template.
    rewrite alpaca_input_is_builtin. simpl. unfold py_getitem. by rewrite Hi, Hin. }
  split; [exact H|]. split.
  - intros instruction output. apply H; unfold sft_record; by simplify_map_eq.
  - intros example instruction. unfold alpaca.prompt_template.
    rewrite alpaca_input_is_builtin. simpl. unfold py_getitem.
    destruct (example !! "instruction"); simpl; [|discriminate].
    destruct (example !! "input"); simpl; [|discriminate].
    intros Heq.
    exact (prompt_variants_differ _ _ _
             (f_equal (fun r => match r with Ok p => p | Raise _ => "" end) Heq)).
Qed.

(** ** [validate_args] and [main] (full.py) *)

Lemma collect_issues_expected file repr io train eval :
  full.collect_issues file repr io train eval
  = Ok (expected_issues file repr io train eval).
Proof.
  unfold full.collect_issues, expected_issues.
  destruct train as [? ? ? ? ? ep mt ms msl mn lr], io as [cd od], eval as [iv mnt mi].
  destruct ep, mt, mn, cd, mnt; reflexivity.
Qed.

Lemma expected_issues_nil file repr io train eval :
  expected_issues file repr io train eval = [] <-> args_accepted io train eval.
Proof.
  unfold expected_issues, args_accepted.
  destruct train as [? ? ? ? ? ep mt ms msl mn lr], io as [cd od], eval as [iv mnt mi].
  destruct ep, mt, mn, cd, mnt; simpl; split; try discriminate; try done;
    intros (? & ? & ? & ? & ?); congruence.
Qed.

Lemma validate_args_result file repr io train eval :
  full.validate_args file repr io train eval
  = match expected_issues file repr io train eval with
    | [] => Ok tt
    | issues => Raise (ValueError (full.join_lines issues))
    end.
Proof.
  unfold full.validate_args. rewrite collect_issues_expected. simpl.
  by destruct (expected_issues file repr io train eval).
Qed.

(** C9. [validate_args] raises [ValueError] exactly when [max_tokens] or
    [max_norm] is set or one of [checkpoint_dir], [epochs], [max_new_tokens]
    is missing, and then its one exception carries all the issues, one line
    each; [main] then raises that exception having constructed nothing.  With
    acceptable arguments [validate_args] returns and [main] goes on to its
    first call. *)
Theorem main_validates_arguments_first :
  forall {G M T : Type} `{!full.Framework G M} `{!LitDataModule T G}
         (file : string) (repr : full.args -> string)
         (fuel : nat) (devices : Z) (resume : option (full.State M)) (seed : Z) (data : T)
         (io : full.IOArgs) (train : full.TrainArgs) (eval : full.EvalArgs),
    (args_accepted io train eval ->
       full.validate_args file repr io train eval = Ok tt
       /\ exists t r, full.main file repr fuel devices resume seed data io train eval
                      = (full.CheckValidCheckpointDir (full.checkpoint_dir io) :: t, r))
    /\ (~ args_accepted io train eval ->
          expected_issues file repr io train eval <> []
          /\ full.validate_args file repr io train eval
             = Raise (ValueError (full.join_lines (expected_issues file repr io train eval)))
          /\ full.main file repr fuel devices resume seed data io train eval
             = ([], Raise (ValueError (full.join_lines
                                         (expected_issues file repr io train eval))))).
Proof.
  intros. split.
  - intros Hok%(expected_issues_nil file repr).
    assert (Hv : full.validate_args file repr io train eval = Ok tt)
      by (by rewrite validate_args_result, Hok).
    split; [exact Hv|].
    unfold full.main. rewrite Hv, traced_lift_ok_bind.
    apply traced_tell_bind_head.
  - intros Hbad.
    assert (Hne : expected_issues file repr io train eval <> [])
      by (by rewrite expected_issues_nil).
    assert (Hv : full.validate_args file repr io train eval
                 = Raise (ValueError (full.join_lines
                                        (expected_issues file repr io train eval)))).
    { rewrite validate_args_result.
      by destruct (expected_issues file repr io train eval). }
    split; [exact Hne|]. split; [exact Hv|].
    unfold full.main. by rewrite Hv, traced_lift_raise_bind.
Qed.

(** ** [download_from_hub] (download.py) *)

(** C10, as amended.  Without a [repo_id] the options are printed and
    nothing is downloaded.  With one: [ValueError] when the repository needs
    authentication and no token is given, and whenever [tokenizer_only] and
    [from_safetensors] are both set; [ModuleNotFoundError] when safetensors
    weights are asked for and the package is not installed; in every other
    case the snapshot download is made, for that repository and with that
    token. *)
Theorem download_from_hub_cases :
  forall (configs : list (string * string)) (safetensors_available : bool)
         (access_token : option string) (from_safetensors tokenizer_only : bool)
         (checkpoint_dir : string),
    let run repo_id :=
      download.download_from_hub configs safetensors_available repo_id access_token
                                 from_safetensors tokenizer_only checkpoint_dir in
    (exists lines, run None = Ok (download.Printed lines))
    /\ forall repo_id : string,
        (download.requires_authentication repo_id = true ->
         download.no_token access_token = true ->
         exists msg, run (Some repo_id) = Raise (ValueError msg))
        /\ (tokenizer_only = true -> from_safetensors = true ->
            exists msg, run (Some repo_id) = Raise (ValueError msg))
        /\ (download.requires_authentication repo_id && download.no_token access_token = false ->
            tokenizer_only = false -> from_safetensors = true ->
            safetensors_available = false ->
            exists msg, run (Some repo_id) = Raise (ModuleNotFoundError msg))
        /\ (download.requires_authentication repo_id && download.no_token access_token = false ->
            tokenizer_only && from_safetensors = false ->
            from_safetensors && negb tokenizer_only && negb safetensors_available = false ->
            exists call,
              run (Some repo_id) = Ok (download.Downloaded call from_safetensors)
              /\ download.sd_repo_id call = repo_id
              /\ download.token call = access_token).
Proof.
  intros. subst run. cbv beta. split; [eexists; reflexivity|].
  intros repo_id. unfold download.download_from_hub.
  repeat split.
  - intros -> ->. simpl. by eexists.
  - intros -> ->.
    destruct (download.requires_authentication repo_id && download.no_token access_token);
      simpl; by eexists.
  - intros -> -> -> ->. simpl. by eexists.
  - intros -> Hto Hav.
    destruct tokenizer_only, from_safetensors, safetensors_available;
      try discriminate; simpl; eexists; done.
Qed.

(** C10, counterexample: safetensors weights of "EleutherAI/pythia-70m"
    asked for where the safetensors package is missing.  No token is
    needed, [tokenizer_only] is off, and yet nothing is downloaded: the call
    raises [ModuleNotFoundError]. *)
Lemma download_without_safetensors_raises :
  download.download_from_hub [] false (Some "EleutherAI/pythia-70m") None true false
                             "checkpoints"
  = Raise (ModuleNotFoundError "safetensors")
  /\ ~ download_proceeds_otherwise.
Proof.
  split; [reflexivity|].
  intros H.
  destruct (H [] false "EleutherAI/pythia-70m" None true false "checkpoints")
    as (call & convert & Heq); [reflexivity..|].
  discriminate Heq.
Qed.

(** ** [get_lr_scheduler] and the steps [main] passes to it (full.py) *)

Lemma get_lr_scheduler_ok warmup_steps max_steps :
  warmup_steps <> 0 ->
  full.get_lr_scheduler warmup_steps max_steps
  = Ok {| full.schedulers :=
            [full.LambdaLR (fun step => full.py_truediv step warmup_steps);
             full.CosineAnnealingLR (max_steps - warmup_steps)];
          full.milestones := [warmup_steps] |}.
Proof.
  intros Hw. unfold full.get_lr_scheduler, full.LambdaLR_new, full.py_truediv.
  by rewrite decide_False by done.
Qed.

Lemma min_bound_or_inf a (x : option Z) :
  full.min_bound a (full.or_inf x)
  = match x with
    | Some m => if decide (m = 0) then a else Z.min a m
    | None => a
    end.
Proof.
  destruct x as [m|]; simpl; [|done].
  destruct (decide (m = 0)); simpl; [done|].
  destruct (decide (m < a)); lia.
Qed.

Lemma traced_bind_trace {E A B} (m : traced E A) (f : A -> traced E B) (x : E) :
  x ∈ (m ≫= f).1 -> x ∈ m.1 \/ exists a, m.2 = Ok a /\ x ∈ (f a).1.
Proof.
  destruct m as [t [a|e]]; unfold mbind, traced_bind; simpl.
  - destruct (f a) as [t' r] eqn:Hfa. simpl. intros [H|H]%elem_of_app; [by left|].
    right. exists a. by rewrite Hfa.
  - by left.
Qed.

(** Walks through the trace of a sequence of [tell] and [lift] steps,
    leaving the events that can be the one looked for. *)
Ltac trace_in Hin :=
  lazymatch type of Hin with
  | _ ∈ (_ ≫= _).1 =>
      apply traced_bind_trace in Hin as [Hin | (? & ? & Hin)];
      [trace_in Hin | trace_in Hin]
  | _ ∈ (let '(_, _) := ?p in _).1 => destruct p eqn:?; trace_in Hin
  | _ ∈ (match ?r with Some _ => _ | None => _ end).1 => destruct r; trace_in Hin
  | _ ∈ (tell _).1 =>
      apply list_elem_of_singleton in Hin;
      first [discriminate Hin | injection Hin as ->]
  | _ ∈ (lift _).1 => by apply elem_of_nil in Hin
  | _ ∈ (mret _).1 => by apply elem_of_nil in Hin
  end.


(** ** The data modules: [connect] and the loaders built after it *)

(** C6, counterexample: [TinyStories.connect] with [max_seq_length = 10]
    stores 11, and the loaders built afterwards read blocks of 11 tokens; so
    [connect] does not store the given [max_seq_length] unchanged in every
    data module. *)
Lemma tinystories_connect_adds_one :
  let self := tinystories.connect (tinystories.TinyStories_new "data/tinystories" 42 8)
                                  (Some {| tokenizer_dir := "checkpoints/tok" |}) 2 10 in
  tinystories.max_seq_length self = 11
  /\ tinystories.block_size (dl_dataset (tinystories.train_dataloader (G:=Z) self)) = 11
  /\ ~ (forall self tokenizer batch_size max_seq_length,
          tinystories.max_seq_length
            (tinystories.connect self tokenizer batch_size max_seq_length)
          = max_seq_length).
Proof.
  split; [reflexivity|]. split; [reflexivity|].
  intros H.
  specialize (H (tinystories.TinyStories_new "data/tinystories" 42 8) None 2 10).
  discriminate H.
Qed.

(** C6, as amended.  [Deita] defines the whole contract [connect],
    [prepare_data], [setup], [train_dataloader], [val_dataloader]; its
    [connect] stores the tokenizer and the batch size as given and the given
    [max_seq_length], or -1 for [None], and the datasets and loaders built by
    [setup], [train_dataloader] and [val_dataloader] use the stored values.
    [TinyStories] defines [connect], [prepare_data] and the two loaders; its
    [connect] stores the tokenizer and the batch size as given and
    [max_seq_length + 1], and its loaders use the stored batch size and read
    blocks of the stored length.  [Alpaca] and [LIMA] define no [connect]:
    their constructors store the tokenizer, batch size and [max_seq_length]
    as given and their loaders use them. *)
Theorem data_modules_store_connection :
  (forall m, m ∈ data_module_contract -> m ∈ deita.methods)
  /\ "connect" ∈ tinystories.methods
  /\ ("connect" ∉ alpaca.methods) /\ ("connect" ∉ lima.methods)
  /\ (forall {G} `{!TorchRNG G} load_dataset prompt_template
             (self : deita.Deita) tokenizer batch_size max_seq_length ready,
        let connected := deita.connect self tokenizer batch_size max_seq_length in
        let stored := match max_seq_length with Some n => n | None => -1 end in
        deita.tokenizer connected = tokenizer
        /\ deita.batch_size connected = batch_size
        /\ deita.max_seq_length connected = stored
        /\ (deita.setup load_dataset prompt_template connected = Ok ready ->
            forall dl, dl = deita.train_dataloader (G:=G) ready
                       \/ dl = deita.val_dataloader ready ->
              dl_batch_size dl = batch_size
              /\ (collate_max_seq_length <$> dl_collate_fn dl) = Some stored
              /\ (sft_tokenizer <$> dl_dataset dl) = Some tokenizer
              /\ (sft_max_seq_length <$> dl_dataset dl) = Some stored))
  /\ (forall {G} (self : tinystories.TinyStories) tokenizer batch_size max_seq_length,
        let connected := tinystories.connect self tokenizer batch_size max_seq_length in
        tinystories.tokenizer connected = tokenizer
        /\ tinystories.batch_size connected = batch_size
        /\ tinystories.max_seq_length connected = max_seq_length + 1
        /\ forall dl, dl = tinystories.train_dataloader (G:=G) connected
                      \/ dl = tinystories.val_dataloader connected ->
             dl_batch_size dl = batch_size
             /\ tinystories.block_size (dl_dataset dl) = max_seq_length + 1)
  /\ (forall {G} tmpdir (tokenizer : Tokenizer) max_seq_length mask_prompt fraction
             ignore_index seed file_name url batch_size num_workers,
        let self := alpaca.__init__ tmpdir (alpaca.OfTokenizer tokenizer) max_seq_length
                      mask_prompt fraction ignore_index seed file_name url batch_size
                      num_workers in
        alpaca.tokenizer self = tokenizer
        /\ alpaca.batch_size self = batch_size
        /\ alpaca.max_seq_length self = max_seq_length
        /\ forall dl, dl = alpaca.train_dataloader (G:=G) self
                      \/ dl = alpaca.val_dataloader self ->
             dl_batch_size dl = batch_size
             /\ (collate_max_seq_length <$> dl_collate_fn dl) = Some max_seq_length)
  /\ (forall {G} (tokenizer : Tokenizer) max_seq_length mask_prompt fraction ignore_index
             seed multiturn repo token batch_size num_workers,
        exists self,
          lima.__init__ (alpaca.OfTokenizer tokenizer) max_seq_length mask_prompt fraction
            ignore_index seed multiturn repo (Some token) batch_size num_workers = Ok self
          /\ lima.tokenizer self = tokenizer
          /\ lima.batch_size self = batch_size
          /\ lima.max_seq_length self = max_seq_length
          /\ forall dl, dl = lima.train_dataloader (G:=G) self
                        \/ dl = lima.val_dataloader self ->
               dl_batch_size dl = batch_size
               /\ (collate_max_seq_length <$> dl_collate_fn dl) = Some max_seq_length).
Proof.
  split; [|split; [|split; [|split]]].
  - intros m Hm. exact Hm.
  - unfold tinystories.methods. set_solver.
  - unfold alpaca.methods. intros H. repeat (apply elem_of_cons in H as [H|H]; [discriminate|]).
    by apply elem_of_nil in H.
  - unfold lima.methods. intros H. repeat (apply elem_of_cons in H as [H|H]; [discriminate|]).
    by apply elem_of_nil in H.
  - split; [|split; [|split]].
    + intros G ? load_dataset prompt_template self tokenizer batch_size max_seq_length ready.
      cbv zeta. do 3 (split; [reflexivity|]).
      intros Hsetup dl Hdl. unfold deita.setup in Hsetup.
      destruct (load_dataset _ _) as [dataset|]; simpl in Hsetup; [|discriminate].
      destruct (py_index dataset 0) as [part0|]; simpl in Hsetup; [|discriminate].
      destruct (deita.format_dataset part0 _) as [train_data|]; simpl in Hsetup;
        [|discriminate].
      destruct (py_index dataset 1) as [part1|]; simpl in Hsetup; [|discriminate].
      destruct (deita.format_dataset part1 _) as [test_data|]; simpl in Hsetup;
        [|discriminate].
      injection Hsetup as <-.
      destruct Hdl as [-> | ->]; done.
    + intros G self tokenizer batch_size max_seq_length.
      cbv zeta. do 3 (split; [reflexivity|]).
      intros dl [-> | ->]; done.
    + intros. cbv zeta. do 3 (split; [reflexivity|]).
      intros dl [-> | ->]; done.
    + intros. eexists. split; [reflexivity|]. do 3 (split; [reflexivity|]).
      intros dl [-> | ->]; done.
Qed.

(** ** Iterating a loader *)

Lemma omap_lookup_seq {A} (data : list A) :
  omap (fun i => data !! i) (seq 0 (length data)) = data.
Proof.
  induction data as [|x data IH]; [done|].
  cbn [length seq]. rewrite <- fmap_S_seq. cbn [omap list_omap lookup list_lookup].
  f_equal. etrans; [|exact IH]. clear IH.
  generalize (seq 0 (length data)) as l. induction l as [|i l IH]; [done|].
  cbn. by rewrite IH.
Qed.

Lemma omap_lookup_perm {A} (data : list A) (order : list nat) :
  order ≡ₚ seq 0 (length data) ->
  length (omap (fun i => data !! i) order) = length data.
Proof.
  intros Hp.
  transitivity (length (omap (fun i => data !! i) (seq 0 (length data)))).
  - apply Permutation_length. by rewrite Hp.
  - by rewrite omap_lookup_seq.
Qed.

Lemma chunks_length {A} (fuel n : nat) (l : list A) :
  (0 < n)%nat -> (length l <= fuel)%nat ->
  length (chunks fuel n l) = ((length l + n - 1) `div` n)%nat.
Proof.
  intros Hn. revert l. induction fuel as [|fuel IH]; intros l Hl.
  - destruct l; [|simpl in Hl; lia]. cbn [chunks length].
    symmetry. apply Nat.div_small. lia.
  - destruct l as [|x l]; cbn [chunks].
    + cbn [length]. symmetry. apply Nat.div_small. lia.
    + assert (Hpos : (1 <= length (x :: l))%nat) by (simpl; lia).
      assert (Hd : (length (drop n (x :: l)) <= fuel)%nat) by (rewrite length_drop; lia).
      cbn [length] in *. rewrite (IH _ Hd), length_drop.
      set (len := S (length l)) in *. change (length (x :: l)) with len.
      destruct (decide (len <= n)%nat) as [Hle|Hgt].
      * assert (E : ((len - n + n - 1) `div` n = 0)%nat) by (apply Nat.div_small; lia).
        rewrite E.
        apply (Nat.div_unique _ _ 1 (len - 1)); lia.
      * replace (len + n - 1)%nat with ((len - n + n - 1) + 1 * n)%nat by lia.
        rewrite Nat.div_add by lia. lia.
Qed.

Lemma chunks_full_length {A} (fuel n : nat) (l : list A) :
  (0 < n)%nat -> (length l <= fuel)%nat ->
  length (filter (fun b => length b = n) (chunks fuel n l)) = (length l `div` n)%nat.
Proof.
  intros Hn. revert l. induction fuel as [|fuel IH]; intros l Hl.
  - destruct l; [|simpl in Hl; lia]. cbn [chunks length filter list_filter].
    symmetry. by apply Nat.div_small.
  - destruct l as [|x l]; [cbn; symmetry; by apply Nat.div_small|].
    assert (Hd : (length (drop n (x :: l)) <= fuel)%nat)
      by (rewrite length_drop; simpl in Hl; simpl; lia).
    cbn [chunks]. rewrite filter_cons.
    set (len := length (x :: l)) in *.
    destruct (decide (length (take n (x :: l)) = n)) as [Hfull|Hshort].
    + cbn [length]. rewrite (IH _ Hd), length_drop. fold len.
      rewrite length_take in Hfull. fold len in Hfull.
      replace len with ((len - n) + 1 * n)%nat at 2 by lia.
      rewrite Nat.div_add by lia. lia.
    + rewrite (IH _ Hd), length_drop. fold len.
      rewrite length_take in Hshort. fold len in Hshort.
      rewrite !Nat.div_small by lia. done.
Qed.

Section LoaderIteration.
Context {G D : Type} `{!TorchRNG G} (items : D -> list sample).

Lemma same_loader_refl (dl : DataLoader D G) : same_loader dl dl.
Proof. by repeat split. Qed.

Lemma same_loader_trans (a b c : DataLoader D G) :
  same_loader a b -> same_loader b c -> same_loader a c.
Proof.
  intros (?&?&?&?&?&?&?) (?&?&?&?&?&?&?). repeat split; congruence.
Qed.

Lemma loader_ready_same k (dl dl' : DataLoader D G) :
  same_loader dl dl' -> loader_ready items k dl -> loader_ready items k dl'.
Proof.
  intros (Hd&Hb&_&_&_&_&Hl) [H1 H2]. unfold loader_ready, batches_per_epoch in *.
  by rewrite <- Hd, <- Hb, <- Hl.
Qed.

Lemma random_sampler_perm n (own : option G) default :
  (random_sampler n own default).1.1 ≡ₚ seq 0 n.
Proof.
  unfold random_sampler, draw. destruct own as [g|].
  - pose proof (randperm_perm n g) as Hp. by destruct (randperm n g).
  - destruct (random_ default) as [seed d'].
    apply randperm_perm.
Qed.

(** An epoch of a loader with a positive batch size: the batches are as
    many as [len(dataloader)] says, and the loader is the same but for its
    generator. *)
Lemma iter_dataloader_ok (dl : DataLoader D G) default :
  0 < dl_batch_size dl ->
  exists batches dl' default',
    iter_dataloader items dl default = Ok (batches, dl', default')
    /\ same_loader dl dl'
    /\ Z.of_nat (length batches) = batches_per_epoch items dl.
Proof.
  intros Hbs. unfold iter_dataloader. rewrite decide_False by lia. cbv zeta.
  destruct (draw random_ random_ (dl_generator dl) default) as [[seed own] d1].
  set (n := length (items (dl_dataset dl))).
  assert (Hord : exists order own2 d2,
    (if dl_shuffle dl then random_sampler n own d1 else (seq 0 n, own, d1))
    = (order, own2, d2) /\ order ≡ₚ seq 0 n).
  { destruct (dl_shuffle dl).
    - pose proof (random_sampler_perm n own d1) as Hp.
      destruct (random_sampler n own d1) as [[order own2] d2]. by exists order, own2, d2.
    - by exists (seq 0 n), own, d1. }
  destruct Hord as (order & own2 & d2 & -> & Hperm).
  eexists _, _, _. split; [reflexivity|]. split; [by repeat split|].
  unfold batches_per_epoch. fold n. cbv zeta.
  pose proof (omap_lookup_perm (items (dl_dataset dl)) order Hperm) as Hlen. fold n in Hlen.
  destruct (dl_drop_last dl).
  - rewrite chunks_full_length by lia. rewrite Hlen.
    rewrite Nat2Z.inj_div, Z2Nat.id by lia. done.
  - rewrite chunks_length by lia. rewrite Hlen.
    rewrite Nat2Z.inj_div, Z2Nat.id by lia. f_equal. lia.
Qed.

End LoaderIteration.

Section CycleNext.
Context {G D : Type} `{!TorchRNG G} (items : D -> list sample).

Lemma cycle_next_ok (dl : DataLoader D G) (it : CycleIterator G D) default :
  loader_ready items 1 dl ->
  same_loader dl (iterable it) ->
  exists b it' default',
    cycle_next items it default = Ok (b, it', default')
    /\ same_loader dl (iterable it')
    /\ (epoch it' = epoch it \/ epoch it' = epoch it + 1).
Proof.
  intros Hready Hsame.
  pose proof (loader_ready_same items 1 _ _ Hsame Hready) as [Hbs Hlen].
  assert (Hfresh : forall (dl1 : DataLoader D G) d, same_loader dl dl1 ->
            exists b rest dl2 d2,
              iter_dataloader items dl1 d = Ok (b :: rest, dl2, d2) /\ same_loader dl dl2).
  { intros dl1 d Hs.
    pose proof (loader_ready_same items 1 _ _ Hs Hready) as [Hbs1 Hlen1].
    destruct (iter_dataloader_ok items dl1 d Hbs1) as (bs & dl2 & d2 & Heq & Hs2 & Hn).
    destruct bs as [|b rest]; [simpl in Hn; lia|].
    exists b, rest, dl2, d2. split; [done|]. by eapply same_loader_trans. }
  unfold cycle_next. destruct (_iterator it) as [[|b rest]|] eqn:Hit; simpl.
  - destruct (Hfresh (iterable it) default Hsame) as (b & rest & dl2 & d2 & -> & Hs2).
    simpl. eexists _, _, _. split; [reflexivity|]. simpl. split; [done|]. by right.
  - eexists _, _, _. split; [reflexivity|]. simpl. split; [done|]. by left.
  - destruct (Hfresh (iterable it) default Hsame) as (b & rest & dl2 & d2 & -> & Hs2).
    simpl. eexists _, _, _. split; [reflexivity|]. simpl. split; [done|]. by left.
Qed.

End CycleNext.

Section FitFacts.
Context {G M : Type} `{!full.Framework G M}.

Lemma py_range_unit (n : Z) : length (py_range 0 n 1) = Z.to_nat n.
Proof.
  unfold py_range. rewrite length_fmap, length_seqZ.
  f_equal. rewrite Z.div_1_r. lia.
Qed.

Lemma validation_losses_loop (model0 : M) (ks : list Z) (acc : list Q)
    (batches : list (list sample)) :
  (length ks <= length batches)%nat ->
  for_in ks (fun '(losses, val_iterator) (k : Z) =>
      match val_iterator with
      | b :: rest => Ok (losses ++ [full.chunked_cross_entropy model0 b], rest)
      | [] => Raise StopIteration
      end) (acc, batches)
  = Ok (acc ++ (full.chunked_cross_entropy model0 <$> take (length ks) batches),
        drop (length ks) batches).
Proof.
  revert acc batches. induction ks as [|k ks IH]; intros acc batches Hlen; simpl.
  - by rewrite app_nil_r.
  - destruct batches as [|b rest]; [simpl in Hlen; lia|]. simpl.
    rewrite IH by (simpl in Hlen; lia). simpl. by rewrite <- app_assoc.
Qed.

Lemma validate_ok (model0 : M) (val_dataloader : DataLoader SFTDataset G)
    tokenizer eval default k :
  loader_ready full.getitems (full.max_iters eval) val_dataloader ->
  is_ok (sample_prompt val_dataloader) = true ->
  full.max_new_tokens eval = Some k ->
  exists v val' default',
    full.validate model0 val_dataloader tokenizer eval default = Ok (v, val', default')
    /\ same_loader val_dataloader val'
    /\ sample_prompt val_dataloader = Ok (full.val_prompt v)
    /\ full.val_max_returned_tokens v
       = Z.of_nat (length (full.tokenizer_encode tokenizer (full.val_prompt v))) + k.
Proof.
  intros [Hbs Hlen] Hprompt Hk. unfold full.validate.
  destruct (iter_dataloader_ok full.getitems val_dataloader default Hbs)
    as (batches & val' & d1 & -> & Hsame & Hn).
  simpl. rewrite validation_losses_loop by (rewrite py_range_unit; lia). simpl.
  unfold sample_prompt in *. pose proof Hsame as (Hds & _).
  rewrite <- Hds. fold full.instruction.
  destruct (full.apply_prompt_template _ _) as [prompt|]; [|discriminate]. simpl.
  rewrite Hk. simpl.
  destruct (full.generate _ _ _ _) as [output d2].
  eexists _, _, _. split; [reflexivity|]. simpl.
  split; [exact Hsame|]. by split.
Qed.

Lemma iter_dataloader_same (dl dl' : DataLoader SFTDataset G) default batches default' :
  iter_dataloader full.getitems dl default = Ok (batches, dl', default') ->
  same_loader dl dl'.
Proof.
  unfold iter_dataloader. case_decide; [discriminate|]. cbv zeta.
  destruct (draw _ _ _ _) as [[? ?] ?].
  destruct (if dl_shuffle dl then _ else _) as [[? ?] ?].
  intros [= _ <- _]. by repeat split.
Qed.

(** What a call of [validate] that returns has done. *)
Lemma validate_inv (model0 : M) (val_dataloader : DataLoader SFTDataset G)
    tokenizer eval default v val' default' :
  full.validate model0 val_dataloader tokenizer eval default = Ok (v, val', default') ->
  same_loader val_dataloader val'
  /\ sample_prompt val_dataloader = Ok (full.val_prompt v)
  /\ exists k, full.max_new_tokens eval = Some k
       /\ full.val_max_returned_tokens v
          = Z.of_nat (length (full.tokenizer_encode tokenizer (full.val_prompt v))) + k.
Proof.
  unfold full.validate.
  destruct (iter_dataloader _ _ _) as [[[batches val1] d1]|] eqn:Hiter; [|discriminate].
  apply iter_dataloader_same in Hiter. cbn [mbind result_bind].
  destruct (for_in _ _ _) as [[losses rest]|]; [|discriminate]. cbn [mbind result_bind].
  pose proof Hiter as (Hds & _). unfold sample_prompt. rewrite Hds. fold full.instruction.
  destruct (full.apply_prompt_template _ _) as [prompt|]; [|discriminate].
  cbn [mbind result_bind].
  destruct (full.max_new_tokens eval) as [k|]; [|discriminate]. cbn [mbind result_bind].
  destruct (full.generate _ _ _ _) as [output d2].
  intros [= <- <- <-]. split; [done|]. split; [done|]. by exists k.
Qed.

End FitFacts.

Section FitIteration.
Context {G M : Type} `{!full.Framework G M}.
Context (devices : Z) (io : full.IOArgs) (train : full.TrainArgs) (eval : full.EvalArgs)
        (tokenizer : Tokenizer).

(** Splits a successful [fit_iteration] into the paths through its body. *)
Ltac iteration_cases Hit :=
  unfold full.fit_iteration, py_mod in Hit;
  repeat first
    [ discriminate Hit
    | progress cbn [mbind result_bind negb] in Hit
    | match type of Hit with
      | context [cycle_next ?a ?b ?c] =>
          destruct (cycle_next a b c) as [[[? ?] ?]|] eqn:?
      | context [full.validate ?a ?b ?c ?d ?e] =>
          destruct (full.validate a b c d e) as [[[? ?] ?]|] eqn:?
      | context [decide (?x = 0)] => destruct (decide (x = 0))
      | context [bool_decide ?P] => destruct (bool_decide_reflect P)
      end ];
  injection Hit as <- <-;
  repeat match goal with Hnn : ¬ (_ ≠ _) |- _ => apply dec_stable in Hnn end.

Ltac iteration_simpl :=
  cbn [full.it_num full.it_state full.it_events full.it_loss full.it_batch full.state
       full.running_loss full.iter_num full.step_count full.model full.val_loader
       full.train_iterator full.default_generator].

Lemma training_calls_cons (e : full.event M) es :
  training_calls (e :: es)
  = if is_training_call e then e :: training_calls es else training_calls es.
Proof.
  unfold training_calls. rewrite filter_cons.
  destruct (is_training_call e); by case_decide.
Qed.

(** Takes apart the membership of an event in an explicit list. *)
Ltac in_events Hm :=
  first
    [ by apply elem_of_nil in Hm
    | apply elem_of_cons in Hm as [Hm|Hm];
      [ first [discriminate Hm | inversion Hm; subst; clear Hm] | in_events Hm ] ].

Ltac event_there :=
  repeat (rewrite elem_of_cons); repeat (first [left; reflexivity | right]).

Ltac fact_solver :=
  first
    [ done
    | solve [eexists; eassumption]
    | solve [apply same_loader_refl]
    | solve [eapply validate_inv; eassumption]
    | solve [case_decide; first [done | lia]]
    | solve [cbv zeta; rewrite !training_calls_cons; cbn [is_training_call];
             case_bool_decide; case_decide; done]
    | solve [intros ? Hm; in_events Hm; eexists _, _, _; eassumption]
    | solve [split;
             [ intros [? Hm]; in_events Hm; done
             | intros [? ?]; first [done | eexists; event_there] ]]
    | solve [intros ? ?; split;
             [ intros Hm; in_events Hm; done
             | intros (? & ? & ?); first [done | subst; event_there] ]]
    | solve [intros ? ?; split;
             [ intros Hm; in_events Hm; done
             | intros (? & ? & ? & ?); first [done | subst; event_there] ]] ].

Lemma fit_iteration_facts l l' it :
  full.fit_iteration devices io train eval tokenizer l = Ok (l', it) ->
  iteration_facts devices io train eval tokenizer l l' it.
Proof.
  intros Hit. iteration_cases Hit.
  all: constructor; iteration_simpl; fact_solver.
Qed.

Lemma sample_prompt_same (val val' : DataLoader SFTDataset G) :
  same_loader val val' -> sample_prompt val' = sample_prompt val.
Proof. intros (Hds & _). unfold sample_prompt. by rewrite Hds. Qed.

Lemma fit_iteration_ok train_dataloader val_dataloader l :
  fit_ready train_dataloader val_dataloader devices io train eval ->
  same_loader train_dataloader (iterable (full.train_iterator l)) ->
  same_loader val_dataloader (full.val_loader l) ->
  exists l' it,
    full.fit_iteration devices io train eval tokenizer l = Ok (l', it)
    /\ same_loader train_dataloader (iterable (full.train_iterator l'))
    /\ same_loader val_dataloader (full.val_loader l').
Proof.
  intros (_ & _ & [k Hk] & Hgai & Hlog & Hint & Hsave & Htrain & Hval & Hprompt) Hst Hsv.
  destruct (cycle_next_ok full.getitems train_dataloader (full.train_iterator l)
              (full.default_generator l) Htrain Hst) as (b & ti & d1 & Hnext & Hst' & _).
  assert (Hvalid : forall model0 d, exists v val' d',
            full.validate model0 (full.val_loader l) tokenizer eval d = Ok (v, val', d')
            /\ same_loader val_dataloader val').
  { intros model0 d.
    destruct (validate_ok model0 (full.val_loader l) tokenizer eval d k)
      as (v & val' & d' & Hv & Hs & _).
    - eapply loader_ready_same; [exact Hsv|].
      destruct Hval as [? ?]. split; [done|lia].
    - by rewrite (sample_prompt_same _ _ Hsv).
    - done.
    - exists v, val', d'. split; [done|]. by eapply same_loader_trans. }
  unfold full.fit_iteration, py_mod. rewrite Hnext. cbn [mbind result_bind].
  destruct (decide (full.gradient_accumulation_iters train devices = 0)); [lia|].
  destruct (decide (full.log_interval train = 0)); [done|].
  destruct (decide (full.interval eval = 0)); [done|].
  destruct (decide (full.save_interval train = 0)); [done|].
  cbn [mbind result_bind].
  destruct (bool_decide_reflect
    ((full.iter_num (full.state l) + 1) `mod` full.gradient_accumulation_iters train devices
     <> 0)); cbn [negb mbind result_bind].
  - eexists _, _. split; [reflexivity|]. by split.
  - destruct (bool_decide_reflect
      ((full.step_count (full.state l) + 1) `mod` full.interval eval = 0)).
    + match goal with |- context [full.validate ?m _ _ _ ?d] =>
        destruct (Hvalid m d) as (v & val' & d' & -> & Hs) end.
      cbn [mbind result_bind].
      destruct (bool_decide_reflect
        ((full.step_count (full.state l) + 1) `mod` full.save_interval train = 0));
        cbn [mbind result_bind]; eexists _, _; (split; [reflexivity|]); by split.
    + cbn [mbind result_bind].
      destruct (bool_decide_reflect
        ((full.step_count (full.state l) + 1) `mod` full.save_interval train = 0));
        cbn [mbind result_bind]; eexists _, _; (split; [reflexivity|]); by split.
Qed.

End FitIteration.

Section FitLoop.
Context {G M : Type} `{!full.Framework G M}.
Context (devices : Z) (io : full.IOArgs) (train : full.TrainArgs) (eval : full.EvalArgs).
Context (train_dataloader val_dataloader : DataLoader SFTDataset G).
Hypothesis Hready : fit_ready train_dataloader val_dataloader devices io train eval.

Local Abbreviation loop_loaders := (loop_loaders train_dataloader val_dataloader).

Lemma loop_condition_ok (l : @full.loop G M) : exists c, full.loop_condition train l = Ok c.
Proof.
  destruct Hready as (_ & [e He] & _). unfold full.loop_condition. rewrite He.
  destruct (full.lt_bound _ _); by eexists.
Qed.

Lemma fit_loop_run tokenizer fuel l :
  loop_loaders l ->
  exists l' its fin,
    full.fit_loop fuel devices io train eval tokenizer l = Ok (l', its, fin)
    /\ run_from devices io train eval tokenizer l its l'
    /\ loop_loaders l'.
Proof.
  revert l. induction fuel as [|fuel IH]; intros l [Ht Hv]; simpl.
  - destruct (loop_condition_ok l) as [c ->]. simpl.
    destruct c; eexists _, _, _; (split; [reflexivity|]); split; by constructor.
  - destruct (loop_condition_ok l) as [c ->]. simpl. destruct c.
    + destruct (fit_iteration_ok devices io train eval tokenizer _ _ l Hready Ht Hv)
        as (l1 & it & Hit & Ht1 & Hv1).
      rewrite Hit. simpl.
      destruct (IH l1 (conj Ht1 Hv1)) as (l2 & its & fin & -> & Hrun & Hl2).
      simpl. eexists _, _, _. split; [reflexivity|]. split; [|done].
      by econstructor.
    + eexists _, _, _. split; [reflexivity|]. split; by constructor.
Qed.

Lemma fast_forward_ok n (it : CycleIterator G SFTDataset) default :
  same_loader train_dataloader (iterable it) ->
  exists it' default',
    full.fast_forward n it default = Ok (it', default')
    /\ same_loader train_dataloader (iterable it').
Proof.
  destruct Hready as (_ & _ & _ & _ & _ & _ & _ & Htrain & _).
  unfold full.fast_forward. generalize (py_range 0 n 1) as ks.
  intros ks. revert it default. induction ks as [|k ks IH]; intros it default Hs; simpl.
  - by eexists _, _.
  - destruct (cycle_next_ok full.getitems train_dataloader it default Htrain Hs)
      as (b & it1 & d1 & -> & Hs1 & _).
    simpl. apply IH, Hs1.
Qed.

Lemma max_in_list (x : Z) (xs : list Z) : foldl Z.max x xs ∈ x :: xs.
Proof.
  revert x. induction xs as [|y ys IH]; intros x; simpl.
  - apply elem_of_cons. by left.
  - specialize (IH (Z.max x y)). apply elem_of_cons in IH as [IH|IH].
    + rewrite IH. rewrite !elem_of_cons.
      destruct (Z.max_spec x y) as [[_ ->]|[_ ->]]; auto.
    + rewrite !elem_of_cons. auto.
Qed.

Lemma get_longest_seq_length_ok (data : list sample) :
  data <> [] -> exists longest ix, full.get_longest_seq_length data = Ok (longest, ix).
Proof.
  intros Hne. unfold full.get_longest_seq_length.
  destruct data as [|d data]; [done|]. cbn [fmap list_fmap].
  set (lengths := (fun d0 => Z.of_nat (length (input_ids d0))) <$> data).
  set (x := Z.of_nat (length (input_ids d))).
  destruct (list_find_elem_of (fun y => y = foldl Z.max x lengths) (x :: lengths)
              (foldl Z.max x lengths)) as [[i y] Hfind]; [apply max_in_list|done|].
  rewrite Hfind. by eexists _, _.
Qed.

Lemma ready_items_nonempty : full.getitems (dl_dataset train_dataloader) <> [].
Proof.
  destruct Hready as (_ & _ & _ & _ & _ & _ & _ & [Hbs Hlen] & _).
  unfold batches_per_epoch in Hlen. intros Hnil. rewrite Hnil in Hlen. simpl in Hlen.
  destruct (dl_drop_last train_dataloader).
  - rewrite Z.div_0_l in Hlen by lia. lia.
  - rewrite Z.div_small in Hlen by lia. lia.
Qed.

(** Under [fit_ready] the call of [fit] returns, whatever the fuel, the
    starting [state], and whether it resumes: the sanity check has run, and
    the iterations are those of the loop started on the model with its
    sequence length set, at the counters of the starting state and with an
    empty loss window. *)
Lemma fit_run fuel (state0 : full.State M) (resume : bool) default :
  exists r l0 dir k,
    full.fit fuel state0 train_dataloader val_dataloader devices resume io train eval default
    = Ok r
    /\ full.checkpoint_dir io = Some dir
    /\ full.max_new_tokens eval = Some k
    /\ run_from devices io train eval {| tokenizer_dir := dir |} l0
                (full.iterations r) (full.final r)
    /\ full.iter_num (full.state l0) = full.iter_num state0
    /\ full.step_count (full.state l0) = full.step_count state0
    /\ full.running_loss l0
       = {| full.window := full.gradient_accumulation_iters train devices;
            full.recent := [] |}
    /\ loop_loaders l0
    /\ sample_prompt val_dataloader = Ok (full.val_prompt (full.sanity_check r))
    /\ full.val_max_returned_tokens (full.sanity_check r)
       = Z.of_nat (length (full.tokenizer_encode {| tokenizer_dir := dir |}
                             (full.val_prompt (full.sanity_check r)))) + k.
Proof.
  pose proof Hready as ([dir Hdir] & _ & [k Hk] & Hgai & _ & _ & _ & Htrain & Hval & Hprompt).
  unfold full.fit. rewrite Hdir. cbn [full.Tokenizer_new mbind result_bind].
  destruct (get_longest_seq_length_ok _ ready_items_nonempty) as (longest & ix & ->).
  cbn [mbind result_bind].
  match goal with |- context [full.validate ?m ?v ?t ?e ?d] =>
    destruct (validate_ok m v t e d k) as (v0 & val' & d1 & -> & Hsv & Hp & Hmax) end.
  { destruct Hval as [? ?]. split; [done|]. simpl. lia. }
  { done. }
  { done. }
  cbn [mbind result_bind].
  assert (Hff : exists it0 d2,
    (if resume
     then full.fast_forward (full.iter_num state0) (CycleIterator_new train_dataloader) d1
     else Ok (CycleIterator_new train_dataloader, d1)) = Ok (it0, d2)
    /\ same_loader train_dataloader (iterable it0)).
  { destruct resume.
    - apply fast_forward_ok. apply same_loader_refl.
    - eexists _, _. split; [reflexivity|]. apply same_loader_refl. }
  destruct Hff as (it0 & d2 & -> & Hs0). cbn [mbind result_bind].
  unfold full.RunningMean_new. rewrite decide_False by lia. cbn [mbind result_bind].
  match goal with |- context [full.fit_loop _ _ _ _ _ ?t ?l] =>
    destruct (fit_loop_run t fuel l) as (l' & its & fin & -> & Hrun & Hl') end.
  { by split. }
  cbn [mbind result_bind].
  eexists _, _, dir, k. split; [reflexivity|]. cbn.
  split; [done|]. split; [done|]. split; [exact Hrun|].
  split; [done|]. split; [done|]. split; [done|]. split; [by split|]. by split.
Qed.

End FitLoop.

Section Runs.
Context {G M : Type} `{!full.Framework G M}.
Context (devices : Z) (io : full.IOArgs) (train : full.TrainArgs) (eval : full.EvalArgs)
        (tokenizer : Tokenizer).

Local Abbreviation run := (run_from devices io train eval tokenizer).
Local Abbreviation gai := (full.gradient_accumulation_iters train devices).

Lemma run_from_app l its1 l1 its2 l2 :
  run l its1 l1 -> run l1 its2 l2 -> run l (its1 ++ its2) l2.
Proof. induction 1; simpl; [done|]. intros. econstructor; eauto. Qed.

(** The iteration at index [k] of a run, with the loop before and after
    it. *)
Lemma run_from_lookup (l l' : @full.loop G M) its k it :
  run l its l' -> its !! k = Some it ->
  exists la lb,
    run l (take k its) la
    /\ full.fit_iteration devices io train eval tokenizer la = Ok (lb, it)
    /\ run lb (drop (S k) its) l'.
Proof.
  intros Hrun. revert k. induction Hrun as [l|l l1 l2 it0 its Hit Hrun IH]; intros k Hk.
  - done.
  - destruct k as [|k]; simpl in Hk.
    + injection Hk as ->. exists l, l1. split; [constructor|]. by split.
    + destruct (IH k Hk) as (la & lb & Hpre & Hstep & Hpost).
      exists la, lb. split; [|by split]. simpl. by econstructor.
Qed.

Lemma last_n_app_last {A} (w : nat) (h : list A) (x : A) :
  full.last_n w (full.last_n w h ++ [x]) = full.last_n w (h ++ [x]).
Proof.
  unfold full.last_n. rewrite !length_app, length_drop. simpl.
  destruct (decide (length h < w)%nat) as [Hlt|Hge].
  - replace (length h - w)%nat with 0%nat by lia. rewrite drop_0.
    by replace (length h - 0 + 1 - w)%nat with (length h + 1 - w)%nat by lia.
  - destruct w as [|w].
    + rewrite !drop_ge; [done|rewrite length_app; simpl; lia|].
      rewrite length_app, length_drop. simpl. lia.
    + replace (length h - (length h - S w) + 1 - S w)%nat with 1%nat by lia.
      rewrite (drop_app_le h [x]) by lia.
      rewrite (drop_app_le (drop _ h) [x]) by (rewrite length_drop; lia).
      rewrite drop_drop. f_equal. f_equal. lia.
Qed.

Lemma step_count_after (i g : Z) :
  0 < g ->
  (i + 1) `div` g = i `div` g + (if decide ((i + 1) `mod` g = 0) then 1 else 0).
Proof.
  intros Hg.
  pose proof (Z.div_mod i g ltac:(lia)) as Hi.
  pose proof (Z.mod_pos_bound i g Hg) as Hib.
  case_decide as Hm.
  - apply Z.mod_divide in Hm as [q Hq]; [|lia].
    rewrite Hq, Z.div_mul by lia.
    assert (i = (q - 1) * g + (g - 1)) as Hi' by lia.
    symmetry. rewrite Hi' at 1.
    rewrite Z.div_add_l by lia. rewrite Z.div_small by lia. lia.
  - pose proof (Z.div_mod (i + 1) g ltac:(lia)) as Hi1.
    pose proof (Z.mod_pos_bound (i + 1) g Hg) as Hi1b.
    assert (i `mod` g + 1 < g).
    { destruct (decide (i `mod` g + 1 = g)) as [E|]; [|lia].
      exfalso. apply Hm. replace (i + 1) with (g * (i `div` g + 1)) by lia.
      rewrite Z.mul_comm. apply Z.mod_mul. lia. }
    rewrite Z.add_0_r. symmetry.
    apply (Z.div_unique_pos (i + 1) g (i `div` g) (i `mod` g + 1)); lia.
Qed.

(** Where a run leaves the counters and the loss window. *)
Lemma run_from_state (l l' : @full.loop G M) its :
  run l its l' ->
  full.iter_num (full.state l') = full.iter_num (full.state l) + Z.of_nat (length its)
  /\ full.window (full.running_loss l') = full.window (full.running_loss l)
  /\ (forall h, full.recent (full.running_loss l)
                = full.last_n (Z.to_nat (full.window (full.running_loss l))) h ->
                full.recent (full.running_loss l')
                = full.last_n (Z.to_nat (full.window (full.running_loss l)))
                              (h ++ (full.it_loss <$> its)))
  /\ (0 < gai ->
      full.step_count (full.state l) = full.iter_num (full.state l) `div` gai ->
      full.step_count (full.state l') = full.iter_num (full.state l') `div` gai)
  /\ same_loader (full.val_loader l) (full.val_loader l').
Proof.
  induction 1 as [l|l l1 l2 it its Hit Hrun (IHn & IHw & IHr & IHs & IHv)].
  - split; [simpl; lia|]. split; [done|]. split; [|split; [done|apply same_loader_refl]].
    intros h Hh. by rewrite app_nil_r.
  - apply fit_iteration_facts in Hit.
    destruct Hit as [Hnum Hst Hin _ _ Hsc _ _ Hrl _ _ _ _ Hvl _].
    rewrite <- Hst in *.
    assert (Hw1 : full.window (full.running_loss l1) = full.window (full.running_loss l))
      by (by rewrite Hrl).
    split; [rewrite IHn, Hin, Hnum; simpl; lia|].
    split; [congruence|].
    split; [|split].
    + intros h Hh. rewrite IHr with (h := h ++ [full.it_loss it]).
      * rewrite Hw1. by rewrite <- app_assoc.
      * rewrite Hw1, Hrl. cbn [full.RunningMean_update full.recent].
        rewrite Hh. apply last_n_app_last.
    + intros Hg Hs. apply IHs; [done|].
      rewrite Hsc, Hin, Hnum, Hs. symmetry. by apply step_count_after.
    + by eapply same_loader_trans.
Qed.

End Runs.

(** ** The claims about [fit] *)




(** ** Resuming: the batches replayed *)

Section OwnGenerator.
Context {G D : Type} `{!TorchRNG G} (items : D -> list sample).

(** A loader with a generator of its own leaves the default generator
    alone, and what it yields does not depend on it. *)
Lemma iter_dataloader_own (dl dl' : DataLoader D G) default default1 batches :
  is_Some (dl_generator dl) ->
  iter_dataloader items dl default = Ok (batches, dl', default1) ->
  is_Some (dl_generator dl')
  /\ forall default', iter_dataloader items dl default' = Ok (batches, dl', default').
Proof.
  intros [g Hg]. unfold iter_dataloader. case_decide; [discriminate|]. cbv zeta.
  rewrite Hg. unfold draw, random_sampler, draw.
  destruct (random_ g) as [seed g1].
  destruct (dl_shuffle dl).
  - destruct (randperm _ g1) as [order g2]. intros [= <- <- <-]. split; [by eexists|done].
  - intros [= <- <- <-]. split; [by eexists|done].
Qed.

Lemma cycle_next_own (it it' : CycleIterator G D) default default1 b :
  is_Some (dl_generator (iterable it)) ->
  cycle_next items it default = Ok (b, it', default1) ->
  is_Some (dl_generator (iterable it'))
  /\ forall default', cycle_next items it default' = Ok (b, it', default').
Proof.
  intros Hown. unfold cycle_next.
  destruct (_iterator it) as [[|b0 rest]|] eqn:Hit; cbn [mbind result_bind].
  - destruct (iter_dataloader items (iterable it) default) as [[[cur dl1] d1]|] eqn:Hiter;
      [|discriminate].
    destruct (iter_dataloader_own _ _ _ _ _ Hown Hiter) as [Hown1 Hany].
    cbn [mbind result_bind]. destruct cur as [|b1 rest1]; [discriminate|].
    intros [= <- <- <-]. split; [done|]. intros d'. by rewrite Hany.
  - intros [= <- <- <-]. split; [done|]. done.
  - destruct (iter_dataloader items (iterable it) default) as [[[cur dl1] d1]|] eqn:Hiter;
      [|discriminate].
    destruct (iter_dataloader_own _ _ _ _ _ Hown Hiter) as [Hown1 Hany].
    cbn [mbind result_bind]. destruct cur as [|b1 rest1].
    + destruct (iter_dataloader items dl1 d1) as [[[cur2 dl2] d2]|] eqn:Hiter2;
        [|discriminate].
      destruct (iter_dataloader_own _ _ _ _ _ Hown1 Hiter2) as [Hown2 Hany2].
      cbn [mbind result_bind]. destruct cur2 as [|b2 rest2]; [discriminate|].
      intros [= <- <- <-]. split; [done|]. intros d'.
      rewrite Hany. cbn [mbind result_bind]. by rewrite Hany2.
    + intros [= <- <- <-]. split; [done|]. intros d'. by rewrite Hany.
Qed.

End OwnGenerator.

Section Resume.
Context {G M : Type} `{!full.Framework G M}.
Context (devices : Z) (io : full.IOArgs) (train : full.TrainArgs) (eval : full.EvalArgs).

Lemma run_from_nil_inv tokenizer (l l' : @full.loop G M) :
  run_from devices io train eval tokenizer l [] l' -> l = l'.
Proof. by inversion 1. Qed.

(** The first [n] iterations of a loop, and the loop run on from there. *)
Lemma fit_loop_split tokenizer (n m : nat) (l l2 : @full.loop G M) its fin :
  full.fit_loop (n + m) devices io train eval tokenizer l = Ok (l2, its, fin) ->
  (n <= length its)%nat ->
  exists la,
    run_from devices io train eval tokenizer l (take n its) la
    /\ full.fit_loop m devices io train eval tokenizer la = Ok (l2, drop n its, fin).
Proof.
  revert l its. induction n as [|n IH]; intros l its Hloop Hlen.
  - exists l. split; [constructor|done].
  - cbn [Nat.add full.fit_loop] in Hloop.
    destruct (full.loop_condition train l) as [[|]|]; cbn [mbind result_bind] in Hloop;
      [|injection Hloop as <- <- <-; simpl in Hlen; lia|discriminate].
    destruct (full.fit_iteration devices io train eval tokenizer l) as [[l1 it]|] eqn:Hit;
      cbn [mbind result_bind] in Hloop; [|discriminate].
    destruct (full.fit_loop (n + m) devices io train eval tokenizer l1)
      as [[[l2' its'] fin']|] eqn:Hrest; cbn [mbind result_bind] in Hloop; [|discriminate].
    injection Hloop as <- <- <-.
    destruct (IH l1 its' Hrest) as (la & Hrun & Hm); [simpl in Hlen; lia|].
    exists la. split; [|done]. cbn [take]. by econstructor.
Qed.

(** Fast-forwarding a loader that has its own generator over as many
    batches as a run consumed leaves the iterator where the run left it. *)
Lemma fast_forward_follows_run tokenizer (l la : @full.loop G M) its default :
  run_from devices io train eval tokenizer l its la ->
  is_Some (dl_generator (iterable (full.train_iterator l))) ->
  full.fast_forward (Z.of_nat (length its)) (full.train_iterator l) default
  = Ok (full.train_iterator la, default)
  /\ is_Some (dl_generator (iterable (full.train_iterator la))).
Proof.
  unfold full.fast_forward.
  assert (Hlen : length (py_range 0 (Z.of_nat (length its)) 1) = length its)
    by (rewrite py_range_unit; lia).
  revert Hlen. generalize (py_range 0 (Z.of_nat (length its)) 1) as ks.
  intros ks Hlen Hrun. revert ks Hlen.
  induction Hrun as [l|l l1 l2 it its Hit Hrun IH]; intros ks Hlen Hown.
  - destruct ks; [|done]. by split.
  - destruct ks as [|k ks]; [done|]. cbn [for_in].
    apply fit_iteration_facts in Hit. destruct (fact_batch _ _ _ _ _ _ _ _ Hit) as [d1 Hnext].
    destruct (cycle_next_own _ _ _ _ _ _ Hown Hnext) as [Hown1 Hany].
    rewrite Hany. cbn [mbind result_bind].
    apply IH; [by injection Hlen|done].
Qed.

(** Two loops at the same counters and the same training iterator, whose
    loader has its own generator, train on the same batches. *)
Lemma fit_loop_same_batches ta tb fuel (la lb la' lb' : @full.loop G M) itsA itsB finA finB :
  full.iter_num (full.state la) = full.iter_num (full.state lb) ->
  full.step_count (full.state la) = full.step_count (full.state lb) ->
  full.train_iterator la = full.train_iterator lb ->
  is_Some (dl_generator (iterable (full.train_iterator la))) ->
  full.fit_loop fuel devices io train eval ta la = Ok (la', itsA, finA) ->
  full.fit_loop fuel devices io train eval tb lb = Ok (lb', itsB, finB) ->
  full.it_batch <$> itsA = full.it_batch <$> itsB.
Proof.
  revert la lb itsA itsB. induction fuel as [|fuel IH];
    intros la lb itsA itsB Hi Hs Ht Hown HA HB; cbn [full.fit_loop] in HA, HB.
  - unfold full.loop_condition in HA, HB. rewrite <- Hs, <- Ht in HB.
    destruct (if full.lt_bound _ _ then _ else _) as [[|]|];
      cbn [mbind result_bind] in HA, HB; try discriminate;
      by injection HA as <- <- <-; injection HB as <- <- <-.
  - unfold full.loop_condition in HA, HB. rewrite <- Hs, <- Ht in HB.
    destruct (if full.lt_bound _ _ then _ else _) as [[|]|];
      cbn [mbind result_bind] in HA, HB; try discriminate;
      [|by injection HA as <- <- <-; injection HB as <- <- <-].
    destruct (full.fit_iteration devices io train eval ta la) as [[la1 ita]|] eqn:HitA;
      cbn [mbind result_bind] in HA; [|discriminate].
    destruct (full.fit_iteration devices io train eval tb lb) as [[lb1 itb]|] eqn:HitB;
      cbn [mbind result_bind] in HB; [|discriminate].
    destruct (full.fit_loop fuel devices io train eval ta la1) as [[[? itsA'] ?]|] eqn:HA';
      cbn [mbind result_bind] in HA; [|discriminate].
    destruct (full.fit_loop fuel devices io train eval tb lb1) as [[[? itsB'] ?]|] eqn:HB';
      cbn [mbind result_bind] in HB; [|discriminate].
    injection HA as <- <- <-. injection HB as <- <- <-.
    apply fit_iteration_facts in HitA, HitB.
    destruct (fact_batch _ _ _ _ _ _ _ _ HitA) as [dA HnextA].
    destruct (fact_batch _ _ _ _ _ _ _ _ HitB) as [dB HnextB].
    destruct (cycle_next_own _ _ _ _ _ _ Hown HnextA) as [Hown1 Hany].
    rewrite <- Ht, Hany in HnextB. injection HnextB as Hb Hti _.
    cbn [fmap list_fmap]. f_equal; [done|].
    eapply (IH la1 lb1); try eassumption.
    + rewrite <- (fact_state _ _ _ _ _ _ _ _ HitA), <- (fact_state _ _ _ _ _ _ _ _ HitB).
      rewrite (fact_iter_num _ _ _ _ _ _ _ _ HitA), (fact_iter_num _ _ _ _ _ _ _ _ HitB).
      rewrite (fact_num _ _ _ _ _ _ _ _ HitA), (fact_num _ _ _ _ _ _ _ _ HitB). by rewrite Hi.
    + rewrite <- (fact_state _ _ _ _ _ _ _ _ HitA), <- (fact_state _ _ _ _ _ _ _ _ HitB).
      rewrite (fact_step_count _ _ _ _ _ _ _ _ HitA), (fact_step_count _ _ _ _ _ _ _ _ HitB).
      rewrite (fact_num _ _ _ _ _ _ _ _ HitA), (fact_num _ _ _ _ _ _ _ _ HitB).
      by rewrite Hi, Hs.
Qed.

(** What a call of [fit] that returns has run. *)
Lemma fit_inv fuel (state0 : full.State M) train_dataloader val_dataloader
    (resume : bool) default r :
  full.fit fuel state0 train_dataloader val_dataloader devices resume io train eval default
  = Ok r ->
  exists dir l0,
    full.checkpoint_dir io = Some dir
    /\ full.fit_loop fuel devices io train eval {| tokenizer_dir := dir |} l0
       = Ok (full.final r, full.iterations r, full.finished r)
    /\ full.iter_num (full.state l0) = full.iter_num state0
    /\ full.step_count (full.state l0) = full.step_count state0
    /\ if resume
       then exists d0, full.fast_forward (full.iter_num state0)
                         (CycleIterator_new train_dataloader) d0
                       = Ok (full.train_iterator l0, full.default_generator l0)
       else full.train_iterator l0 = CycleIterator_new train_dataloader.
Proof.
  unfold full.fit.
  destruct (full.checkpoint_dir io) as [dir|]; [|discriminate].
  cbn [full.Tokenizer_new mbind result_bind].
  destruct (full.get_longest_seq_length _) as [[longest ix]|]; [|discriminate].
  cbn [mbind result_bind].
  destruct (full.validate _ _ _ _ _) as [[[v val1] d1]|]; [|discriminate].
  cbn [mbind result_bind].
  destruct (if resume then _ else _) as [[it0 d2]|] eqn:Hff; [|discriminate].
  cbn [mbind result_bind].
  destruct (full.RunningMean_new _) as [rl|]; [|discriminate]. cbn [mbind result_bind].
  match goal with |- context [full.fit_loop _ _ _ _ _ _ ?l] => set (l0 := l) end.
  destruct (full.fit_loop _ _ _ _ _ _ l0) as [[[l' its] fin]|] eqn:Hloop; [|discriminate].
  cbn [mbind result_bind]. intros [= <-].
  exists dir, l0. split; [done|]. split; [exact Hloop|]. split; [done|]. split; [done|].
  destruct resume.
  - by exists d1.
  - by injection Hff as <- _.
Qed.

End Resume.


(** ** The loop ends *)

Section IterationsLeft.
Context {G D : Type} `{!TorchRNG G} (items : D -> list sample).

Lemma batches_per_epoch_same (dl dl' : DataLoader D G) :
  same_loader dl dl' -> batches_per_epoch items dl' = batches_per_epoch items dl.
Proof.
  intros (Hd & Hb & _ & _ & _ & _ & Hl). unfold batches_per_epoch.
  by rewrite Hd, Hb, Hl.
Qed.

(** Every [next] brings the iterator closer to the last epoch. *)
Lemma cycle_next_iterations_left (dl : DataLoader D G) (it it' : CycleIterator G D)
    default default' b (epochs : Z) :
  loader_ready items 1 dl ->
  same_loader dl (iterable it) ->
  epoch it < epochs ->
  cycle_next items it default = Ok (b, it', default') ->
  (iterations_left epochs (Z.to_nat (batches_per_epoch items dl)) it'
   < iterations_left epochs (Z.to_nat (batches_per_epoch items dl)) it)%nat.
Proof.
  intros Hready Hsame Hep.
  set (L := Z.to_nat (batches_per_epoch items dl)).
  assert (Hfresh : forall (dl1 : DataLoader D G) d batches dl2 d2,
            same_loader dl dl1 ->
            iter_dataloader items dl1 d = Ok (batches, dl2, d2) -> length batches = L).
  { intros dl1 d batches dl2 d2 Hs Hiter.
    pose proof (loader_ready_same items 1 _ _ Hs Hready) as [Hbs1 _].
    destruct (iter_dataloader_ok items dl1 d Hbs1) as (bs & dl2' & d2' & Heq & _ & Hn).
    rewrite Hiter in Heq. injection Heq as <- <- <-.
    rewrite (batches_per_epoch_same _ _ Hs) in Hn. unfold L. lia. }
  assert (Hkeep : forall (dl1 : DataLoader D G) d batches dl2 d2,
            same_loader dl dl1 ->
            iter_dataloader items dl1 d = Ok (batches, dl2, d2) -> same_loader dl dl2).
  { intros dl1 d batches dl2 d2 Hs Hiter.
    pose proof (loader_ready_same items 1 _ _ Hs Hready) as [Hbs1 _].
    destruct (iter_dataloader_ok items dl1 d Hbs1) as (bs & dl2' & d2' & Heq & Hs2 & _).
    rewrite Hiter in Heq. injection Heq as <- <- <-. by eapply same_loader_trans. }
  unfold cycle_next, iterations_left.
  rewrite (decide_False (P := epochs <= epoch it)) by lia.
  destruct (_iterator it) as [[|b0 rest]|] eqn:Hit; cbn [mbind result_bind].
  - destruct (iter_dataloader items (iterable it) default) as [[[cur dl1] d1]|] eqn:Hiter;
      [|discriminate].
    pose proof (Hfresh _ _ _ _ _ Hsame Hiter) as Hlen.
    cbn [mbind result_bind]. destruct cur as [|b1 rest1]; [discriminate|].
    intros [= <- <- <-]. cbn [epoch _iterator]. simpl in Hlen.
    case_decide; [lia|].
    replace (Z.to_nat (epochs - epoch it - 1)) with (S (Z.to_nat (epochs - (epoch it + 1) - 1)))
      by lia.
    lia.
  - intros [= <- <- <-]. cbn [epoch _iterator]. rewrite decide_False by lia. simpl. lia.
  - destruct (iter_dataloader items (iterable it) default) as [[[cur dl1] d1]|] eqn:Hiter;
      [|discriminate].
    pose proof (Hfresh _ _ _ _ _ Hsame Hiter) as Hlen.
    pose proof (Hkeep _ _ _ _ _ Hsame Hiter) as Hs1.
    cbn [mbind result_bind]. destruct cur as [|b1 rest1].
    + destruct (iter_dataloader items dl1 d1) as [[[cur2 dl2] d2]|] eqn:Hiter2;
        [|discriminate].
      pose proof (Hfresh _ _ _ _ _ Hs1 Hiter2) as Hlen2.
      cbn [mbind result_bind]. destruct cur2 as [|b2 rest2]; [discriminate|].
      simpl in Hlen, Hlen2. lia.
    + intros [= <- <- <-]. cbn [epoch _iterator]. rewrite decide_False by lia.
      simpl in Hlen. simpl. lia.
Qed.

End IterationsLeft.

Section Termination.
Context {G M : Type} `{!full.Framework G M}.
Context (devices : Z) (io : full.IOArgs) (train : full.TrainArgs) (eval : full.EvalArgs).
Context (train_dataloader val_dataloader : DataLoader SFTDataset G).
Hypothesis Hready : fit_ready train_dataloader val_dataloader devices io train eval.

Lemma fit_loop_finishes tokenizer (e : Z) (fuel : nat) (l : @full.loop G M) :
  full.epochs train = Some e ->
  loop_loaders train_dataloader val_dataloader l ->
  (iterations_left e (Z.to_nat (batches_per_epoch full.getitems train_dataloader))
                   (full.train_iterator l) <= fuel)%nat ->
  exists l' its,
    full.fit_loop fuel devices io train eval tokenizer l = Ok (l', its, true).
Proof.
  intros He. revert l. induction fuel as [|fuel IH]; intros l [Ht Hv] Hleft;
    cbn [full.fit_loop]; unfold full.loop_condition; rewrite He.
  - destruct (full.lt_bound _ _); cbn [mbind result_bind]; [|by eexists _, _].
    case_bool_decide as Hep; cbn [mbind result_bind]; [|by eexists _, _].
    unfold iterations_left in Hleft. rewrite decide_False in Hleft by lia. lia.
  - destruct (full.lt_bound _ _); cbn [mbind result_bind]; [|by eexists _, _].
    case_bool_decide as Hep; cbn [mbind result_bind]; [|by eexists _, _].
    destruct (fit_iteration_ok devices io train eval tokenizer _ _ l Hready Ht Hv)
      as (l1 & it & Hit & Ht1 & Hv1).
    rewrite Hit. cbn [mbind result_bind].
    pose proof Hready as (_ & _ & _ & _ & _ & _ & _ & Htrain & _).
    apply fit_iteration_facts in Hit. destruct (fact_batch _ _ _ _ _ _ _ _ Hit) as [d1 Hnext].
    pose proof (cycle_next_iterations_left full.getitems train_dataloader _ _ _ _ _ e
                  Htrain Ht Hep Hnext) as Hless.
    destruct (IH l1 (conj Ht1 Hv1)) as (l2 & its & ->); [lia|].
    cbn [mbind result_bind]. by eexists _, _.
Qed.

(** [fit] up to its loop: the sanity check, the iterator (fast-forwarded
    when the run resumes) and the loop state the iterations start from do not
    depend on the fuel. *)
Lemma fit_prelude (state0 : full.State M) (resume : bool) default :
  exists v (l0 : @full.loop G M) dir,
    full.checkpoint_dir io = Some dir
    /\ loop_loaders train_dataloader val_dataloader l0
    /\ forall fuel,
        full.fit fuel state0 train_dataloader val_dataloader devices resume io train eval
                 default
        = ('(l, its, fin) ← full.fit_loop fuel devices io train eval
                                          {| tokenizer_dir := dir |} l0;
           Ok {| full.sanity_check := v; full.iterations := its; full.final := l;
                 full.finished := fin |}).
Proof.
  pose proof Hready as ([dir Hdir] & _ & [k Hk] & Hgai & _ & _ & _ & Htrain & Hval & Hprompt).
  destruct (get_longest_seq_length_ok _
              (ready_items_nonempty devices io train eval _ _ Hready))
    as (longest & ix & Hlongest).
  destruct (validate_ok
              (full.set_max_seq_length
                 (full.min_bound longest (full.or_inf (full.max_seq_length train)))
                 (full.model state0))
              val_dataloader {| tokenizer_dir := dir |}
              {| full.interval := full.interval eval;
                 full.max_new_tokens := full.max_new_tokens eval; full.max_iters := 2 |}
              default k) as (v0 & val' & d1 & Hvalid & Hsv & _).
  { destruct Hval as [? ?]. split; [done|]. simpl. lia. }
  { done. }
  { done. }
  assert (Hff : exists it0 d2,
    (if resume
     then full.fast_forward (full.iter_num state0) (CycleIterator_new train_dataloader) d1
     else Ok (CycleIterator_new train_dataloader, d1)) = Ok (it0, d2)
    /\ same_loader train_dataloader (iterable it0)).
  { destruct resume.
    - apply (fast_forward_ok devices io train eval _ _ Hready). apply same_loader_refl.
    - eexists _, _. split; [reflexivity|]. apply same_loader_refl. }
  destruct Hff as (it0 & d2 & Hff & Hs0).
  eexists v0, _, dir. split; [done|]. split.
  2: { intros fuel. unfold full.fit. rewrite Hdir. cbn [full.Tokenizer_new mbind result_bind].
       rewrite Hlongest. cbn [mbind result_bind]. rewrite Hvalid. cbn [mbind result_bind].
       rewrite Hff. cbn [mbind result_bind].
       unfold full.RunningMean_new. rewrite decide_False by lia. cbn [mbind result_bind].
       reflexivity. }
  by split.
Qed.

End Termination.


(** * Further properties of the code *)

(** ** [format_dataset] on conversations of any length *)

Section FormatShort.
Context {T : Type} `{!Inhabited T} (text : T -> string).

Lemma format_conversations_short (convos : list (list T)) acc :
  Exists (fun convo => (length convo < 2)%nat) convos ->
  format_conversations text convos false acc = Raise IndexError.
Proof.
  unfold format_conversations. intros Hex. revert acc.
  induction convos as [|convo convos IH]; intros acc; [by apply Exists_nil in Hex|].
  cbn [for_in].
  destruct convo as [|a [|b convo]].
  - reflexivity.
  - reflexivity.
  - apply Exists_cons in Hex as [Hex|Hex]; [simpl in Hex; lia|].
    change (py_index (a :: b :: convo) 0) with (Ok a).
    change (py_index (a :: b :: convo) 1) with (Ok b).
    cbn [mbind result_bind]. by apply IH.
Qed.

Lemma turn_pair_records_length (convo : list T) :
  length (turn_pair_records text convo) = (length convo `div` 2)%nat.
Proof. unfold turn_pair_records. by rewrite length_fmap, length_seq. Qed.

Lemma turn_pair_records_total (convos : list (list T)) :
  length (convos ≫= turn_pair_records text)
  = sum_list ((fun convo => length convo `div` 2)%nat <$> convos).
Proof.
  induction convos as [|convo convos IH]; [done|].
  cbn [mbind list_bind fmap list_fmap sum_list sum_list_with].
  rewrite length_app, turn_pair_records_length. f_equal. exact IH.
Qed.

End FormatShort.

(** [format_dataset] of deita.py and of lima.py on partitions whose
    conversations may be short.  Asked for multi-turn conversations it never
    raises: a conversation of [n] turns gives [n // 2] records, so one of
    fewer than two turns gives none and the last turn of an odd number is
    left out.  Asked for the first exchange only, it raises [IndexError] as
    soon as one conversation of the partition has fewer than two turns, and
    returns nothing. *)
Theorem format_dataset_short_conversations :
  (forall ds : list deita.entry,
     (exists recs,
        deita.format_dataset ds true = Ok recs
        /\ recs = ds ≫= (fun e => turn_pair_records deita.content (deita.messages e))
        /\ length recs
           = sum_list ((fun e => length (deita.messages e) `div` 2)%nat <$> ds))
     /\ (Exists (fun e => (length (deita.messages e) < 2)%nat) ds ->
         deita.format_dataset ds false = Raise IndexError))
  /\ (forall ds : list lima.entry,
        (exists recs,
           lima.format_dataset ds true = Ok recs
           /\ recs = ds ≫= (fun e => turn_pair_records id (lima.conversations e))
           /\ length recs
              = sum_list ((fun e => length (lima.conversations e) `div` 2)%nat <$> ds))
        /\ (Exists (fun e => (length (lima.conversations e) < 2)%nat) ds ->
            lima.format_dataset ds false = Raise IndexError)).
Proof.
  split; intros ds; split.
  - eexists. split; [|split; [reflexivity|]].
    + rewrite deita_format_dataset_conversations, format_conversations_multi.
      cbn [app]. by rewrite list_fmap_bind.
    + transitivity (length ((deita.messages <$> ds) ≫= turn_pair_records deita.content));
        [by rewrite list_fmap_bind|].
      by rewrite turn_pair_records_total, <- list_fmap_compose.
  - intros Hex. rewrite deita_format_dataset_conversations.
    apply format_conversations_short. by apply Exists_fmap.
  - eexists. split; [|split; [reflexivity|]].
    + rewrite lima_format_dataset_conversations, format_conversations_multi.
      cbn [app]. by rewrite list_fmap_bind.
    + transitivity (length ((lima.conversations <$> ds) ≫= turn_pair_records id));
        [by rewrite list_fmap_bind|].
      by rewrite turn_pair_records_total, <- list_fmap_compose.
  - intros Hex. rewrite lima_format_dataset_conversations.
    apply format_conversations_short. by apply Exists_fmap.
Qed.

(** ** [get_longest_seq_length] *)

Lemma foldl_max_upper (x : Z) (xs : list Z) :
  forall y, y ∈ x :: xs -> y <= foldl Z.max x xs.
Proof.
  revert x. induction xs as [|z zs IH]; intros x y Hy; simpl.
  - apply list_elem_of_singleton in Hy as ->. lia.
  - apply elem_of_cons in Hy as [->|Hy].
    + etrans; [|apply IH; apply elem_of_cons; by left]. lia.
    + apply elem_of_cons in Hy as [->|Hy].
      * etrans; [|apply IH; apply elem_of_cons; by left]. lia.
      * apply IH. apply elem_of_cons. by right.
Qed.

(** [get_longest_seq_length] on the examples of a dataset: [max()] raises
    [ValueError] when there is none; otherwise the first component is the
    length of the longest [input_ids], no example is longer, and the second
    is the index of the first example of that length. *)
Theorem get_longest_seq_length_first_longest (data : list sample) :
  (data = [] -> exists msg, full.get_longest_seq_length data = Raise (ValueError msg))
  /\ (data <> [] ->
      exists (ix : nat) d,
        full.get_longest_seq_length data
        = Ok (Z.of_nat (length (input_ids d)), Z.of_nat ix)
        /\ data !! ix = Some d
        /\ (forall d', d' ∈ data -> (length (input_ids d') <= length (input_ids d))%nat)
        /\ (forall (j : nat) d', data !! j = Some d' -> (j < ix)%nat ->
              (length (input_ids d') < length (input_ids d))%nat)).
Proof.
  split.
  - intros ->. by eexists.
  - intros Hne. unfold full.get_longest_seq_length.
    destruct data as [|d0 data]; [done|]. cbn [fmap list_fmap].
    pose (len := fun d : sample => Z.of_nat (length (input_ids d))).
    pose (lengths := len <$> data).
    pose (m := foldl Z.max (len d0) lengths).
    change (exists (ix : nat) d,
      match list_find (fun y => y = m) (len d0 :: lengths) with
      | Some (longest_seq_ix, _) => Ok (m, Z.of_nat longest_seq_ix)
      | None => Raise (ValueError "max() is not in list")
      end = Ok (Z.of_nat (length (input_ids d)), Z.of_nat ix)
      /\ (d0 :: data) !! ix = Some d
      /\ (forall d', d' ∈ d0 :: data -> (length (input_ids d') <= length (input_ids d))%nat)
      /\ (forall (j : nat) d', (d0 :: data) !! j = Some d' -> (j < ix)%nat ->
            (length (input_ids d') < length (input_ids d))%nat)).
    destruct (list_find_elem_of (fun y => y = m) (len d0 :: lengths) m)
      as [[i y] Hfind]; [apply max_in_list|done|].
    rewrite Hfind.
    apply list_find_Some in Hfind as (Hi & -> & Hfirst).
    change (len d0 :: lengths) with (len <$> d0 :: data) in Hi, Hfirst.
    apply list_lookup_fmap_Some in Hi as (d & Hm & Hd).
    exists i, d. rewrite Hm. fold (len d).
    split; [done|]. split; [done|]. split.
    + intros d' Hd'.
      assert (len d' <= m).
      { apply foldl_max_upper. change (len d0 :: lengths) with (len <$> d0 :: data).
        by apply list_elem_of_fmap_2. }
      rewrite Hm in H. unfold len in H. lia.
    + intros j d' Hj Hlt.
      assert (len d' <= m).
      { apply foldl_max_upper. change (len d0 :: lengths) with (len <$> d0 :: data).
        apply list_elem_of_fmap_2. by eapply list_elem_of_lookup_2. }
      assert (len d' <> m).
      { apply (Hfirst j); [|done]. by rewrite list_lookup_fmap, Hj. }
      rewrite Hm in H, H0. unfold len in H, H0. lia.
Qed.

(** ** [download_from_hub]: what is downloaded *)

(** A call of [download_from_hub] that gets to the snapshot download asks
    for the tokenizer files and [generation_config.json], for
    [qwen.tiktoken] exactly when the repository id contains "Qwen", and for
    one kind of weights unless [tokenizer_only] is set: [*.safetensors] with
    [from_safetensors] (and then the safetensors package is there, and the
    conversion follows), [*.bin*] without.  The files go to
    [checkpoint_dir/repo_id], and the revision is pinned for the two
    repositories of the revision map and for no other. *)
Theorem download_from_hub_patterns :
  forall (configs : list (string * string)) (safetensors_available : bool)
         (repo_id : string) (access_token : option string)
         (from_safetensors tokenizer_only : bool) (checkpoint_dir : string)
         (call : download.snapshot_download) (convert : bool),
    download.download_from_hub configs safetensors_available (Some repo_id) access_token
                               from_safetensors tokenizer_only checkpoint_dir
    = Ok (download.Downloaded call convert) ->
    download.allow_patterns call
    = ["tokenizer*"; "generation_config.json"]
      ++ (if download.contains "Qwen" repo_id then ["qwen.tiktoken"] else [])
      ++ (if tokenizer_only then []
          else if from_safetensors then ["*.safetensors"] else ["*.bin*"])
    /\ convert = from_safetensors
    /\ (from_safetensors = true -> tokenizer_only = false /\ safetensors_available = true)
    /\ download.local_dir call = checkpoint_dir +:+ "/" +:+ repo_id
    /\ download.revision call
       = (if decide (repo_id = "microsoft/phi-1_5")
          then Some "24f9ea14df973a49a0d87c16d04df88d90067468"
          else if decide (repo_id = "microsoft/phi-2")
               then Some "834565c23f9b28b96ccbeabe614dd906b6db551a"
               else None).
Proof.
  intros configs sa repo_id token fs to dir call convert.
  unfold download.download_from_hub.
  destruct (download.requires_authentication repo_id && download.no_token token);
    [discriminate|].
  assert (Hrev : download.hf_model_revision_map !! repo_id
                 = (if decide (repo_id = "microsoft/phi-1_5")
                    then Some "24f9ea14df973a49a0d87c16d04df88d90067468"
                    else if decide (repo_id = "microsoft/phi-2")
                         then Some "834565c23f9b28b96ccbeabe614dd906b6db551a"
                         else None)).
  { unfold download.hf_model_revision_map.
    repeat case_decide; subst; simplify_map_eq; done. }
  destruct to, fs, sa, (download.contains "Qwen" repo_id); cbn [negb mbind result_bind];
    try discriminate; intros [= <- <-]; cbn; rewrite Hrev; repeat split; done.
Qed.

(** ** [get_dataloaders] on a [Deita] module *)

Lemma py_index_lookup {A} (l : list A) (i : nat) :
  py_index l (Z.of_nat i)
  = match l !! i with Some a => Ok a | None => Raise IndexError end.
Proof.
  unfold py_index.
  destruct (decide (Z.of_nat i < 0)) as [|_]; [lia|]. cbv zeta.
  destruct (decide (Z.of_nat i < 0)) as [|_]; [lia|].
  by rewrite Nat2Z.id.
Qed.

(** [get_dataloaders] on a [Deita] module connects it, prepares and sets it
    up, and builds the two loaders.  When it returns, the hub has given the
    two splits; the training loader is over the records of the first and the
    validation loader over the records of the second, as [format_dataset]
    makes them, with the tokenizer of the call; both take
    [train.micro_batch_size] examples at a time; the training loader shuffles
    with a generator of its own, seeded with the seed of the module, and the
    validation loader does not shuffle. *)
Theorem get_dataloaders_deita :
  forall {G : Type} `{!TorchRNG G}
         (load_dataset : string -> list string -> result (list (list deita.entry)))
         (prompt_template : gmap string string -> result string)
         (data : deita.Deita) (tokenizer : Tokenizer) (train : full.TrainArgs)
         (train_dataloader val_dataloader : DataLoader SFTDataset G),
    @full.get_dataloaders deita.Deita G (deita.Deita_data_module load_dataset prompt_template)
       data tokenizer train
    = Ok (train_dataloader, val_dataloader) ->
    exists dataset train_part test_part,
      load_dataset (deita.repo_id data) ["train_sft"; "test_sft"] = Ok dataset
      /\ dataset !! 0%nat = Some train_part
      /\ dataset !! 1%nat = Some test_part
      /\ deita.format_dataset train_part (deita.include_multiturn_conversations data)
         = Ok (sft_data (dl_dataset train_dataloader))
      /\ deita.format_dataset test_part (deita.include_multiturn_conversations data)
         = Ok (sft_data (dl_dataset val_dataloader))
      /\ sft_tokenizer (dl_dataset train_dataloader) = Some tokenizer
      /\ sft_tokenizer (dl_dataset val_dataloader) = Some tokenizer
      /\ dl_batch_size train_dataloader = full.micro_batch_size train
      /\ dl_batch_size val_dataloader = full.micro_batch_size train
      /\ dl_shuffle train_dataloader = true
      /\ dl_generator train_dataloader = Some (manual_seed (deita.seed data))
      /\ dl_shuffle val_dataloader = false
      /\ dl_drop_last train_dataloader = false
      /\ dl_drop_last val_dataloader = false.
Proof.
  intros G ? load_dataset prompt_template data tokenizer train tdl vdl.
  unfold full.get_dataloaders.
  cbn [dm_connect dm_prepare_data dm_setup dm_train_dataloader dm_val_dataloader
       deita.Deita_data_module].
  unfold deita.prepare_data, deita.setup.
  cbn [deita.connect deita.repo_id deita.include_multiturn_conversations].
  destruct (load_dataset (deita.repo_id data) ["train_sft"; "test_sft"]) as [dataset|];
    cbn [mbind result_bind]; [|discriminate].
  change 0 with (Z.of_nat 0). change 1 with (Z.of_nat 1). rewrite !py_index_lookup.
  destruct (dataset !! 0%nat) as [train_part|] eqn:H0; cbn [mbind result_bind];
    [|discriminate].
  destruct (deita.format_dataset train_part _) as [train_records|] eqn:Htrain;
    cbn [mbind result_bind]; [|discriminate].
  destruct (dataset !! 1%nat) as [test_part|] eqn:H1; cbn [mbind result_bind];
    [|discriminate].
  destruct (deita.format_dataset test_part _) as [test_records|] eqn:Htest;
    cbn [mbind result_bind]; [|discriminate].
  intros [= <- <-].
  exists dataset, train_part, test_part. by repeat split.
Qed.

(** ** [validate] and the start of [fit] *)

Lemma chunks_concat {A} (fuel n : nat) (l : list A) :
  (0 < n)%nat -> (length l <= fuel)%nat -> concat (chunks fuel n l) = l.
Proof.
  intros Hn. revert l. induction fuel as [|fuel IH]; intros l Hl.
  - by destruct l; [|simpl in Hl; lia].
  - destruct l as [|x l]; [done|]. cbn [chunks concat].
    rewrite IH by (rewrite length_drop; simpl in Hl; simpl; lia).
    apply take_drop.
Qed.

Section ValidateBatches.
Context {G M : Type} `{!full.Framework G M}.

Lemma validation_losses_loop_short (model0 : M) (ks : list Z) (acc : list Q)
    (batches : list (list sample)) :
  (length batches < length ks)%nat ->
  for_in ks (fun '(losses, val_iterator) (k : Z) =>
      match val_iterator with
      | b :: rest => Ok (losses ++ [full.chunked_cross_entropy model0 b], rest)
      | [] => Raise StopIteration
      end) (acc, batches)
  = Raise StopIteration.
Proof.
  revert acc batches. induction ks as [|k ks IH]; intros acc batches Hlen; simpl.
  - simpl in Hlen. lia.
  - destruct batches as [|b rest]; [done|]. simpl.
    apply IH. simpl in Hlen. lia.
Qed.

(** What [validate] makes of an epoch of the loader. *)
Lemma validate_epoch (model0 : M) (val : DataLoader SFTDataset G) tokenizer eval default
    batches val' d1 :
  iter_dataloader full.getitems val default = Ok (batches, val', d1) ->
  (Z.of_nat (length batches) < full.max_iters eval ->
   full.validate model0 val tokenizer eval default = Raise StopIteration)
  /\ (full.max_iters eval <= Z.of_nat (length batches) ->
      forall v val'' d',
        full.validate model0 val tokenizer eval default = Ok (v, val'', d') ->
        full.val_losses v
        = full.chunked_cross_entropy model0 <$> take (Z.to_nat (full.max_iters eval)) batches).
Proof.
  intros Hiter. unfold full.validate. rewrite Hiter. cbn [mbind result_bind]. split.
  - intros Hlt. rewrite validation_losses_loop_short; [done|]. rewrite py_range_unit. lia.
  - intros Hle v val'' d'.
    rewrite validation_losses_loop by (rewrite py_range_unit; lia).
    cbn [mbind result_bind]. rewrite py_range_unit.
    destruct (full.apply_prompt_template _ _) as [prompt|]; [|discriminate].
    cbn [mbind result_bind].
    destruct (full.max_new_tokens eval) as [k|]; [|discriminate]. cbn [mbind result_bind].
    destruct (full.generate _ _ _ _) as [output d2].
    by intros [= <- _ _].
Qed.

Lemma iter_dataloader_in_order (dl : DataLoader SFTDataset G) default :
  dl_shuffle dl = false -> dl_drop_last dl = false -> 0 < dl_batch_size dl ->
  exists dl' default',
    iter_dataloader full.getitems dl default
    = Ok (chunks (length (full.getitems (dl_dataset dl))) (Z.to_nat (dl_batch_size dl))
                 (full.getitems (dl_dataset dl)), dl', default').
Proof.
  intros Hsh Hdl Hbs. unfold iter_dataloader. rewrite decide_False by lia. cbv zeta.
  destruct (draw random_ random_ (dl_generator dl) default) as [[seed own] d1].
  rewrite Hsh, Hdl, omap_lookup_seq. by eexists _, _.
Qed.

End ValidateBatches.

(** [validate] on a loader that does not shuffle, as the validation loaders
    of the data modules are built: the losses are those of the first
    [eval.max_iters] batches, and the batches are the examples of the
    dataset in their order, [batch_size] at a time; so every call evaluates
    the same leading examples.  When the loader has fewer batches than
    [eval.max_iters], [next(val_iterator)] raises [StopIteration] and no loss
    is returned. *)
Theorem validate_leading_batches :
  forall {G M : Type} `{!full.Framework G M} (model0 : M)
         (val_dataloader : DataLoader SFTDataset G) (tokenizer : Tokenizer)
         (eval : full.EvalArgs) (default : G),
    dl_shuffle val_dataloader = false ->
    dl_drop_last val_dataloader = false ->
    0 < dl_batch_size val_dataloader ->
    let data := full.getitems (dl_dataset val_dataloader) in
    let batches := chunks (length data) (Z.to_nat (dl_batch_size val_dataloader)) data in
    concat batches = data
    /\ (Z.of_nat (length batches) < full.max_iters eval ->
        full.validate model0 val_dataloader tokenizer eval default = Raise StopIteration)
    /\ (full.max_iters eval <= Z.of_nat (length batches) ->
        forall v val' default',
          full.validate model0 val_dataloader tokenizer eval default = Ok (v, val', default') ->
          full.val_losses v
          = full.chunked_cross_entropy model0
              <$> take (Z.to_nat (full.max_iters eval)) batches).
Proof.
  intros G M ? model0 val tokenizer eval default Hsh Hdl Hbs data batches.
  split; [apply chunks_concat; lia|].
  destruct (iter_dataloader_in_order val default Hsh Hdl Hbs) as (dl' & d' & Hiter).
  exact (validate_epoch model0 val tokenizer eval default _ _ _ Hiter).
Qed.

(** How [fit] fails before its first iteration, for a checkpoint directory
    that is there.  On a training set without examples [max()] raises
    [ValueError].  Otherwise the sanity check runs [validate] with
    [max_iters=2], whatever [eval.max_iters] is: a validation loader with
    fewer than two batches makes it raise [StopIteration], and nothing is
    trained. *)
Theorem fit_needs_two_validation_batches :
  forall {G M : Type} `{!full.Framework G M} (fuel : nat) (state0 : full.State M)
         (train_dataloader val_dataloader : DataLoader SFTDataset G) (devices : Z)
         (resume : bool) (io : full.IOArgs) (train : full.TrainArgs) (eval : full.EvalArgs)
         (default : G),
    is_Some (full.checkpoint_dir io) ->
    (full.getitems (dl_dataset train_dataloader) = [] ->
     exists msg,
       full.fit fuel state0 train_dataloader val_dataloader devices resume io train eval
                default = Raise (ValueError msg))
    /\ (full.getitems (dl_dataset train_dataloader) <> [] ->
        0 < dl_batch_size val_dataloader ->
        batches_per_epoch full.getitems val_dataloader < 2 ->
        full.fit fuel state0 train_dataloader val_dataloader devices resume io train eval
                 default = Raise StopIteration).
Proof.
  intros G M ? fuel state0 train_dataloader val_dataloader devices resume io train eval
         default [dir Hdir].
  unfold full.fit. rewrite Hdir. cbn [full.Tokenizer_new mbind result_bind]. split.
  - intros ->. by eexists.
  - intros Hne Hbs Hlen.
    destruct (get_longest_seq_length_ok _ Hne) as (longest & ix & ->).
    cbn [mbind result_bind].
    destruct (iter_dataloader_ok full.getitems val_dataloader default Hbs)
      as (batches & val' & d1 & Hiter & _ & Hn).
    match goal with |- context [full.validate ?m ?v ?t ?e ?d] =>
      rewrite (proj1 (validate_epoch m v t e d _ _ _ Hiter)) end; [done|].
    simpl. lia.
Qed.

(** ** The bound [train.max_steps] *)

Section MaxSteps.
Context {G M : Type} `{!full.Framework G M}.
Context (devices : Z) (io : full.IOArgs) (train : full.TrainArgs) (eval : full.EvalArgs).

Lemma fit_loop_max_steps tokenizer (m : Z) (fuel : nat) (l l' : @full.loop G M) its fin :
  full.max_steps train = Some m -> m <> 0 ->
  full.fit_loop fuel devices io train eval tokenizer l = Ok (l', its, fin) ->
  Forall (fun it => full.step_count (full.it_state it) <= m) its
  /\ full.step_count (full.state l') <= Z.max m (full.step_count (full.state l))
  /\ (fin = true ->
      m <= full.step_count (full.state l')
      \/ exists e, full.epochs train = Some e /\ e <= epoch (full.train_iterator l')).
Proof.
  intros Hm Hm0. revert l its. induction fuel as [|fuel IH]; intros l its;
    cbn [full.fit_loop]; unfold full.loop_condition; rewrite Hm; unfold full.or_inf;
    rewrite decide_False by done; unfold full.lt_bound.
  - case_bool_decide as Hlt; cbn [mbind result_bind].
    + destruct (full.epochs train) as [e|]; [|discriminate].
      case_bool_decide; cbn [mbind result_bind]; intros [= <- <- <-].
      * split; [constructor|]. split; [lia|]. done.
      * split; [constructor|]. split; [lia|]. intros _. right. exists e. split; [done|lia].
    + intros [= <- <- <-]. split; [constructor|]. split; [lia|]. intros _. left. lia.
  - case_bool_decide as Hlt; cbn [mbind result_bind].
    + destruct (full.epochs train) as [e|] eqn:He; [|discriminate].
      case_bool_decide; cbn [mbind result_bind].
      * destruct (full.fit_iteration devices io train eval tokenizer l) as [[l1 it]|] eqn:Hit;
          cbn [mbind result_bind]; [|discriminate].
        destruct (full.fit_loop fuel devices io train eval tokenizer l1)
          as [[[l2 its'] fin']|] eqn:Hrest; cbn [mbind result_bind]; [|discriminate].
        intros [= <- <- <-].
        apply fit_iteration_facts in Hit.
        pose proof (fact_step_count _ _ _ _ _ _ _ _ Hit) as Hsc.
        pose proof (fact_state _ _ _ _ _ _ _ _ Hit) as Hst.
        assert (Hle : full.step_count (full.it_state it) <= m) by (case_decide; lia).
        destruct (IH l1 its' Hrest) as (Hall & Hfinal & Hfin).
        split; [by constructor|]. rewrite <- Hst in Hfinal. split; [lia|done].
      * intros [= <- <- <-]. split; [constructor|]. split; [lia|].
        intros _. right. exists e. split; [done|lia].
    + intros [= <- <- <-]. split; [constructor|]. split; [lia|]. intros _. left. lia.
Qed.

End MaxSteps.

(** [fit] never takes the step count past [train.max_steps]: when that is
    a number other than 0 (which stands for no bound), every iteration of a
    run leaves a step count of at most [max_steps], the run ends with a step
    count that is at most [max_steps] or the one it started with, and when
    the loop has ended, [max_steps] is reached or the epochs are used up. *)
Theorem fit_respects_max_steps :
  forall {G M : Type} `{!full.Framework G M} (fuel : nat) (state0 : full.State M)
         (train_dataloader val_dataloader : DataLoader SFTDataset G) (devices : Z)
         (resume : bool) (io : full.IOArgs) (train : full.TrainArgs) (eval : full.EvalArgs)
         (default : G) (r : full.fit_result) (m : Z),
    full.max_steps train = Some m -> m <> 0 ->
    full.fit fuel state0 train_dataloader val_dataloader devices resume io train eval default
    = Ok r ->
    Forall (fun it => full.step_count (full.it_state it) <= m) (full.iterations r)
    /\ full.step_count (full.state (full.final r)) <= Z.max m (full.step_count state0)
    /\ (full.finished r = true ->
        m <= full.step_count (full.state (full.final r))
        \/ exists e, full.epochs train = Some e
                     /\ e <= epoch (full.train_iterator (full.final r))).
Proof.
  intros G M ? fuel state0 train_dataloader val_dataloader devices resume io train eval
         default r m Hm Hm0 Hfit.
  destruct (fit_inv _ _ _ _ _ _ _ _ _ _ _ Hfit) as (dir & l0 & _ & Hloop & _ & Hs0 & _).
  rewrite <- Hs0.
  exact (fit_loop_max_steps devices io train eval _ m fuel l0 _ _ _ Hm Hm0 Hloop).
Qed.

(** ** The number of iterations *)

Section IterationsCount.
Context {G D : Type} `{!TorchRNG G} (items : D -> list sample).

(** Every [next] before the last epoch is over uses up exactly one of the
    iterations left. *)
Lemma cycle_next_iterations_left_S (dl : DataLoader D G) (it it' : CycleIterator G D)
    default default' b (epochs : Z) :
  loader_ready items 1 dl ->
  same_loader dl (iterable it) ->
  epoch it < epochs ->
  cycle_next items it default = Ok (b, it', default') ->
  iterations_left epochs (Z.to_nat (batches_per_epoch items dl)) it
  = S (iterations_left epochs (Z.to_nat (batches_per_epoch items dl)) it').
Proof.
  intros Hready Hsame Hep.
  set (L := Z.to_nat (batches_per_epoch items dl)).
  assert (Hfresh : forall (dl1 : DataLoader D G) d batches dl2 d2,
            same_loader dl dl1 ->
            iter_dataloader items dl1 d = Ok (batches, dl2, d2) ->
            length batches = L /\ (1 <= L)%nat /\ same_loader dl dl2).
  { intros dl1 d batches dl2 d2 Hs Hiter.
    pose proof (loader_ready_same items 1 _ _ Hs Hready) as [Hbs1 _].
    destruct (iter_dataloader_ok items dl1 d Hbs1) as (bs & dl2' & d2' & Heq & Hs2 & Hn).
    rewrite Hiter in Heq. injection Heq as <- <- <-.
    rewrite (batches_per_epoch_same _ _ _ Hs) in Hn. destruct Hready as [_ Hone].
    unfold L. split; [lia|]. split; [lia|]. by eapply same_loader_trans. }
  unfold cycle_next, iterations_left.
  rewrite (decide_False (P := epochs <= epoch it)) by lia.
  destruct (_iterator it) as [[|b0 rest]|] eqn:Hit; cbn [mbind result_bind].
  - destruct (iter_dataloader items (iterable it) default) as [[[cur dl1] d1]|] eqn:Hiter;
      [|discriminate].
    destruct (Hfresh _ _ _ _ _ Hsame Hiter) as (Hlen & HL & _).
    cbn [mbind result_bind]. destruct cur as [|b1 rest1]; [discriminate|].
    intros [= <- <- <-]. cbn [epoch _iterator]. simpl in Hlen.
    case_decide.
    + replace (Z.to_nat (epochs - epoch it - 1)) with 0%nat by lia. simpl. lia.
    + replace (Z.to_nat (epochs - epoch it - 1)) with (S (Z.to_nat (epochs - (epoch it + 1) - 1)))
        by lia.
      simpl. lia.
  - intros [= <- <- <-]. cbn [epoch _iterator]. rewrite decide_False by lia. simpl. lia.
  - destruct (iter_dataloader items (iterable it) default) as [[[cur dl1] d1]|] eqn:Hiter;
      [|discriminate].
    destruct (Hfresh _ _ _ _ _ Hsame Hiter) as (Hlen & HL & Hs1).
    cbn [mbind result_bind]. destruct cur as [|b1 rest1]; [simpl in Hlen; lia|].
    intros [= <- <- <-]. cbn [epoch _iterator]. rewrite decide_False by lia.
    simpl in Hlen. lia.
Qed.

(** Past the last epoch nothing is left, whatever is drawn. *)
Lemma cycle_next_iterations_left_0 (it it' : CycleIterator G D) default default' b
    (epochs : Z) :
  epochs <= epoch it ->
  cycle_next items it default = Ok (b, it', default') ->
  epochs <= epoch it'.
Proof.
  intros Hep. unfold cycle_next.
  destruct (match _iterator it with
            | Some current => Ok (current, iterable it, default)
            | None => iter_dataloader items (iterable it) default
            end) as [[[cur dl1] d1]|]; cbn [mbind result_bind]; [|discriminate].
  destruct cur as [|b1 rest1].
  - destruct (iter_dataloader items dl1 d1) as [[[cur2 dl2] d2]|]; cbn [mbind result_bind];
      [|discriminate].
    destruct cur2; [discriminate|]. intros [= <- <- <-]. simpl. lia.
  - intros [= <- <- <-]. simpl. lia.
Qed.

End IterationsCount.

Section LoopCount.
Context {G M : Type} `{!full.Framework G M}.
Context (devices : Z) (io : full.IOArgs) (train : full.TrainArgs) (eval : full.EvalArgs).
Context (train_dataloader : DataLoader SFTDataset G).
Hypothesis Htrain : loader_ready full.getitems 1 train_dataloader.

Local Abbreviation left e it :=
  (iterations_left e (Z.to_nat (batches_per_epoch full.getitems train_dataloader)) it).

Lemma fit_iteration_train_loader tokenizer (l l1 : @full.loop G M) it :
  same_loader train_dataloader (iterable (full.train_iterator l)) ->
  full.fit_iteration devices io train eval tokenizer l = Ok (l1, it) ->
  same_loader train_dataloader (iterable (full.train_iterator l1)).
Proof.
  intros Hs Hit. apply fit_iteration_facts in Hit.
  destruct (fact_batch _ _ _ _ _ _ _ _ Hit) as [d1 Hnext].
  destruct (cycle_next_ok full.getitems train_dataloader _ (full.default_generator l)
              Htrain Hs) as (b & it' & d' & Heq & Hs' & _).
  rewrite Hnext in Heq. by injection Heq as _ <- _.
Qed.

Lemma fit_loop_count tokenizer (e : Z) (fuel : nat) (l l' : @full.loop G M) its :
  full.epochs train = Some e ->
  full.or_inf (full.max_steps train) = full.Infinity ->
  same_loader train_dataloader (iterable (full.train_iterator l)) ->
  full.fit_loop fuel devices io train eval tokenizer l = Ok (l', its, true) ->
  length its = left e (full.train_iterator l).
Proof.
  intros He Hinf. revert l its. induction fuel as [|fuel IH]; intros l its Hs;
    cbn [full.fit_loop]; unfold full.loop_condition; rewrite He, Hinf; cbn [full.lt_bound].
  - case_bool_decide as Hep; cbn [mbind result_bind]; [discriminate|].
    intros [= <- <-]. unfold iterations_left. by rewrite decide_True by lia.
  - case_bool_decide as Hep; cbn [mbind result_bind].
    + destruct (full.fit_iteration devices io train eval tokenizer l) as [[l1 it]|] eqn:Hit;
        cbn [mbind result_bind]; [|discriminate].
      destruct (full.fit_loop fuel devices io train eval tokenizer l1)
        as [[[l2 its'] fin']|] eqn:Hrest; cbn [mbind result_bind]; [|discriminate].
      intros [= <- <- ->].
      pose proof (fit_iteration_train_loader _ _ _ _ Hs Hit) as Hs1.
      apply fit_iteration_facts in Hit.
      destruct (fact_batch _ _ _ _ _ _ _ _ Hit) as [d1 Hnext].
      rewrite (cycle_next_iterations_left_S full.getitems train_dataloader _ _ _ _ _ e
                 Htrain Hs Hep Hnext).
      cbn [length]. f_equal. by apply IH.
    + intros [= <- <-]. unfold iterations_left. by rewrite decide_True by lia.
Qed.

Lemma fast_forward_count (e n : Z) (it it' : CycleIterator G SFTDataset) d d' :
  same_loader train_dataloader (iterable it) ->
  full.fast_forward n it d = Ok (it', d') ->
  same_loader train_dataloader (iterable it')
  /\ left e it' = (left e it - Z.to_nat n)%nat.
Proof.
  unfold full.fast_forward. rewrite <- (py_range_unit n).
  generalize (py_range 0 n 1) as ks. intros ks. revert it d.
  induction ks as [|k ks IH]; intros it d Hs; cbn [for_in length].
  - intros [= <- <-]. split; [done|lia].
  - destruct (cycle_next full.getitems it d) as [[[b it1] d1]|] eqn:Hnext;
      cbn [mbind result_bind]; [|discriminate].
    destruct (cycle_next_ok full.getitems train_dataloader it d Htrain Hs)
      as (b' & it1' & d1' & Heq & Hs1 & _).
    rewrite Hnext in Heq. injection Heq as <- <- <-.
    intros Hrest. destruct (IH it1 d1 Hs1 Hrest) as [Hs' Hleft].
    split; [done|]. rewrite Hleft.
    destruct (decide (epoch it < e)) as [Hep|Hep].
    + rewrite (cycle_next_iterations_left_S full.getitems train_dataloader _ _ _ _ _ e
                 Htrain Hs Hep Hnext). lia.
    + assert (e <= epoch it1)
        by (apply (cycle_next_iterations_left_0 full.getitems it it1 d d1 b e); [lia|exact Hnext]).
      unfold iterations_left. rewrite !decide_True by lia. lia.
Qed.

End LoopCount.

(** A run of [fit] that is not cut short by [train.max_steps] trains on one
    batch more than [train.epochs] epochs have: the loop looks at the epoch
    counter before it draws the batch, and the counter goes up when the first
    batch of the next epoch is drawn.  With [n] batches in an epoch and [e]
    epochs, a fresh run that reaches the end of its loop has made [e * n + 1]
    iterations; a resumed run has made as many less as it has fast-forwarded
    over. *)
Theorem fit_iterations_count :
  forall {G M : Type} `{!full.Framework G M} (fuel : nat) (state0 : full.State M)
         (train_dataloader val_dataloader : DataLoader SFTDataset G) (devices : Z)
         (resume : bool) (io : full.IOArgs) (train : full.TrainArgs) (eval : full.EvalArgs)
         (default : G) (r : full.fit_result) (e : Z),
    loader_ready full.getitems 1 train_dataloader ->
    full.epochs train = Some e -> 0 < e ->
    full.max_steps train = None \/ full.max_steps train = Some 0 ->
    full.fit fuel state0 train_dataloader val_dataloader devices resume io train eval default
    = Ok r ->
    full.finished r = true ->
    length (full.iterations r)
    = (Z.to_nat (e * batches_per_epoch full.getitems train_dataloader + 1)
       - (if resume then Z.to_nat (full.iter_num state0) else 0))%nat.
Proof.
  intros G M ? fuel state0 train_dataloader val_dataloader devices resume io train eval
         default r e Htrain He Hpos Hmax Hfit Hfin.
  destruct (fit_inv _ _ _ _ _ _ _ _ _ _ _ Hfit) as (dir & l0 & _ & Hloop & _ & _ & Hit0).
  rewrite Hfin in Hloop.
  assert (Hinf : full.or_inf (full.max_steps train) = full.Infinity)
    by (destruct Hmax as [-> | ->]; reflexivity).
  assert (Hnew : iterations_left e (Z.to_nat (batches_per_epoch full.getitems train_dataloader))
                   (CycleIterator_new train_dataloader)
                 = Z.to_nat (e * batches_per_epoch full.getitems train_dataloader + 1)).
  { unfold iterations_left. cbn [epoch _iterator CycleIterator_new].
    rewrite decide_False by lia. destruct Htrain as [_ Hone].
    set (B := batches_per_epoch full.getitems train_dataloader) in *.
    apply Nat2Z.inj. rewrite !Nat2Z.inj_add, Nat2Z.inj_mul, !Z2Nat.id by nia. nia. }
  destruct resume.
  - destruct Hit0 as [d0 Hff].
    destruct (fast_forward_count train_dataloader Htrain e _
                (CycleIterator_new train_dataloader) _ _ _
                (same_loader_refl train_dataloader) Hff) as [Hs Hleft].
    rewrite (fit_loop_count devices io train eval train_dataloader Htrain _ e fuel l0 _ _
               He Hinf Hs Hloop).
    by rewrite Hleft, Hnew.
  - assert (Hs : same_loader train_dataloader (iterable (full.train_iterator l0)))
      by (rewrite Hit0; apply same_loader_refl).
    rewrite (fit_loop_count devices io train eval train_dataloader Htrain _ e fuel l0 _ _
               He Hinf Hs Hloop).
    rewrite Hit0, Hnew. lia.
Qed.

(** ** The batches of an epoch *)

Section EpochBatches.
Context {G D : Type} `{!TorchRNG G} (items : D -> list sample).

(** An epoch of a loader that keeps its last batch yields every item of the
    dataset once. *)
Lemma iter_dataloader_covers (dl dl' : DataLoader D G) default default' batches :
  iter_dataloader items dl default = Ok (batches, dl', default') ->
  dl_drop_last dl = false ->
  concat batches ≡ₚ items (dl_dataset dl).
Proof.
  unfold iter_dataloader. case_decide as Hbs; [discriminate|]. cbv zeta.
  destruct (draw random_ random_ (dl_generator dl) default) as [[seed own] d1].
  set (n := length (items (dl_dataset dl))).
  assert (Hord : exists order own2 d2,
    (if dl_shuffle dl then random_sampler n own d1 else (seq 0 n, own, d1))
    = (order, own2, d2) /\ order ≡ₚ seq 0 n).
  { destruct (dl_shuffle dl).
    - pose proof (random_sampler_perm n own d1) as Hp.
      destruct (random_sampler n own d1) as [[order own2] d2]. by exists order, own2, d2.
    - by exists (seq 0 n), own, d1. }
  destruct Hord as (order & own2 & d2 & -> & Hperm).
  intros [= <- _ _] ->.
  rewrite chunks_concat.
  - rewrite Hperm. unfold n. by rewrite omap_lookup_seq.
  - lia.
  - fold n. by rewrite (omap_lookup_perm _ _ Hperm).
Qed.

End EpochBatches.

Section EpochRuns.
Context {G M : Type} `{!full.Framework G M}.
Context (devices : Z) (io : full.IOArgs) (train : full.TrainArgs) (eval : full.EvalArgs)
        (tokenizer : Tokenizer).
Context (train_dataloader : DataLoader SFTDataset G).
Hypothesis Htrain : loader_ready full.getitems 1 train_dataloader.

Local Abbreviation run := (run_from devices io train eval tokenizer).
Local Abbreviation per_epoch := (Z.to_nat (batches_per_epoch full.getitems train_dataloader)).

Lemma fit_loop_is_run (fuel : nat) (l l' : @full.loop G M) its fin :
  full.fit_loop fuel devices io train eval tokenizer l = Ok (l', its, fin) -> run l its l'.
Proof.
  revert l its. induction fuel as [|fuel IH]; intros l its; cbn [full.fit_loop].
  - destruct (full.loop_condition train l) as [[|]|]; cbn [mbind result_bind];
      [| |discriminate]; intros [= <- <- <-]; constructor.
  - destruct (full.loop_condition train l) as [[|]|]; cbn [mbind result_bind];
      [| |discriminate].
    + destruct (full.fit_iteration devices io train eval tokenizer l) as [[l1 it]|] eqn:Hit;
        cbn [mbind result_bind]; [|discriminate].
      destruct (full.fit_loop fuel devices io train eval tokenizer l1)
        as [[[l2 its'] fin']|] eqn:Hrest; cbn [mbind result_bind]; [|discriminate].
      intros [= <- <- <-]. econstructor; [exact Hit|]. by apply IH.
    + intros [= <- <- <-]. constructor.
Qed.

Lemma run_from_split (l l' : @full.loop G M) its1 its2 :
  run l (its1 ++ its2) l' -> exists la, run l its1 la /\ run la its2 l'.
Proof.
  revert l. induction its1 as [|it its1 IH]; intros l Hrun.
  - exists l. split; [constructor|done].
  - inversion Hrun as [|? l1 ? ? ? Hit Hrest]; subst.
    destruct (IH l1 Hrest) as (la & H1 & H2).
    exists la. split; [|done]. by econstructor.
Qed.

(** Inside an epoch the iterations take the batches that are left, one
    after the other. *)
Lemma run_within_epoch (l l' : @full.loop G M) its cur :
  run l its l' ->
  _iterator (full.train_iterator l) = Some cur ->
  (length its <= length cur)%nat ->
  full.it_batch <$> its = take (length its) cur
  /\ _iterator (full.train_iterator l') = Some (drop (length its) cur)
  /\ iterable (full.train_iterator l') = iterable (full.train_iterator l).
Proof.
  intros Hrun. revert cur. induction Hrun as [l|l l1 l2 it its Hit Hrun IH]; intros cur Hcur Hlen.
  - by rewrite drop_0.
  - apply fit_iteration_facts in Hit.
    destruct (fact_batch _ _ _ _ _ _ _ _ Hit) as [d1 Hnext].
    unfold cycle_next in Hnext. rewrite Hcur in Hnext. cbn [mbind result_bind] in Hnext.
    destruct cur as [|b rest]; [simpl in Hlen; lia|].
    injection Hnext as Hb0 Hti _.
    destruct (IH rest) as (Hb & Hi & Hd).
    + by rewrite <- Hti.
    + simpl in Hlen. lia.
    + cbn [length take drop fmap list_fmap]. rewrite Hb, Hi, Hd, <- Hti, <- Hb0. done.
Qed.

(** From the start of an epoch, as many iterations as the epoch has batches
    train on the batches of one pass over the loader. *)
Lemma run_epoch (l l' : @full.loop G M) its :
  same_loader train_dataloader (iterable (full.train_iterator l)) ->
  _iterator (full.train_iterator l) = None \/ _iterator (full.train_iterator l) = Some [] ->
  run l its l' ->
  length its = per_epoch ->
  (exists d dl' d',
     iter_dataloader full.getitems (iterable (full.train_iterator l)) d
     = Ok (full.it_batch <$> its, dl', d'))
  /\ same_loader train_dataloader (iterable (full.train_iterator l'))
  /\ _iterator (full.train_iterator l') = Some [].
Proof.
  intros Hs Hstart Hrun Hlen.
  pose proof (loader_ready_same full.getitems 1 _ _ Hs Htrain) as [Hbs Hone].
  pose proof (batches_per_epoch_same full.getitems _ _ Hs) as Hsame.
  inversion Hrun as [|? l1 ? it its' Hit Hrest]; subst.
  { simpl in Hlen. lia. }
  pose proof (fit_iteration_train_loader devices io train eval train_dataloader Htrain
                _ _ _ _ Hs Hit) as Hs1.
  apply fit_iteration_facts in Hit.
  destruct (fact_batch _ _ _ _ _ _ _ _ Hit) as [d1 Hnext].
  unfold cycle_next in Hnext.
  assert (Hfirst : exists d cur dl1 d2,
            iter_dataloader full.getitems (iterable (full.train_iterator l)) d
            = Ok (full.it_batch it :: cur, dl1, d2)
            /\ _iterator (full.train_iterator l1) = Some cur
            /\ iterable (full.train_iterator l1) = dl1).
  { destruct Hstart as [Hnone|Hempty].
    - rewrite Hnone in Hnext.
      destruct (iter_dataloader full.getitems _ _) as [[[cur dl1] d2]|] eqn:Hiter;
        cbn [mbind result_bind] in Hnext; [|discriminate].
      destruct cur as [|b rest].
      + destruct (iter_dataloader_ok full.getitems _ (full.default_generator l) Hbs)
          as (bs & ? & ? & Heq & _ & Hn).
        rewrite Hiter in Heq. injection Heq as <- _ _. simpl in Hn. lia.
      + injection Hnext as <- <- _. by eexists _, _, _, _.
    - rewrite Hempty in Hnext. cbn [mbind result_bind] in Hnext.
      destruct (iter_dataloader full.getitems _ _) as [[[cur dl1] d2]|] eqn:Hiter;
        cbn [mbind result_bind] in Hnext; [|discriminate].
      destruct cur as [|b rest]; [discriminate|].
      injection Hnext as <- <- _. by eexists _, _, _, _. }
  destruct Hfirst as (d & cur & dl1 & d2 & Hiter & Hcur & Hdl1).
  assert (Hcurlen : length cur = length its').
  { destruct (iter_dataloader_ok full.getitems _ d Hbs) as (bs & ? & ? & Heq & _ & Hn).
    rewrite Hiter in Heq. injection Heq as <- _ _.
    simpl in Hn, Hlen. lia. }
  destruct (run_within_epoch _ _ _ _ Hrest Hcur) as (Hb & Hi & Hd); [lia|].
  rewrite <- Hcurlen, firstn_all in Hb. rewrite <- Hcurlen, drop_all in Hi.
  split; [|split; [|done]].
  - exists d, dl1, d2. cbn [fmap list_fmap]. by rewrite Hb.
  - by rewrite Hd.
Qed.

(** Every full block of [per_epoch] iterations of a run that starts at the
    start of an epoch is one pass over the training set. *)
Lemma run_epochs_cover (j : nat) (l l' : @full.loop G M) its :
  dl_drop_last train_dataloader = false ->
  same_loader train_dataloader (iterable (full.train_iterator l)) ->
  _iterator (full.train_iterator l) = None \/ _iterator (full.train_iterator l) = Some [] ->
  run l its l' ->
  ((j + 1) * per_epoch <= length its)%nat ->
  concat (full.it_batch <$> take per_epoch (drop (j * per_epoch) its))
  ≡ₚ full.getitems (dl_dataset train_dataloader).
Proof.
  intros Hdrop. revert l its. induction j as [|j IH]; intros l its Hs Hstart Hrun Hlen.
  - cbn [Nat.mul drop]. rewrite drop_0.
    rewrite <- (take_drop per_epoch its) in Hrun.
    apply run_from_split in Hrun as (la & Hfirst & _).
    destruct (run_epoch _ _ _ Hs Hstart Hfirst) as ((d & dl' & d' & Hiter) & _).
    { rewrite length_take. lia. }
    pose proof Hs as (Hds & _ & _ & _ & _ & _ & Hdl).
    rewrite Hds. eapply iter_dataloader_covers; [exact Hiter|]. by rewrite <- Hdl.
  - rewrite <- (take_drop per_epoch its) in Hrun.
    apply run_from_split in Hrun as (la & Hfirst & Hrest).
    destruct (run_epoch _ _ _ Hs Hstart Hfirst) as (_ & Hsa & Hia).
    { rewrite length_take. lia. }
    replace (S j * per_epoch)%nat with (per_epoch + j * per_epoch)%nat by lia.
    rewrite <- drop_drop.
    apply (IH la (drop per_epoch its) Hsa (or_intror Hia) Hrest).
    rewrite length_drop. lia.
Qed.

End EpochRuns.

(** In a run of [fit] that does not resume, over a training loader that
    keeps its last batch, every epoch is one pass over the training set:
    with [n] batches in an epoch, the batches of the iterations [j * n + 1]
    to [(j + 1) * n] are, taken together, the examples of the dataset, each
    one once. *)
Theorem fit_epochs_cover_training_set :
  forall {G M : Type} `{!full.Framework G M} (fuel : nat) (state0 : full.State M)
         (train_dataloader val_dataloader : DataLoader SFTDataset G) (devices : Z)
         (io : full.IOArgs) (train : full.TrainArgs) (eval : full.EvalArgs)
         (default : G) (r : full.fit_result),
    loader_ready full.getitems 1 train_dataloader ->
    dl_drop_last train_dataloader = false ->
    full.fit fuel state0 train_dataloader val_dataloader devices false io train eval default
    = Ok r ->
    let n := Z.to_nat (batches_per_epoch full.getitems train_dataloader) in
    forall j : nat,
      ((j + 1) * n <= length (full.iterations r))%nat ->
      concat (full.it_batch <$> take n (drop (j * n) (full.iterations r)))
      ≡ₚ full.getitems (dl_dataset train_dataloader).
Proof.
  intros G M ? fuel state0 train_dataloader val_dataloader devices io train eval default r
         Htrain Hdrop Hfit n j Hlen.
  destruct (fit_inv _ _ _ _ _ _ _ _ _ _ _ Hfit) as (dir & l0 & _ & Hloop & _ & _ & Hit0).
  cbv iota in Hit0.
  apply fit_loop_is_run in Hloop.
  apply (run_epochs_cover devices io train eval {| tokenizer_dir := dir |} train_dataloader
           Htrain j l0 (full.final r)
           (full.iterations r) Hdrop);
    [rewrite Hit0; apply same_loader_refl|rewrite Hit0; by left|exact Hloop|exact Hlen].
Qed.

(** ** What [main] does, in order *)

Lemma after_nil {E A} (m : traced E A) : m = after [] m.
Proof. by destruct m. Qed.

Lemma after_tell {E B} (t : list E) (e : E) (f : unit -> traced E B) :
  after t (tell e ≫= f) = after (t ++ [e]) (f tt).
Proof.
  unfold after, mbind, traced_bind, tell. destruct (f ()) as [t' r]. simpl.
  by rewrite <- app_assoc.
Qed.

Lemma after_tell_last {E} (t : list E) (e : E) : after t (tell e) = (t ++ [e], Ok tt).
Proof. done. Qed.

Lemma after_lift_ok {E A B} (t : list E) (a : A) (f : A -> traced E B) :
  after t (lift (Ok a) ≫= f) = after t (f a).
Proof. by rewrite traced_lift_ok_bind. Qed.

Lemma after_lift_raise {E A B} (t : list E) (e : exn) (f : A -> traced E B) :
  after t (lift (Raise e) ≫= f) = (t, Raise e).
Proof. unfold after. rewrite traced_lift_raise_bind. simpl. by rewrite app_nil_r. Qed.

Lemma after_tell_ret {E A B} (t : list E) (e : E) (a : A) (f : A -> traced E B) :
  after t ((tell e ≫= fun _ => mret a) ≫= f) = after (t ++ [e]) (f a).
Proof.
  unfold after, mbind, traced_bind, tell, mret, traced_ret. destruct (f a) as [t' r]. simpl.
  by rewrite <- app_assoc.
Qed.

(** An event of another kind, or one that the hypotheses exclude, is not in
    an explicit trace. *)
Ltac not_in_trace :=
  intros;
  first
    [ contradiction
    | let Hin := fresh "Hin" in
      intros Hin; cbn [app] in Hin;
      repeat (apply elem_of_cons in Hin as [Hin|Hin]; [discriminate|]);
      by apply elem_of_nil in Hin ].

Ltac main_raises :=
  right; rewrite after_lift_raise; eexists _, _; split; [reflexivity|];
  repeat split; not_in_trace.

Section MainCases.
Context {G M T : Type} `{!full.Framework G M} `{!LitDataModule T G}.
Context (file : string) (repr : full.args -> string).
Context (fuel : nat) (devices : Z) (seed : Z) (data : T)
        (io : full.IOArgs) (train : full.TrainArgs) (eval : full.EvalArgs).

Lemma main_cases (resume : option (full.State M)) :
  (exists dir train_dataloader val_dataloader len_train lr_max model0 default sched r,
     full.main file repr fuel devices resume seed data io train eval
     = (main_trace resume seed io train dir train_dataloader val_dataloader model0 sched r,
        Ok tt)
     /\ full.checkpoint_dir io = Some dir
     /\ full.get_dataloaders data {| tokenizer_dir := dir |} train
        = Ok (train_dataloader, val_dataloader)
     /\ len_dataloader full.getitems train_dataloader = Ok len_train
     /\ full.lr_max_steps full.gradient_accumulation_iters train len_train devices = Ok lr_max
     /\ full.init_module (manual_seed seed) = (model0, default)
     /\ full.get_lr_scheduler (full.lr_warmup_steps train) lr_max = Ok sched
     /\ full.fit fuel
          match resume with
          | Some saved => saved
          | None => {| full.model := full.load_checkpoint (dir +:+ "/lit_model.pth") model0;
                       full.iter_num := 0; full.step_count := 0 |}
          end
          train_dataloader val_dataloader devices (bool_decide (is_Some resume))
          io train eval default = Ok r)
  \/ (exists t e,
        full.main file repr fuel devices resume seed data io train eval = (t, Raise e)
        /\ (forall r, full.Fit r ∉ t)
        /\ (forall path, full.SaveFinal path ∉ t)
        /\ (full.lr_warmup_steps train = 0 -> forall sched, full.NewScheduler sched ∉ t)).
Proof.
  rewrite (after_nil (full.main _ _ _ _ _ _ _ _ _ _)). unfold full.main.
  destruct (full.validate_args file repr io train eval) as [[]|e] eqn:Hv; [|main_raises].
  rewrite after_lift_ok, after_tell.
  destruct (full.checkpoint_dir io) as [dir|] eqn:Hdir; cbn [full.Tokenizer_new];
    [|main_raises].
  rewrite after_lift_ok, after_tell.
  destruct (full.get_dataloaders data {| tokenizer_dir := dir |} train)
    as [[train_dataloader val_dataloader]|e] eqn:Hdl; [|main_raises].
  rewrite after_lift_ok, after_tell.
  destruct (len_dataloader full.getitems train_dataloader) as [len_train|e] eqn:Hlen;
    [|main_raises].
  rewrite after_lift_ok.
  destruct (full.lr_max_steps full.gradient_accumulation_iters train len_train devices)
    as [lr_max|e] eqn:Hmax; [|main_raises].
  rewrite after_lift_ok, after_tell.
  destruct (full.init_module (manual_seed seed)) as [model0 default] eqn:Hinit.
  rewrite !after_tell.
  destruct (full.get_lr_scheduler (full.lr_warmup_steps train) lr_max) as [sched|e] eqn:Hsched;
    [|main_raises].
  rewrite after_lift_ok, !after_tell.
  assert (Hw : full.lr_warmup_steps train <> 0).
  { intros Hw. rewrite Hw in Hsched. discriminate Hsched. }
  destruct resume as [saved|]; cbv zeta; rewrite after_tell_ret.
  - destruct (full.fit fuel saved train_dataloader val_dataloader devices
                (bool_decide (is_Some (Some saved))) io train eval default) as [r|e] eqn:Hfit;
      [|main_raises].
    left. rewrite after_lift_ok, after_tell, after_tell_last.
    exists dir, train_dataloader, val_dataloader, len_train, lr_max, model0, default, sched, r.
    split; [reflexivity|]. by repeat split.
  - match goal with |- context [full.fit ?a1 ?a2 ?a3 ?a4 ?a5 ?a6 ?a7 ?a8 ?a9 ?a10] =>
      destruct (full.fit a1 a2 a3 a4 a5 a6 a7 a8 a9 a10) as [r|e] eqn:Hfit end;
      [|main_raises].
    left. rewrite after_lift_ok, after_tell, after_tell_last.
    exists dir, train_dataloader, val_dataloader, len_train, lr_max, model0, default, sched, r.
    split; [reflexivity|]. by repeat split.
Qed.

End MainCases.

(** [main] from its first call to its last.  When it returns, it has made
    these calls in this order and no others: the checkpoint directory is
    checked, the tokenizer, the loaders, the model, the optimizer, the
    scheduler and the [state] dictionary are built; then either the state is
    loaded from the checkpoint to resume from, or the weights from
    [lit_model.pth] of the checkpoint directory, never both; [fit] runs once,
    on that state, resuming exactly when a checkpoint was given; and
    [lit_model_finetuned.pth] is saved last.  When it raises, [fit] has not
    returned and [lit_model_finetuned.pth] has not been written. *)
Theorem main_saves_after_fit :
  forall {G M T : Type} `{!full.Framework G M} `{!LitDataModule T G}
         (file : string) (repr : full.args -> string)
         (fuel : nat) (devices : Z) (resume : option (full.State M)) (seed : Z) (data : T)
         (io : full.IOArgs) (train : full.TrainArgs) (eval : full.EvalArgs),
    (forall t,
       full.main file repr fuel devices resume seed data io train eval = (t, Ok tt) ->
       exists dir train_dataloader val_dataloader model0 default sched r,
         t = main_trace resume seed io train dir train_dataloader val_dataloader model0 sched r
         /\ full.checkpoint_dir io = Some dir
         /\ full.get_dataloaders data {| tokenizer_dir := dir |} train
            = Ok (train_dataloader, val_dataloader)
         /\ full.init_module (manual_seed seed) = (model0, default)
         /\ full.fit fuel
              match resume with
              | Some saved => saved
              | None => {| full.model := full.load_checkpoint (dir +:+ "/lit_model.pth") model0;
                           full.iter_num := 0; full.step_count := 0 |}
              end
              train_dataloader val_dataloader devices (bool_decide (is_Some resume))
              io train eval default = Ok r)
    /\ (forall t e,
          full.main file repr fuel devices resume seed data io train eval = (t, Raise e) ->
          (forall r, full.Fit r ∉ t) /\ (forall path, full.SaveFinal path ∉ t)).
Proof.
  intros.
  destruct (main_cases file repr fuel devices seed data io train eval resume)
    as [(dir & tdl & vdl & len & lr_max & model0 & default & sched & r & Hmain & Hdir & Hdl
          & _ & _ & Hinit & _ & Hfit)
       |(t' & e' & Hmain & Hfit & Hsave & _)]; rewrite Hmain; split.
  - intros t [= <-]. by exists dir, tdl, vdl, model0, default, sched, r.
  - intros t e [=].
  - intros t [=].
  - intros t e [= <- _]. by split.
Qed.

(** Zero warm-up steps: the function [lambda step: step / warmup_steps]
    that [get_lr_scheduler] hands to [LambdaLR] is called at step 0 when the
    scheduler is constructed, so [get_lr_scheduler] raises
    [ZeroDivisionError], whatever [max_steps] is.  [main] with
    [train.lr_warmup_steps = 0] therefore raises before it has a scheduler,
    and [fit] is not called. *)
Theorem zero_warmup_steps_raise :
  (forall max_steps : Z, full.get_lr_scheduler 0 max_steps = Raise ZeroDivisionError)
  /\ forall {G M T : Type} `{!full.Framework G M} `{!LitDataModule T G}
            (file : string) (repr : full.args -> string)
            (fuel : nat) (devices : Z) (resume : option (full.State M)) (seed : Z) (data : T)
            (io : full.IOArgs) (train : full.TrainArgs) (eval : full.EvalArgs),
       full.lr_warmup_steps train = 0 ->
       exists t e,
         full.main file repr fuel devices resume seed data io train eval = (t, Raise e)
         /\ (forall sched, full.NewScheduler sched ∉ t)
         /\ (forall r, full.Fit r ∉ t).
Proof.
  split; [reflexivity|].
  intros G M T ? ? file repr fuel devices resume seed data io train eval Hw.
  destruct (main_cases file repr fuel devices seed data io train eval resume)
    as [(dir & tdl & vdl & len & lr_max & model0 & default & sched & r & _ & _ & _
          & _ & _ & _ & Hsched & _)
       |(t & e & Hmain & Hfit & _ & Hsched)].
  - rewrite Hw in Hsched. discriminate Hsched.
  - exists t, e. split; [done|]. split; [by apply Hsched|done].
Qed.

(** ** Strings *)

Lemma string_app_cons (c : ascii) (a b : string) : String c a +:+ b = String c (a +:+ b).
Proof. reflexivity. Qed.

Lemma string_app_nil_l (a : string) : "" +:+ a = a.
Proof. reflexivity. Qed.

Lemma string_app_nil_r (a : string) : a +:+ "" = a.
Proof. induction a as [|c a IH]; [done|]. by rewrite string_app_cons, IH. Qed.

Lemma string_app_assoc (a b c : string) : (a +:+ b) +:+ c = a +:+ (b +:+ c).
Proof. induction a as [|x a IH]; [done|]. by rewrite !string_app_cons, IH. Qed.

Lemma string_rev_app_app (a b c : string) :
  String.rev_app a b +:+ c = String.rev_app a (b +:+ c).
Proof.
  revert b. induction a as [|x a IH]; intros b; [done|].
  cbn [String.rev_app]. by rewrite IH, string_app_cons.
Qed.

Lemma string_rev_cons (c : ascii) (a : string) :
  String.rev (String c a) = String.rev a +:+ String c "".
Proof. unfold String.rev. cbn [String.rev_app]. by rewrite string_rev_app_app. Qed.

Lemma string_rev_app (a b : string) : String.rev (a +:+ b) = String.rev b +:+ String.rev a.
Proof.
  induction a as [|x a IH].
  - by rewrite string_app_nil_l, string_app_nil_r.
  - by rewrite string_app_cons, !string_rev_cons, IH, string_app_assoc.
Qed.

Lemma string_rev_involutive (a : string) : String.rev (String.rev a) = a.
Proof.
  induction a as [|x a IH]; [done|].
  by rewrite string_rev_cons, string_rev_app, IH.
Qed.


(** ** [TinyStories.__post_init__]: the directories *)

Lemma rstrip_slash_app_slash (p : string) :
  tinystories.rstrip_slash (p +:+ "/") = tinystories.rstrip_slash p.
Proof.
  unfold tinystories.rstrip_slash. rewrite string_rev_app.
  change (String.rev "/") with "/". rewrite string_app_cons, string_app_nil_l.
  cbn [tinystories.lstrip_slash]. by rewrite decide_True by done.
Qed.

Lemma rstrip_slash_no_slash (p : string) :
  (forall s, p <> s +:+ "/") -> tinystories.rstrip_slash p = p.
Proof.
  intros Hp. unfold tinystories.rstrip_slash.
  destruct (String.rev p) as [|c r] eqn:Hrev; cbn [tinystories.lstrip_slash].
  - by rewrite <- (string_rev_involutive p), Hrev.
  - case_decide as Hc.
    + subst c. exfalso. apply (Hp (String.rev r)).
      by rewrite <- (string_rev_involutive p), Hrev, string_rev_cons.
    + by rewrite <- Hrev, string_rev_involutive.
Qed.

Lemma rstrip_slash_stripped (p s : string) : tinystories.rstrip_slash p <> s +:+ "/".
Proof.
  unfold tinystories.rstrip_slash. intros Heq.
  apply (f_equal String.rev) in Heq. rewrite string_rev_involutive, string_rev_app in Heq.
  change (String.rev "/") with "/" in Heq. rewrite string_app_cons, string_app_nil_l in Heq.
  induction (String.rev p) as [|c r IH]; cbn [tinystories.lstrip_slash] in Heq;
    [discriminate|].
  case_decide as Hc; [by apply IH|].
  injection Heq as -> _. done.
Qed.

(** The directories [__post_init__] derives from [data_path] do not depend
    on a slash at its end: a path and the same path with a slash added give
    the same two directories (and so does any number of slashes added).  No
    slash stands before [/train] and [/val], and a path that ends in no slash
    is taken as it is. *)
Theorem tinystories_directories :
  forall (data_path : string) (seed num_workers : Z),
    let self := tinystories.TinyStories_new data_path seed num_workers in
    let more := tinystories.TinyStories_new (data_path +:+ "/") seed num_workers in
    tinystories.data_path_train more = tinystories.data_path_train self
    /\ tinystories.data_path_val more = tinystories.data_path_val self
    /\ exists stem,
         tinystories.data_path_train self = stem +:+ "/train"
         /\ tinystories.data_path_val self = stem +:+ "/val"
         /\ (forall s, stem <> s +:+ "/")
         /\ ((forall s, data_path <> s +:+ "/") -> stem = data_path).
Proof.
  intros data_path seed num_workers self more. subst self more.
  cbn [tinystories.TinyStories_new tinystories.data_path_train tinystories.data_path_val].
  rewrite rstrip_slash_app_slash. split; [done|]. split; [done|].
  exists (tinystories.rstrip_slash data_path).
  split; [done|]. split; [done|]. split; [apply rstrip_slash_stripped|].
  apply rstrip_slash_no_slash.
Qed.

(** ** Integer literals and the names of the checkpoints *)

Lemma string_app_inj_r (a b c : string) : a +:+ c = b +:+ c -> a = b.
Proof.
  intros Heq. apply (f_equal String.rev) in Heq. rewrite !string_rev_app in Heq.
  apply (inj _) in Heq. by rewrite <- (string_rev_involutive a), Heq, string_rev_involutive.
Qed.

Lemma string_forall_app (P : ascii -> Prop) (a b : string) :
  string_forall P (a +:+ b) <-> string_forall P a /\ string_forall P b.
Proof.
  induction a as [|c a IH]; [by rewrite string_app_nil_l; simpl; tauto|].
  rewrite string_app_cons. cbn [string_forall]. rewrite IH. tauto.
Qed.

Lemma string_forall_impl (P Q : ascii -> Prop) (s : string) :
  (forall c, P c -> Q c) -> string_forall P s -> string_forall Q s.
Proof. intros HPQ. induction s as [|c s IH]; [done|]. intros [? ?]. split; auto. Qed.

Lemma digit_not_space (c : ascii) : is_digit c -> py_isspace c = false.
Proof.
  intros [d Hd]. unfold Ascii.is_nat in Hd.
  repeat (case_match; try discriminate); reflexivity.
Qed.

Lemma pretty_N_char_digit (x : N) :
  (x < 10)%N -> Ascii.is_nat (pretty_N_char x) = Some (N.to_nat x).
Proof.
  intros Hx.
  assert (x = 0 \/ x = 1 \/ x = 2 \/ x = 3 \/ x = 4 \/ x = 5 \/ x = 6 \/ x = 7 \/ x = 8
          \/ x = 9)%N as Hcases by lia.
  repeat (destruct Hcases as [->|Hcases]; [reflexivity|]). by subst.
Qed.

Lemma pretty_N_go_digits (x : N) (s : string) :
  string_forall is_digit s -> string_forall is_digit (pretty_N_go x s).
Proof.
  revert s. induction (N.lt_wf_0 x) as [x _ IH]; intros s Hs.
  assert (x = 0 \/ 0 < x)%N as [->|Hx] by lia.
  - by rewrite pretty_N_go_0.
  - rewrite pretty_N_go_step by done. apply IH; [by apply N.div_lt|].
    split; [|done]. eexists. apply pretty_N_char_digit. by apply N.mod_lt.
Qed.

Lemma pretty_Z_digits (n : Z) : 0 <= n -> string_forall is_digit (pretty n).
Proof.
  intros Hn. destruct n as [|p|p]; [by split; [eexists|]| |lia].
  unfold pretty, pretty_Z, pretty, pretty_positive, pretty, pretty_N.
  rewrite decide_False by done. by apply pretty_N_go_digits.
Qed.

Lemma zeros_digits (k : nat) :
  string_forall (fun c => c = "0"%char) (String.concat "" (replicate k "0")).
Proof.
  induction k as [|k IH]; [done|]. cbn [replicate String.concat].
  destruct (replicate k "0") as [|z zs] eqn:Hz; [done|].
  rewrite string_app_cons, !string_app_nil_l. by split.
Qed.

Lemma zfill_digits (width : nat) (digits : string) :
  string_forall is_digit digits -> string_forall is_digit (full.zfill width digits).
Proof.
  intros Hd. unfold full.zfill. apply string_forall_app. split; [|done].
  eapply string_forall_impl; [|apply zeros_digits]. intros c ->. by eexists.
Qed.

(** *** Parsing *)

Lemma lstrip_nonspace (s : string) :
  string_forall (fun c => py_isspace c = false) s -> py_lstrip s = s.
Proof. destruct s as [|c s]; [done|]. intros [Hc _]. cbn [py_lstrip]. by rewrite Hc. Qed.

Lemma rstrip_nonspace (s : string) :
  string_forall (fun c => py_isspace c = false) s -> py_rstrip s = s.
Proof.
  induction s as [|c s IH]; [done|]. intros [Hc Hs]. cbn [py_rstrip].
  rewrite (IH Hs), Hc. by destruct s.
Qed.

Lemma strip_nonspace (s : string) :
  string_forall (fun c => py_isspace c = false) s -> py_strip s = s.
Proof. intros Hs. unfold py_strip. by rewrite (rstrip_nonspace s Hs), lstrip_nonspace. Qed.

Lemma parse_digits_other (acc : Z) (after_digit : bool) (a b : string) (c : ascii) :
  Ascii.is_nat c = None -> c <> "_"%char ->
  parse_digits acc after_digit (a +:+ String c b) = None.
Proof.
  intros Hc Hu. revert acc after_digit. induction a as [|x a IH]; intros acc after_digit.
  - rewrite string_app_nil_l. cbn [parse_digits]. rewrite Hc. by rewrite decide_False.
  - rewrite string_app_cons. cbn [parse_digits].
    destruct (Ascii.is_nat x); [apply IH|].
    case_decide; [|done]. destruct after_digit; [apply IH|done].
Qed.

Lemma parse_digits_zeros (after_digit : bool) (zeros s : string) (v : Z) :
  string_forall (fun c => c = "0"%char) zeros ->
  (forall flag, parse_digits 0 flag s = Some v) ->
  parse_digits 0 after_digit (zeros +:+ s) = Some v.
Proof.
  intros Hz Hs. revert after_digit. induction zeros as [|c zeros IH]; intros after_digit.
  - by rewrite string_app_nil_l.
  - destruct Hz as [-> Hz]. rewrite string_app_cons. cbn [parse_digits Ascii.is_nat].
    by apply IH.
Qed.

Lemma parse_digits_pretty_N_go (x : N) (s : string) (after_digit : bool) :
  (0 < x)%N ->
  parse_digits 0 after_digit (pretty_N_go x s) = parse_digits (Z.of_N x) true s.
Proof.
  revert s after_digit. induction (N.lt_wf_0 x) as [x _ IH]; intros s after_digit Hx.
  rewrite pretty_N_go_step by done.
  pose proof (pretty_N_char_digit (x `mod` 10) ltac:(by apply N.mod_lt)) as Hc.
  pose proof (N.div_mod x 10 ltac:(done)) as Hdm.
  destruct (decide (x `div` 10 = 0)%N) as [H0|Hpos].
  - rewrite H0, pretty_N_go_0. cbn [parse_digits]. rewrite Hc. f_equal.
    rewrite H0 in Hdm. lia.
  - apply N.neq_0_lt_0 in Hpos.
    rewrite IH by (try apply N.div_lt; done). cbn [parse_digits]. rewrite Hc. f_equal.
    lia.
Qed.

Lemma parse_digits_pretty (n : Z) (after_digit : bool) :
  0 <= n -> parse_digits 0 after_digit (pretty n) = Some n.
Proof.
  intros Hn. destruct n as [|p|p]; [done| |lia].
  unfold pretty, pretty_Z, pretty, pretty_positive, pretty, pretty_N.
  rewrite decide_False by done. by rewrite parse_digits_pretty_N_go.
Qed.

Lemma py_int_digits (s : string) (v : Z) :
  s <> "" -> string_forall is_digit s ->
  (forall flag, parse_digits 0 flag s = Some v) ->
  py_int s = Ok v.
Proof.
  intros Hne Hd Hparse. unfold py_int.
  rewrite strip_nonspace
    by (eapply string_forall_impl; [apply digit_not_space|done]).
  destruct s as [|c s]; [done|]. destruct Hd as [[d Hc] _].
  rewrite decide_False by (by intros ->). rewrite decide_False by (by intros ->).
  by rewrite Hparse.
Qed.

Lemma py_int_format_06d (n : Z) : py_int (full.format_06d n) = Ok n.
Proof.
  unfold full.format_06d. case_decide as Hneg.
  - unfold py_int.
    assert (Hd : string_forall is_digit (full.zfill 5 (pretty (- n))))
      by (apply zfill_digits, pretty_Z_digits; lia).
    rewrite strip_nonspace.
    2: { rewrite string_app_cons, string_app_nil_l. split; [done|].
         eapply string_forall_impl; [apply digit_not_space|done]. }
    rewrite string_app_cons, string_app_nil_l. rewrite decide_True by done.
    unfold full.zfill. rewrite (parse_digits_zeros _ _ _ (- n)).
    + f_equal. lia.
    + apply zeros_digits.
    + intros flag. apply parse_digits_pretty. lia.
  - apply py_int_digits.
    + unfold full.zfill. intros Heq.
      assert (Hp : pretty n = "").
      { destruct (String.concat "" _); [by rewrite string_app_nil_l in Heq|done]. }
      destruct n as [|p|p]; [done| |lia].
      apply (pretty_N_go_ne_0 (N.pos p) ""); [done|].
      pose proof (pretty_Z_digits (Z.pos p) ltac:(lia)) as Hd. rewrite Hp in Hd.
      exfalso. revert Hp. unfold pretty, pretty_Z, pretty, pretty_positive, pretty, pretty_N.
      rewrite decide_False by done. intros Hp.
      pose proof (parse_digits_pretty_N_go (N.pos p) "" false ltac:(lia)) as Hparse.
      rewrite Hp in Hparse. discriminate Hparse.
    + apply zfill_digits, pretty_Z_digits. lia.
    + intros flag. unfold full.zfill. apply parse_digits_zeros; [apply zeros_digits|].
      intros flag'. apply parse_digits_pretty. lia.
Qed.

(** *** [resume=True] *)

Lemma split_no_sep (sep : ascii) (s : string) :
  string_forall (fun c => c <> sep) s -> py_split sep s = [s].
Proof.
  induction s as [|c s IH]; [done|]. intros [Hc Hs]. cbn [py_split].
  rewrite decide_False by done. by rewrite (IH Hs).
Qed.

Lemma split_at_sep (sep : ascii) (a b : string) :
  string_forall (fun c => c <> sep) a ->
  py_split sep (a +:+ String sep b) = a :: py_split sep b.
Proof.
  induction a as [|c a IH].
  - intros _. rewrite string_app_nil_l. cbn [py_split]. by rewrite decide_True.
  - intros [Hc Ha]. rewrite string_app_cons. cbn [py_split].
    rewrite decide_False by done. by rewrite (IH Ha).
Qed.

Lemma py_int_pth (digits : string) :
  string_forall is_digit digits ->
  exists msg, py_int (digits +:+ ".pth") = Raise (ValueError msg).
Proof.
  intros Hd. unfold py_int.
  rewrite strip_nonspace.
  2: { apply string_forall_app. split.
       - eapply string_forall_impl; [apply digit_not_space|done].
       - by repeat split. }
  destruct digits as [|c digits].
  - by eexists.
  - rewrite string_app_cons. destruct Hd as [[d Hc] Hd].
    rewrite decide_False by (by intros ->). rewrite decide_False by (by intros ->).
    rewrite <- string_app_cons.
    change ".pth" with (String "." "pth").
    rewrite parse_digits_other by done. by eexists.
Qed.

Lemma checkpoint_key_raises (name : string) :
  written_by_full name ->
  exists e,
    (piece ← py_index (py_split "-" name) 1; py_int piece) = Raise e
    /\ (e = IndexError \/ exists msg, e = ValueError msg).
Proof.
  intros [->|[k ->]].
  - exists IndexError. split; [reflexivity|by left].
  - change ("step-" +:+ full.format_06d k +:+ ".pth")
      with ("step" +:+ String "-" (full.format_06d k +:+ ".pth")).
    rewrite split_at_sep by (by repeat split).
    unfold full.format_06d. case_decide as Hneg.
    + rewrite string_app_assoc, string_app_cons, string_app_nil_l.
      cbn [py_split]. rewrite decide_True by done.
      change 1 with (Z.of_nat 1). rewrite py_index_lookup. cbn [lookup list_lookup].
      cbn [mbind result_bind]. eexists. split; [reflexivity|]. right. by eexists.
    + assert (Hd : string_forall is_digit (full.zfill 6 (pretty k)))
        by (apply zfill_digits, pretty_Z_digits; lia).
      rewrite split_no_sep.
      2: { apply string_forall_app. split; [|by repeat split].
           eapply string_forall_impl; [|exact Hd]. intros c [d Hc] ->. discriminate Hc. }
      change 1 with (Z.of_nat 1). rewrite py_index_lookup. cbn [lookup list_lookup].
      cbn [mbind result_bind].
      destruct (py_int_pth _ Hd) as [msg ->]. eexists. split; [reflexivity|]. right.
      by eexists.
Qed.

(** [resume=True] cannot work on the files full.py writes.  Whatever
    [io.out_dir] holds, as long as its [.pth] files are checkpoints that
    [fit] has saved ([step-{step_count:06d}.pth]) or the final
    [lit_model_finetuned.pth], looking for the latest of them raises: the key
    of [max()] takes the part of the name after the first "-", which still
    carries [.pth], and [int()] refuses it ([ValueError]); the final
    checkpoint has no "-" in its name ([IndexError]); and with no [.pth] file
    at all [max()] has nothing to choose from ([ValueError]). *)
Theorem resume_true_raises :
  forall (out_dir : string) (listing : list string),
    Forall (fun name => py_endswith ".pth" name -> written_by_full name) listing ->
    exists e,
      full.resume_from (full.ResumeBool true) out_dir listing = Raise e
      /\ (e = IndexError \/ exists msg, e = ValueError msg).
Proof.
  intros out_dir listing Hall. unfold full.resume_from, full.latest_checkpoint.
  destruct (filter (fun name => py_endswith ".pth" name) listing) as [|name names] eqn:Hf.
  - eexists. split; [reflexivity|]. right. by eexists.
  - assert (Hin : name ∈ filter (fun name => py_endswith ".pth" name) listing)
      by (rewrite Hf; apply elem_of_cons; by left).
    apply list_elem_of_filter in Hin as [Hpth Hin].
    rewrite list.Forall_forall in Hall.
    destruct (checkpoint_key_raises name (Hall name Hin Hpth)) as (e & Hkey & He).
    exists e. split; [|done]. unfold py_max. rewrite Hkey. reflexivity.
Qed.

(** The number in the name of a checkpoint reads back as the step count:
    [int(f"{n:06d}")] is [n] for every integer.  So checkpoints of different
    step counts have different names, and in a run of [fit] two checkpoints
    written to the same file are of the same step count. *)
Theorem checkpoint_names_distinct :
  (forall n : Z, py_int (full.format_06d n) = Ok n)
  /\ (forall (io : full.IOArgs) (a b : Z),
        checkpoint_path io a = checkpoint_path io b -> a = b)
  /\ forall {G M : Type} `{!full.Framework G M} (fuel : nat) (state0 : full.State M)
            (train_dataloader val_dataloader : DataLoader SFTDataset G) (devices : Z)
            (resume : bool) (io : full.IOArgs) (train : full.TrainArgs) (eval : full.EvalArgs)
            (default : G) (r : full.fit_result),
       full.fit fuel state0 train_dataloader val_dataloader devices resume io train eval
                default = Ok r ->
       forall it1 it2 path st1 st2,
         it1 ∈ full.iterations r -> it2 ∈ full.iterations r ->
         full.Save path st1 ∈ full.it_events it1 ->
         full.Save path st2 ∈ full.it_events it2 ->
         full.step_count st1 = full.step_count st2.
Proof.
  assert (Hinj : forall (io : full.IOArgs) (a b : Z),
            checkpoint_path io a = checkpoint_path io b -> a = b).
  { intros io a b Heq. unfold checkpoint_path in Heq.
    apply (inj _) in Heq. apply (inj _) in Heq. apply string_app_inj_r in Heq.
    assert (Hab : Ok a = Ok b :> result Z)
      by (by rewrite <- (py_int_format_06d a), <- (py_int_format_06d b), Heq).
    by injection Hab. }
  split; [exact py_int_format_06d|]. split; [exact Hinj|].
  intros G M ? fuel state0 train_dataloader val_dataloader devices resume io train eval
         default r Hfit it1 it2 path st1 st2 [k1 Hk1]%list_elem_of_lookup
         [k2 Hk2]%list_elem_of_lookup Hs1 Hs2.
  destruct (fit_inv _ _ _ _ _ _ _ _ _ _ _ Hfit) as (dir & l0 & _ & Hloop & _).
  apply fit_loop_is_run in Hloop.
  destruct (run_from_lookup _ _ _ _ _ _ _ _ _ _ Hloop Hk1) as (la1 & lb1 & _ & Hstep1 & _).
  destruct (run_from_lookup _ _ _ _ _ _ _ _ _ _ Hloop Hk2) as (la2 & lb2 & _ & Hstep2 & _).
  apply fit_iteration_facts in Hstep1, Hstep2.
  apply (fact_save _ _ _ _ _ _ _ _ Hstep1) in Hs1 as (_ & _ & Hp1 & ->).
  apply (fact_save _ _ _ _ _ _ _ _ Hstep2) in Hs2 as (_ & _ & Hp2 & ->).
  apply (Hinj io). by rewrite <- Hp1, <- Hp2.
Qed.

(** ** [download_if_missing] (alpaca.py) *)

(** [download_if_missing] as a cache.  It touches no file but [file_path].
    A file that is there and not empty is left as it is, and nothing is
    requested.  After a call that has returned, the file holds a text, and
    when that text is not empty a second call requests nothing and changes
    nothing.  When the request raises, the exception leaves an empty file
    behind, so that the next call requests the URL again. *)
Theorem download_if_missing_caches :
  forall (requests_available : bool) (requests_get : string -> result string)
         (file_path file_url : string) (fs : gmap string string),
    let call := alpaca.download_if_missing requests_available requests_get file_path file_url in
    (forall other, other <> file_path -> alpaca.files (call fs) !! other = fs !! other)
    /\ (forall text, fs !! file_path = Some text -> text <> "" ->
          call fs = {| alpaca.files := fs; alpaca.requested := [];
                       alpaca.ended := Ok tt |})
    /\ (alpaca.ended (call fs) = Ok tt ->
        exists text,
          alpaca.files (call fs) !! file_path = Some text
          /\ (text <> "" ->
              call (alpaca.files (call fs))
              = {| alpaca.files := alpaca.files (call fs); alpaca.requested := [];
                   alpaca.ended := Ok tt |}))
    /\ (forall e, alpaca.requested (call fs) = [file_url] ->
          requests_get file_url = Raise e ->
          alpaca.ended (call fs) = Raise e
          /\ alpaca.files (call fs) !! file_path = Some ""
          /\ alpaca.requested (call (alpaca.files (call fs))) = [file_url]).
Proof.
  intros ra rg file_path file_url fs call. subst call.
  set (call := alpaca.download_if_missing ra rg file_path file_url).
  assert (Hkeep : forall (fs : gmap string string) text,
            fs !! file_path = Some text -> text <> "" ->
            call fs = {| alpaca.files := fs; alpaca.requested := [];
                         alpaca.ended := Ok tt |}).
  { intros fs' text Hfs Hne. unfold call, alpaca.download_if_missing. cbv zeta.
    by rewrite Hfs, bool_decide_true. }
  assert (Hcases : forall fs : gmap string string,
    (exists text, fs !! file_path = Some text /\ text <> "")
    \/ ((fs !! file_path = None \/ fs !! file_path = Some "")
        /\ ((ra = false
             /\ call fs = {| alpaca.files := fs; alpaca.requested := [];
                             alpaca.ended := Raise (ModuleNotFoundError "requests") |})
            \/ (ra = true /\ exists text,
                  rg file_url = Ok text
                  /\ call fs = {| alpaca.files := <[file_path := text]> (<[file_path := ""]> fs);
                                  alpaca.requested := [file_url];
                                  alpaca.ended := Ok tt |})
            \/ (ra = true /\ exists e,
                  rg file_url = Raise e
                  /\ call fs = {| alpaca.files := <[file_path := ""]> fs;
                                  alpaca.requested := [file_url];
                                  alpaca.ended := Raise e |})))).
  { intros fs'. unfold call, alpaca.download_if_missing. cbv zeta.
    destruct (fs' !! file_path) as [text|] eqn:Hfs.
    - case_bool_decide as Hne; [left; by exists text|]. try apply dec_stable in Hne. subst text.
      right. split; [by right|].
      destruct ra; cbn [negb]; [|by left]. right.
      destruct (rg file_url) as [text|e]; [left|right]; (split; [done|]); by eexists.
    - right. split; [by left|].
      destruct ra; cbn [negb]; [|by left]. right.
      destruct (rg file_url) as [text|e]; [left|right]; (split; [done|]); by eexists. }
  split; [|split; [exact (Hkeep fs)|split]].
  - intros other Hother.
    destruct (Hcases fs) as [(text & Hfs & Hne)|(_ & [(_ & ->)|[(_ & text & _ & ->)|(_ & e & _ & ->)]])];
      [by rewrite (Hkeep fs text)|done|..]; cbn [alpaca.files];
      by rewrite ?lookup_insert_ne by done.
  - destruct (Hcases fs) as [(text & Hfs & Hne)|(_ & [(_ & ->)|[(_ & text & _ & ->)|(_ & e & _ & ->)]])];
      try discriminate.
    + rewrite (Hkeep fs text) by done. intros _. exists text. split; [done|].
      intros _. by apply (Hkeep fs text).
    + intros _. exists text. cbn [alpaca.files]. rewrite lookup_insert_eq. split; [done|].
      intros Hne. apply (Hkeep _ text); [by rewrite lookup_insert_eq|done].
  - intros e Hreq Hget.
    destruct (Hcases fs) as [(text & Hfs & Hne)|(_ & [(_ & Hc)|[(_ & text & Hok & Hc)|(-> & e' & He' & Hc)]])];
      [rewrite (Hkeep fs text) in Hreq by done; discriminate Hreq
      |rewrite Hc in Hreq; discriminate Hreq
      |congruence|].
    rewrite Hc. cbn [alpaca.files alpaca.ended]. rewrite lookup_insert_eq.
    split; [congruence|]. split; [done|].
    destruct (Hcases (<[file_path := ""]> fs))
      as [(text & Hfs & Hne)|(_ & [(? & _)|[(_ & text & Hok & _)|(_ & e'' & _ & ->)]])];
      [rewrite lookup_insert_eq in Hfs; congruence|discriminate|congruence|done].
Qed.

(** ** [setup] of [Alpaca] and [LIMA]: the split *)

Lemma omap_lookup_length {A} (data : list A) (l : list nat) :
  Forall (fun i => (i < length data)%nat) l ->
  length (omap (fun i => data !! i) l) = length l.
Proof.
  induction 1 as [|i l Hi _ IH]; [done|]. cbn [omap list_omap].
  destruct (lookup_lt_is_Some_2 data i Hi) as [a ->]. simpl. by rewrite IH.
Qed.

Lemma random_split_partition {G A} `{!TorchRNG G}
    (split_lengths : nat -> Q -> result (nat * nat)) (dataset : list A) (fraction : Q)
    (g : G) (train test : list A) :
  random_split split_lengths dataset fraction g = Ok (train, test) ->
  train ++ test ≡ₚ dataset
  /\ split_lengths (length dataset) fraction = Ok (length train, length test).
Proof.
  unfold random_split.
  destruct (split_lengths (length dataset) fraction) as [[n1 n2]|]; cbn [mbind result_bind];
    [|discriminate].
  case_decide as Hsum; [discriminate|]. try apply dec_stable in Hsum.
  cbv zeta. pose proof (randperm_perm (n1 + n2) g) as Hperm.
  destruct (randperm (n1 + n2) g) as [indices g']. cbn [fst] in *.
  assert (Hlen : length indices = (n1 + n2)%nat)
    by (by rewrite Hperm, length_seq).
  assert (Hlt : Forall (fun i => (i < length dataset)%nat) indices).
  { rewrite Hperm, <- Hsum. apply list.Forall_forall. intros i Hi%elem_of_seq. lia. }
  intros [= <- <-]. split.
  - rewrite <- omap_app.
    replace (take n2 (drop n1 indices)) with (drop n1 indices)
      by (symmetry; apply take_ge; rewrite length_drop; lia).
    rewrite take_drop, Hperm, Hsum. by rewrite omap_lookup_seq.
  - rewrite !omap_lookup_length.
    + rewrite length_take, length_take, length_drop.
      do 2 f_equal; f_equal; lia.
    + apply Forall_take, Forall_drop, Hlt.
    + apply Forall_take, Hlt.
Qed.

(** [setup] of [Alpaca] and of [LIMA] splits the examples without losing
    or repeating one: the records of the training set followed by those of
    the test set are a rearrangement of the examples read (for [LIMA], of
    the records [format_dataset] makes of the [train] split of the hub), in
    the sizes [random_split] has computed from [test_split_fraction].  Both
    datasets get the tokenizer and the settings of the module and the Alpaca
    prompt template, and the loaders built afterwards are over them, the
    test loader over the same dataset as the validation loader. *)
Theorem setup_splits_the_examples :
  (forall {G : Type} `{!TorchRNG G}
          (json_load : string -> result (list (gmap string string)))
          (split_lengths : nat -> Q -> result (nat * nat)) (self ready : alpaca.Alpaca),
     alpaca.setup json_load split_lengths self = Ok ready ->
     exists data train test,
       json_load (alpaca.data_file_path self) = Ok data
       /\ alpaca.train_dataset ready = Some train
       /\ alpaca.test_dataset ready = Some test
       /\ sft_data train ++ sft_data test ≡ₚ data
       /\ split_lengths (length data) (alpaca.test_split_fraction self)
          = Ok (length (sft_data train), length (sft_data test))
       /\ (forall d, d = train \/ d = test ->
             sft_tokenizer d = Some (alpaca.tokenizer self)
             /\ sft_max_seq_length d = alpaca.max_seq_length self
             /\ sft_mask_prompt d = alpaca.mask_prompt self
             /\ sft_ignore_index d = alpaca.ignore_index self
             /\ sft_prompt_template d = alpaca.prompt_template)
       /\ dl_dataset (alpaca.train_dataloader (G:=G) ready) = Some train
       /\ dl_dataset (alpaca.val_dataloader (G:=G) ready) = Some test
       /\ dl_dataset (alpaca.test_dataloader (G:=G) ready) = Some test)
  /\ (forall {G : Type} `{!TorchRNG G}
             (load_dataset : string -> string -> result (gmap string (list lima.entry)))
             (split_lengths : nat -> Q -> result (nat * nat)) (self ready : lima.LIMA),
        lima.setup load_dataset split_lengths self = Ok ready ->
        exists dataset partition data train test,
          load_dataset (lima.data_repo_id self) (lima.access_token self) = Ok dataset
          /\ dataset !! "train" = Some partition
          /\ lima.format_dataset partition (lima.include_multiturn_conversations self) = Ok data
          /\ lima.train_dataset ready = Some train
          /\ lima.test_dataset ready = Some test
          /\ sft_data train ++ sft_data test ≡ₚ data
          /\ split_lengths (length data) (lima.test_split_fraction self)
             = Ok (length (sft_data train), length (sft_data test))
          /\ (forall d, d = train \/ d = test ->
                sft_tokenizer d = Some (lima.tokenizer self)
                /\ sft_max_seq_length d = lima.max_seq_length self
                /\ sft_mask_prompt d = lima.mask_prompt self
                /\ sft_ignore_index d = lima.ignore_index self
                /\ sft_prompt_template d = alpaca.prompt_template)
          /\ dl_dataset (lima.train_dataloader (G:=G) ready) = Some train
          /\ dl_dataset (lima.val_dataloader (G:=G) ready) = Some test
          /\ dl_dataset (lima.test_dataloader (G:=G) ready) = Some test).
Proof.
  split.
  - intros G ? json_load split_lengths self ready. unfold alpaca.setup.
    destruct (json_load (alpaca.data_file_path self)) as [data|] eqn:Hload;
      cbn [mbind result_bind]; [|discriminate].
    destruct (random_split _ _ _ _) as [[train_data test_data]|] eqn:Hsplit;
      cbn [mbind result_bind]; [|discriminate].
    apply random_split_partition in Hsplit as [Hperm Hlen].
    intros [= <-]. eexists data, _, _. split; [done|]. split; [reflexivity|].
    split; [reflexivity|]. split; [exact Hperm|]. split; [exact Hlen|].
    split; [|done]. intros d [-> | ->]; done.
  - intros G ? load_dataset split_lengths self ready. unfold lima.setup.
    destruct (load_dataset _ _) as [dataset|] eqn:Hload; cbn [mbind result_bind];
      [|discriminate].
    unfold py_getitem.
    destruct (dataset !! "train") as [partition|] eqn:Htrain; cbn [mbind result_bind];
      [|discriminate].
    destruct (lima.format_dataset partition _) as [data|] eqn:Hformat; cbn [mbind result_bind];
      [|discriminate].
    destruct (random_split _ _ _ _) as [[train_data test_data]|] eqn:Hsplit;
      cbn [mbind result_bind]; [|discriminate].
    apply random_split_partition in Hsplit as [Hperm Hlen].
    intros [= <-]. eexists dataset, partition, data, _, _. split; [done|]. split; [done|].
    split; [done|]. split; [reflexivity|].
    split; [reflexivity|]. split; [exact Hperm|]. split; [exact Hlen|].
    split; [|done]. intros d [-> | ->]; done.
Qed.

(** ** [setup] (full.py) *)

(** [setup] reads [io.checkpoint_dir.name] for the model configuration
    while it evaluates the arguments of [fabric.launch], so with
    [io.checkpoint_dir = None] it raises [AttributeError] and [main] is not
    launched: the check of [validate_args] for a missing checkpoint
    directory is never the one that reports it.  When [setup] does launch
    [main], the checkpoint directory is there and names a known
    configuration, the strategy is FSDP exactly for more than one device, the
    logger flushes every [train.log_interval] steps, and [main] runs on the
    data module given, or on [Alpaca()] when none is. *)
Theorem setup_before_main :
  forall {G M T : Type} `{!full.Framework G M} `{!LitDataModule T G}
         (file : string) (repr : full.args -> string)
         (Alpaca_new : T) (get_default_supported_precision : string)
         (parent name : string -> string) (Config_from_name : string -> result unit)
         (fuel : nat) (precision : option string) (devices : Z)
         (resume : option (full.State M)) (seed : Z) (data : option T)
         (io : full.IOArgs) (train : full.TrainArgs) (eval : full.EvalArgs),
    let call :=
      full.setup file repr Alpaca_new get_default_supported_precision parent name
                  Config_from_name fuel precision devices resume seed data io train eval in
    (full.checkpoint_dir io = None -> call = Raise (AttributeError "name"))
    /\ (forall fabric run,
          call = Ok (fabric, run) ->
          (exists dir, full.checkpoint_dir io = Some dir
                       /\ Config_from_name (name dir) = Ok tt)
          /\ run = full.main file repr fuel devices resume seed (default Alpaca_new data)
                             io train eval
          /\ (full.fabric_strategy fabric = full.FSDPStrategy <-> 1 < devices)
          /\ full.fabric_devices fabric = devices
          /\ full.flush_logs_every_n_steps (full.fabric_loggers fabric)
             = full.log_interval train
          /\ forall issues,
               full.collect_issues file repr io train eval = Ok issues ->
               full.required_issue file repr (full.OfIO io) "checkpoint_dir" ∉ issues).
Proof.
  intros. subst call. unfold full.setup. split.
  - by intros ->.
  - intros fabric run. cbv zeta.
    destruct (full.checkpoint_dir io) as [dir|] eqn:Hdir; cbn [mbind result_bind];
      [|discriminate].
    destruct (Config_from_name (name dir)) as [[]|] eqn:Hconfig; cbn [mbind result_bind];
      [|discriminate].
    intros [= <- <-]. split; [by exists dir|]. split; [by destruct data|].
    cbn [full.fabric_strategy full.fabric_devices full.fabric_loggers
         full.flush_logs_every_n_steps].
    split; [case_decide; split; (done || lia)|]. split; [done|]. split; [done|].
    intros issues. rewrite collect_issues_expected. intros [= <-].
    unfold expected_issues. rewrite Hdir.
    destruct (full.max_tokens train), (full.max_norm train), (full.epochs train),
      (full.max_new_tokens eval); cbn [app];
      intros Hin; repeat (apply elem_of_cons in Hin as [Hin|Hin];
        [unfold full.required_issue, full.unsupported_issue in Hin;
         apply (inj _) in Hin; discriminate Hin|]);
      by apply elem_of_nil in Hin.
Qed.

(** ** [tokenize] (tinystories.py) *)

Section TokenizeStories.
Context (json_load : string -> result (list (gmap string string)))
        (encode : Tokenizer -> string -> bool -> bool -> list Z).

Lemma yield_tokens_stories (tokenizer : Tokenizer) (data : list (gmap string string))
    (stories : list string) :
  Forall2 (fun example story => example !! "story" = Some story) data stories ->
  tinystories.yield_tokens encode (Some tokenizer) data
  = ((fun story => encode tokenizer (py_strip story) true false) <$> stories, Ok tt).
Proof.
  induction 1 as [|example story data stories Hstory _ IH]; [done|].
  cbn [tinystories.yield_tokens]. unfold py_getitem. rewrite Hstory.
  rewrite traced_lift_ok_bind. cbv zeta. rewrite traced_lift_ok_bind.
  rewrite (after_nil (tell _ ≫= _)), after_tell, IH. reflexivity.
Qed.

Lemma yield_tokens_missing (tokenizer : Tokenizer) (data rest : list (gmap string string))
    (stories : list string) (example : gmap string string) :
  Forall2 (fun example story => example !! "story" = Some story) data stories ->
  example !! "story" = None ->
  tinystories.yield_tokens encode (Some tokenizer) (data ++ example :: rest)
  = ((fun story => encode tokenizer (py_strip story) true false) <$> stories,
     Raise (KeyError "story")).
Proof.
  intros Hdata Hnone.
  induction Hdata as [|example' story data stories Hstory _ IH].
  - cbn [app tinystories.yield_tokens]. unfold py_getitem. rewrite Hnone. reflexivity.
  - cbn [app tinystories.yield_tokens]. unfold py_getitem. rewrite Hstory.
    rewrite traced_lift_ok_bind. cbv zeta. rewrite traced_lift_ok_bind.
    rewrite (after_nil (tell _ ≫= _)), after_tell, IH. reflexivity.
Qed.

End TokenizeStories.

(** [tokenize] on a shard, with the two environment variables of the data
    optimizer set to integers.  With [DATA_OPTIMIZER_NUM_WORKERS] at 0 the
    local rank cannot be computed: [ZeroDivisionError], and nothing is
    yielded.  Otherwise the generator yields one token list for each example
    of the file, in the order of the file: the encoding, with BOS and without
    EOS, of the story stripped of the white space around it.  An example
    without the key [story] ends the generator with [KeyError] after the
    examples before it have been yielded. *)
Theorem tokenize_yields_stories :
  forall (json_load : string -> result (list (gmap string string)))
         (encode : Tokenizer -> string -> bool -> bool -> list Z)
         (environ : gmap string string) (filename : string) (tokenizer : Tokenizer)
         (global_rank num_workers : Z) (data : list (gmap string string))
         (stories : list string),
    (v ← py_getitem environ "DATA_OPTIMIZER_GLOBAL_RANK"; py_int v) = Ok global_rank ->
    (v ← py_getitem environ "DATA_OPTIMIZER_NUM_WORKERS"; py_int v) = Ok num_workers ->
    Forall2 (fun example story => example !! "story" = Some story) data stories ->
    let tokens := (fun story => encode tokenizer (py_strip story) true false) <$> stories in
    (json_load filename = Ok data ->
     tinystories.tokenize json_load encode environ filename (Some tokenizer)
     = if decide (num_workers = 0) then ([], Raise ZeroDivisionError) else (tokens, Ok tt))
    /\ (forall example rest,
          json_load filename = Ok (data ++ example :: rest) ->
          example !! "story" = None ->
          num_workers <> 0 ->
          tinystories.tokenize json_load encode environ filename (Some tokenizer)
          = (tokens, Raise (KeyError "story"))).
Proof.
  intros json_load encode environ filename tokenizer global_rank num_workers data stories
         Hrank Hworkers Hdata tokens.
  split.
  - intros Hload. unfold tinystories.tokenize.
    rewrite Hload, traced_lift_ok_bind, Hrank, traced_lift_ok_bind, Hworkers,
      traced_lift_ok_bind.
    unfold py_mod. case_decide as Hz.
    + by rewrite traced_lift_raise_bind.
    + rewrite traced_lift_ok_bind. by apply yield_tokens_stories.
  - intros example rest Hload Hnone Hz. unfold tinystories.tokenize.
    rewrite Hload, traced_lift_ok_bind, Hrank, traced_lift_ok_bind, Hworkers,
      traced_lift_ok_bind.
    unfold py_mod. rewrite decide_False by done.
    rewrite traced_lift_ok_bind. by apply yield_tokens_missing.
Qed.

(** ** The statements at a concrete run *)

Lemma demo_fit_ready (train : full.TrainArgs) :
  full.gradient_accumulation_iters train 1 > 0 ->
  full.log_interval train = 1 -> full.save_interval train = 3 ->
  full.epochs train = Some 3 ->
  fit_ready demo.alpaca_train demo.alpaca_val 1 demo.io train demo.eval.
Proof.
  intros Hg Hl Hs He. unfold fit_ready. rewrite Hl, Hs, He.
  repeat split; try (by eexists); try lia; try (vm_compute; congruence).
Qed.


(** C7 at a partition of two conversations, of two and of five turns. *)
Lemma format_dataset_records_witness :
  let turn s := {| deita.role := "user"; deita.content := s |} in
  let ds := [ {| deita.messages := [turn "q1"; turn "a1"] |};
              {| deita.messages := [turn "q2"; turn "a2"; turn "q3"; turn "a3"; turn "q4"] |} ] in
  Forall (fun e => (2 <= length (deita.messages e))%nat) ds
  /\ deita.format_dataset ds false
     = Ok [sft_record "q1" "" "a1"; sft_record "q2" "" "a2"]
  /\ deita.format_dataset ds true
     = Ok [sft_record "q1" "" "a1"; sft_record "q2" "" "a2"; sft_record "q3" "" "a3"]
  /\ forall multi, exists recs,
       deita.format_dataset ds multi = Ok recs /\ Forall well_formed_record recs.
Proof.
  cbv zeta.
  assert (Hlen : Forall (fun e => (2 <= length (deita.messages e))%nat)
            [ {| deita.messages := [ {| deita.role := "user"; deita.content := "q1" |};
                                     {| deita.role := "user"; deita.content := "a1" |} ] |};
              {| deita.messages := [ {| deita.role := "user"; deita.content := "q2" |};
                                     {| deita.role := "user"; deita.content := "a2" |};
                                     {| deita.role := "user"; deita.content := "q3" |};
                                     {| deita.role := "user"; deita.content := "a3" |};
                                     {| deita.role := "user"; deita.content := "q4" |} ] |} ])
    by (repeat constructor; simpl; lia).
  split; [exact Hlen|].
  exact (proj1 format_dataset_records _ Hlen).
Defined.

(** C8 at an example whose input is empty. *)
Lemma prompt_template_always_with_input_witness :
  let example := sft_record "Name a colour." "" "Blue." in
  example !! "instruction" = Some "Name a colour."
  /\ example !! "input" = Some ""
  /\ alpaca.prompt_template example = Ok (alpaca.prompt_with_input "Name a colour." "").
Proof.
  cbv zeta.
  assert (H1 : sft_record "Name a colour." "" "Blue." !! "instruction" = Some "Name a colour.")
    by reflexivity.
  assert (H2 : sft_record "Name a colour." "" "Blue." !! "input" = Some "") by reflexivity.
  split; [exact H1|]. split; [exact H2|].
  exact (proj1 prompt_template_always_with_input _ _ _ H1 H2).
Defined.


(** C10 at a gated repository without a token. *)
Lemma download_from_hub_cases_witness :
  download.requires_authentication "meta-llama/Llama-2-7b-hf" = true
  /\ download.no_token None = true
  /\ exists msg,
       download.download_from_hub [] true (Some "meta-llama/Llama-2-7b-hf") None false false
                                  "checkpoints"
       = Raise (ValueError msg).
Proof.
  assert (H1 : download.requires_authentication "meta-llama/Llama-2-7b-hf" = true)
    by reflexivity.
  assert (H2 : download.no_token None = true) by reflexivity.
  split; [exact H1|]. split; [exact H2|].
  exact (proj1 (proj2 (download_from_hub_cases [] true None false false "checkpoints")
                      "meta-llama/Llama-2-7b-hf") H1 H2).
Defined.

(** C9 at acceptable arguments. *)
Lemma main_validates_arguments_first_witness :
  args_accepted demo.io demo.train demo.eval
  /\ full.validate_args "finetune/full.py" demo.repr demo.io demo.train demo.eval = Ok tt
  /\ exists t r,
       @full.main Z Z deita.Deita _ demo.deita_data_module
                  "finetune/full.py" demo.repr 2 1 None 1337 demo.deita_module
                  demo.io demo.train demo.eval
       = (full.CheckValidCheckpointDir (full.checkpoint_dir demo.io) :: t, r).
Proof.
  assert (H : args_accepted demo.io demo.train demo.eval)
    by (repeat split; discriminate).
  split; [exact H|].
  exact (proj1 (@main_validates_arguments_first Z Z deita.Deita _ demo.deita_data_module
                  "finetune/full.py" demo.repr 2 1 None 1337 demo.deita_module
                  demo.io demo.train demo.eval) H).
Defined.

(** C6 at the [Deita] module connected with a batch size of 2 and a
    sequence length of 10. *)
Lemma data_modules_store_connection_witness :
  let tokenizer := Some {| tokenizer_dir := "checkpoints/demo" |} in
  let connected := deita.connect deita.Deita_default tokenizer 2 (Some 10) in
  exists ready,
    deita.setup demo.deita_hub demo.instruction_template connected = Ok ready
    /\ forall dl, dl = deita.train_dataloader (G:=Z) ready \/ dl = deita.val_dataloader ready ->
         dl_batch_size dl = 2
         /\ (collate_max_seq_length <$> dl_collate_fn dl) = Some 10
         /\ (sft_tokenizer <$> dl_dataset dl) = Some tokenizer
         /\ (sft_max_seq_length <$> dl_dataset dl) = Some 10.
Proof.
  cbv zeta. eexists. 
  assert (H : deita.setup demo.deita_hub demo.instruction_template
                (deita.connect deita.Deita_default
                   (Some {| tokenizer_dir := "checkpoints/demo" |}) 2 (Some 10))
              = Ok _) by (vm_compute; reflexivity).
  split; [exact H|].
  exact (proj2 (proj2 (proj2 (proj1 (proj2 (proj2 (proj2 (proj2
           data_modules_store_connection))))
           Z _ demo.deita_hub demo.instruction_template deita.Deita_default
           (Some {| tokenizer_dir := "checkpoints/demo" |}) 2 (Some 10) _))) H).
Defined.




(** The run of the witness above: the second iteration logs 97.5, the mean
    of the losses 97 and 98 of the first two micro-batches, and not the 98 of
    its own micro-batch. *)
Example logged_loss_differs_from_raw_loss :
  exists r it m,
    full.fit 4 demo.fresh demo.alpaca_train demo.alpaca_val 1 false demo.io
             demo.train_accumulating demo.eval 1337 = Ok r
    /\ full.iterations r !! 1%nat = Some it
    /\ full.LogDict m 2 ∈ full.it_events it
    /\ (full.it_loss it == 98)%Q
    /\ (full.loss m == 195 # 2)%Q.
Proof.
  eexists _, _, _. split; [vm_compute; reflexivity|]. split; [reflexivity|].
  split.
  { vm_compute. repeat first [apply list_elem_of_here | apply list_elem_of_further]. }
  split; vm_compute; reflexivity.
Qed.

(** The checkpoint names, at two step counts. *)
Example checkpoint_names :
  checkpoint_path demo.io 3 = "out/full/step-000003.pth"
  /\ checkpoint_path demo.io 1234567 = "out/full/step-1234567.pth".
Proof. split; reflexivity. Qed.

(** ** The further properties at concrete inputs *)

Lemma demo_deita_fit_ready :
  fit_ready demo.deita_train demo.deita_val 1 demo.io demo.train demo.eval.
Proof.
  unfold fit_ready.
  repeat split; try (by eexists); try lia; try (vm_compute; congruence).
Qed.



(** [download_from_hub_patterns] at a download of the safetensors weights of
    [microsoft/phi-2]. *)
Lemma download_from_hub_patterns_witness :
  exists call convert,
    download.download_from_hub [] true (Some "microsoft/phi-2") None true false "checkpoints"
    = Ok (download.Downloaded call convert)
    /\ download.allow_patterns call
       = ["tokenizer*"; "generation_config.json"]
         ++ (if download.contains "Qwen" "microsoft/phi-2" then ["qwen.tiktoken"] else [])
         ++ (if false then [] else if true then ["*.safetensors"] else ["*.bin*"])
    /\ convert = true
    /\ (true = true -> false = false /\ true = true)
    /\ download.local_dir call = "checkpoints" +:+ "/" +:+ "microsoft/phi-2"
    /\ download.revision call
       = (if decide ("microsoft/phi-2" = "microsoft/phi-1_5")
          then Some "24f9ea14df973a49a0d87c16d04df88d90067468"
          else if decide ("microsoft/phi-2" = "microsoft/phi-2")
               then Some "834565c23f9b28b96ccbeabe614dd906b6db551a"
               else None).
Proof.
  eexists _, _.
  assert (H : download.download_from_hub [] true (Some "microsoft/phi-2") None true false
                                         "checkpoints"
              = Ok (download.Downloaded _ _)) by reflexivity.
  split; [exact H|].
  exact (download_from_hub_patterns [] true "microsoft/phi-2" None true false "checkpoints"
           _ _ H).
Defined.

(** [get_dataloaders_deita] at the hub dataset of four and two
    conversations. *)
Lemma get_dataloaders_deita_witness :
  let tokenizer := {| tokenizer_dir := "checkpoints/demo" |} in
  exists (train_dataloader val_dataloader : DataLoader SFTDataset Z),
    @full.get_dataloaders deita.Deita Z
       (deita.Deita_data_module demo.deita_hub demo.instruction_template)
       deita.Deita_default tokenizer demo.train
    = Ok (train_dataloader, val_dataloader)
    /\ exists dataset train_part test_part,
         demo.deita_hub (deita.repo_id deita.Deita_default) ["train_sft"; "test_sft"]
         = Ok dataset
         /\ dataset !! 0%nat = Some train_part
         /\ dataset !! 1%nat = Some test_part
         /\ deita.format_dataset train_part
              (deita.include_multiturn_conversations deita.Deita_default)
            = Ok (sft_data (dl_dataset train_dataloader))
         /\ deita.format_dataset test_part
              (deita.include_multiturn_conversations deita.Deita_default)
            = Ok (sft_data (dl_dataset val_dataloader))
         /\ sft_tokenizer (dl_dataset train_dataloader) = Some tokenizer
         /\ sft_tokenizer (dl_dataset val_dataloader) = Some tokenizer
         /\ dl_batch_size train_dataloader = full.micro_batch_size demo.train
         /\ dl_batch_size val_dataloader = full.micro_batch_size demo.train
         /\ dl_shuffle train_dataloader = true
         /\ dl_generator train_dataloader
            = Some (manual_seed (deita.seed deita.Deita_default))
         /\ dl_shuffle val_dataloader = false
         /\ dl_drop_last train_dataloader = false
         /\ dl_drop_last val_dataloader = false.
Proof.
  cbv zeta. eexists _, _.
  assert (H : @full.get_dataloaders deita.Deita Z
                (deita.Deita_data_module demo.deita_hub demo.instruction_template)
                deita.Deita_default {| tokenizer_dir := "checkpoints/demo" |} demo.train
              = Ok (_, _)) by (vm_compute; reflexivity).
  split; [exact H|].
  exact (get_dataloaders_deita demo.deita_hub demo.instruction_template
           deita.Deita_default {| tokenizer_dir := "checkpoints/demo" |} demo.train _ _ H).
Defined.

(** [validate_leading_batches] at the validation loader of the [Alpaca]
    module, two examples in batches of one. *)
Lemma validate_leading_batches_witness :
  dl_shuffle demo.alpaca_val = false
  /\ dl_drop_last demo.alpaca_val = false
  /\ 0 < dl_batch_size demo.alpaca_val
  /\ let data := full.getitems (dl_dataset demo.alpaca_val) in
     let batches := chunks (length data) (Z.to_nat (dl_batch_size demo.alpaca_val)) data in
     concat batches = data
     /\ (Z.of_nat (length batches) < full.max_iters demo.eval ->
         full.validate 0 demo.alpaca_val {| tokenizer_dir := "checkpoints/demo" |} demo.eval
                       1337 = Raise StopIteration)
     /\ (full.max_iters demo.eval <= Z.of_nat (length batches) ->
         forall v val' default',
           full.validate 0 demo.alpaca_val {| tokenizer_dir := "checkpoints/demo" |}
                         demo.eval 1337 = Ok (v, val', default') ->
           full.val_losses v
           = full.chunked_cross_entropy 0
               <$> take (Z.to_nat (full.max_iters demo.eval)) batches).
Proof.
  assert (H1 : dl_shuffle demo.alpaca_val = false) by reflexivity.
  assert (H2 : dl_drop_last demo.alpaca_val = false) by reflexivity.
  assert (H3 : 0 < dl_batch_size demo.alpaca_val) by (vm_compute; reflexivity).
  split; [exact H1|]. split; [exact H2|]. split; [exact H3|].
  exact (validate_leading_batches 0 demo.alpaca_val {| tokenizer_dir := "checkpoints/demo" |}
           demo.eval 1337 H1 H2 H3).
Defined.

(** [fit_needs_two_validation_batches] at a validation loader over a single
    example. *)
Lemma fit_needs_two_validation_batches_witness :
  is_Some (full.checkpoint_dir demo.io)
  /\ full.getitems (dl_dataset demo.alpaca_train) <> []
  /\ 0 < dl_batch_size demo.single_val
  /\ batches_per_epoch full.getitems demo.single_val < 2
  /\ full.fit 6 demo.fresh demo.alpaca_train demo.single_val 1 false demo.io demo.train
              demo.eval 1337 = Raise StopIteration.
Proof.
  assert (H : is_Some (full.checkpoint_dir demo.io)) by (by eexists).
  assert (H1 : full.getitems (dl_dataset demo.alpaca_train) <> []) by (vm_compute; congruence).
  assert (H2 : 0 < dl_batch_size demo.single_val) by (vm_compute; reflexivity).
  assert (H3 : batches_per_epoch full.getitems demo.single_val < 2)
    by (vm_compute; reflexivity).
  split; [exact H|]. split; [exact H1|]. split; [exact H2|]. split; [exact H3|].
  exact (proj2 (fit_needs_two_validation_batches 6 demo.fresh demo.alpaca_train
                  demo.single_val 1 false demo.io demo.train demo.eval 1337 H) H1 H2 H3).
Defined.

(** [fit_respects_max_steps] at a run capped at two optimizer steps. *)
Lemma fit_respects_max_steps_witness :
  full.max_steps demo.train_capped = Some 2
  /\ 2 <> 0
  /\ exists r,
       full.fit 6 demo.fresh demo.alpaca_train demo.alpaca_val 1 false demo.io
                demo.train_capped demo.eval 1337 = Ok r
       /\ Forall (fun it => full.step_count (full.it_state it) <= 2) (full.iterations r)
       /\ full.step_count (full.state (full.final r))
          <= Z.max 2 (full.step_count demo.fresh)
       /\ (full.finished r = true ->
           2 <= full.step_count (full.state (full.final r))
           \/ exists e, full.epochs demo.train_capped = Some e
                        /\ e <= epoch (full.train_iterator (full.final r))).
Proof.
  assert (H1 : full.max_steps demo.train_capped = Some 2) by reflexivity.
  assert (H2 : 2 <> 0) by lia.
  split; [exact H1|]. split; [exact H2|].
  eexists.
  assert (H : full.fit 6 demo.fresh demo.alpaca_train demo.alpaca_val 1 false demo.io
                       demo.train_capped demo.eval 1337 = Ok _)
    by (vm_compute; reflexivity).
  split; [exact H|].
  exact (fit_respects_max_steps 6 demo.fresh demo.alpaca_train demo.alpaca_val 1 false
           demo.io demo.train_capped demo.eval 1337 _ 2 H1 H2 H).
Defined.

(** [fit_iterations_count] at three epochs of four batches: thirteen
    iterations. *)
Lemma fit_iterations_count_witness :
  loader_ready full.getitems 1 demo.alpaca_train
  /\ full.epochs demo.train = Some 3
  /\ 0 < 3
  /\ (full.max_steps demo.train = None \/ full.max_steps demo.train = Some 0)
  /\ exists r,
       full.fit 20 demo.fresh demo.alpaca_train demo.alpaca_val 1 false demo.io demo.train
                demo.eval 1337 = Ok r
       /\ full.finished r = true
       /\ length (full.iterations r)
          = (Z.to_nat (3 * batches_per_epoch full.getitems demo.alpaca_train + 1) - 0)%nat.
Proof.
  assert (H1 : loader_ready full.getitems 1 demo.alpaca_train)
    by (split; vm_compute; congruence).
  assert (H2 : full.epochs demo.train = Some 3) by reflexivity.
  assert (H3 : 0 < 3) by lia.
  assert (H4 : full.max_steps demo.train = None \/ full.max_steps demo.train = Some 0)
    by (left; reflexivity).
  split; [exact H1|]. split; [exact H2|]. split; [exact H3|]. split; [exact H4|].
  eexists.
  assert (H : full.fit 20 demo.fresh demo.alpaca_train demo.alpaca_val 1 false demo.io
                       demo.train demo.eval 1337 = Ok _)
    by (vm_compute; reflexivity).
  split; [exact H|].
  match type of H with
  | _ = Ok ?r => assert (Hf : full.finished r = true) by reflexivity
  end.
  split; [exact Hf|].
  exact (fit_iterations_count 20 demo.fresh demo.alpaca_train demo.alpaca_val 1 false
           demo.io demo.train demo.eval 1337 _ 3 H1 H2 H3 H4 H Hf).
Defined.

(** [fit_epochs_cover_training_set] at the first six iterations of the run
    on the [Alpaca] loaders. *)
Lemma fit_epochs_cover_training_set_witness :
  loader_ready full.getitems 1 demo.alpaca_train
  /\ dl_drop_last demo.alpaca_train = false
  /\ exists r,
       full.fit 6 demo.fresh demo.alpaca_train demo.alpaca_val 1 false demo.io demo.train
                demo.eval 1337 = Ok r
       /\ let n := Z.to_nat (batches_per_epoch full.getitems demo.alpaca_train) in
          forall j : nat,
            ((j + 1) * n <= length (full.iterations r))%nat ->
            concat (full.it_batch <$> take n (drop (j * n) (full.iterations r)))
            ≡ₚ full.getitems (dl_dataset demo.alpaca_train).
Proof.
  assert (H1 : loader_ready full.getitems 1 demo.alpaca_train)
    by (split; vm_compute; congruence).
  assert (H2 : dl_drop_last demo.alpaca_train = false) by reflexivity.
  split; [exact H1|]. split; [exact H2|].
  eexists.
  assert (H : full.fit 6 demo.fresh demo.alpaca_train demo.alpaca_val 1 false demo.io
                       demo.train demo.eval 1337 = Ok _)
    by (vm_compute; reflexivity).
  split; [exact H|].
  exact (fit_epochs_cover_training_set 6 demo.fresh demo.alpaca_train demo.alpaca_val 1
           demo.io demo.train demo.eval 1337 _ H1 H2 H).
Defined.

(** [resume_true_raises] at an output directory with two checkpoints of
    [fit] and the final one of [main]. *)
Lemma resume_true_raises_witness :
  let listing := ["hparams.yaml"; "step-000003.pth"; "step-000006.pth";
                  "lit_model_finetuned.pth"] in
  Forall (fun name => py_endswith ".pth" name -> written_by_full name) listing
  /\ exists e,
       full.resume_from (full.ResumeBool true) "out/full" listing = Raise e
       /\ (e = IndexError \/ exists msg, e = ValueError msg).
Proof.
  cbv zeta.
  assert (H : Forall (fun name => py_endswith ".pth" name -> written_by_full name)
                ["hparams.yaml"; "step-000003.pth"; "step-000006.pth";
                 "lit_model_finetuned.pth"]).
  { apply Forall_cons_2; [intros []|].
    apply Forall_cons_2; [intros _; right; by exists 3|].
    apply Forall_cons_2; [intros _; right; by exists 6|].
    apply Forall_cons_2; [intros _; by left|].
    apply Forall_nil_2. }
  split; [exact H|].
  exact (resume_true_raises "out/full" _ H).
Defined.

(** [tokenize_yields_stories] at a file of two stories, read by the first of
    two workers. *)
Lemma tokenize_yields_stories_witness :
  let tokenizer := {| tokenizer_dir := "checkpoints/demo" |} in
  let data := [ {[ "story" := " Once upon a time. " ]}; {[ "story" := "The end." ]} ] in
  let stories := [" Once upon a time. "; "The end."] in
  (v ← py_getitem demo.environ "DATA_OPTIMIZER_GLOBAL_RANK"; py_int v) = Ok 0
  /\ (v ← py_getitem demo.environ "DATA_OPTIMIZER_NUM_WORKERS"; py_int v) = Ok 2
  /\ Forall2 (fun example story => example !! "story" = Some story) data stories
  /\ demo.story_file "TinyStories_all_data/data00.json" = Ok data
  /\ tinystories.tokenize demo.story_file demo.story_encode demo.environ
       "TinyStories_all_data/data00.json" (Some tokenizer)
     = ((fun story => demo.story_encode tokenizer (py_strip story) true false) <$> stories,
        Ok tt).
Proof.
  cbv zeta.
  assert (H1 : (v ← py_getitem demo.environ "DATA_OPTIMIZER_GLOBAL_RANK"; py_int v) = Ok 0)
    by (vm_compute; reflexivity).
  assert (H2 : (v ← py_getitem demo.environ "DATA_OPTIMIZER_NUM_WORKERS"; py_int v) = Ok 2)
    by (vm_compute; reflexivity).
  assert (H3 : Forall2 (fun example story => example !! "story" = Some story)
                 [ ({[ "story" := " Once upon a time. " ]} : gmap string string);
                   {[ "story" := "The end." ]} ]
                 [" Once upon a time. "; "The end."])
    by (repeat constructor).
  assert (H4 : demo.story_file "TinyStories_all_data/data00.json" = Ok _) by reflexivity.
  split; [exact H1|]. split; [exact H2|]. split; [exact H3|]. split; [exact H4|].
  exact (proj1 (tokenize_yields_stories demo.story_file demo.story_encode demo.environ
                  "TinyStories_all_data/data00.json" {| tokenizer_dir := "checkpoints/demo" |}
                  0 2 _ _ H1 H2 H3) H4).
Defined.
